(** * A shallow embedding of the list store of telegram-list-bot

    The development follows [src/list_manager.py] (class [ListManager]),
    [src/config.py] ([BotConfig], [Messages]) and [src/exceptions.py].

    - Python [str] values are sequences of Unicode code points: [pystr].
    - A Python [dict] keeps insertion order and has unique keys: an
      association list with in-place update ([Dict]).
    - [self.lists] holds whatever [json.load] produced, so its values are
      dynamically typed Python values ([PyVal]); [len], [in], [append] and
      [remove] raise on the values that do not support them.
    - Methods run in a state-and-exception monad over the object and its
      environment (files, clock, logger).
    - The content of a file is a sequence of code points too: the text its
      bytes decode to, where a code point that is not a Unicode scalar value
      (a lone surrogate) stands for bytes that are not UTF-8.  Reading such
      a file raises [UnicodeDecodeError], writing such a string raises
      [UnicodeEncodeError] once the file is truncated.
    - The environment says which operations on files fail and how far they
      got: a copy or a write that fails can leave a part of the file.
    - A float is kept as the literal it was read from.  What [str.lower],
      [repr] and the wording of the errors of [json] and of the codec give,
      and the interpreter's limits on the digits of an integer and on the
      depth of recursion, are left to a parameter, [PyRuntime]. *)

From Stdlib Require Import List NArith ZArith String Ascii Bool Lia Arith.
From Stdlib Require Import DecimalString.
Import ListNotations.

Set Implicit Arguments.
Set Warnings "-register-all".

(** ** Python strings *)

Module Str.

Definition pystr := list N.

(** An ASCII literal as a Python string. *)
Definition u (s : string) : pystr := map N_of_ascii (list_ascii_of_string s).

Fixpoint eqb (a b : pystr) : bool :=
  match a, b with
  | [], [] => true
  | x :: a', y :: b' => N.eqb x y && eqb a' b'
  | _, _ => false
  end.

(** Truth value of a string: [bool(s)]. *)
Definition truthy (s : pystr) : bool :=
  match s with [] => false | _ :: _ => true end.

(** [len(s)] *)
Definition len (s : pystr) : Z := Z.of_nat (List.length s).

(** [str.isspace] on one code point, the table of CPython's
    [_PyUnicode_IsWhitespace]. *)
Definition isspace (c : N) : bool :=
  ((9 <=? c) && (c <=? 13) || (28 <=? c) && (c <=? 32) ||
   (c =? 133) || (c =? 160) || (c =? 5760) ||
   (8192 <=? c) && (c <=? 8202) || (c =? 8232) || (c =? 8233) ||
   (c =? 8239) || (c =? 8287) || (c =? 12288))%N.

Fixpoint lstrip (s : pystr) : pystr :=
  match s with
  | [] => []
  | c :: r => if isspace c then lstrip r else s
  end.

Definition rstrip (s : pystr) : pystr := rev (lstrip (rev s)).

(** [s.strip()] *)
Definition strip (s : pystr) : pystr := rstrip (lstrip s).

Fixpoint startswith (p s : pystr) : bool :=
  match p, s with
  | [], _ => true
  | x :: p', y :: s' => N.eqb x y && startswith p' s'
  | _ :: _, [] => false
  end.

(** [sub in s] for two strings. *)
Fixpoint contains (sub s : pystr) : bool :=
  startswith sub s ||
  match s with
  | [] => false
  | _ :: s' => contains sub s'
  end.

(** [s.split(',')]: never empty, one more piece than there are commas. *)
Fixpoint split_comma (s : pystr) : list pystr :=
  match s with
  | [] => [[]]
  | c :: r =>
      if N.eqb c 44 then [] :: split_comma r
      else match split_comma r with
           | [] => [[c]]
           | p :: ps => (c :: p) :: ps
           end
  end.

(** ["sep".join(parts)] *)
Fixpoint join (sep : pystr) (parts : list pystr) : pystr :=
  match parts with
  | [] => []
  | [p] => p
  | p :: ps => p ++ sep ++ join sep ps
  end.

(** [str(z)] for an integer. *)
Definition of_Z (z : Z) : pystr := u (NilZero.string_of_int (Z.to_int z)).

(** A lowering function for examples: [str.lower] restricted to ASCII
    letters.  The development itself is parametric in [lower]. *)
Definition ascii_lower (s : pystr) : pystr :=
  map (fun c => if ((65 <=? c) && (c <=? 90))%N then (c + 32)%N else c) s.

(** A code point that UTF-8 has bytes for: below the surrogates (from
    U+D800), or above them (to U+DFFF) and up to U+10FFFF. *)
Definition scalar (c : N) : bool :=
  ((c <? 55296) || ((57343 <? c) && (c <=? 1114111)))%N.

(** A text that [encode('utf-8')] takes; as the content of a file, a text
    that [decode('utf-8')] gives. *)
Definition utf8 (s : pystr) : bool := forallb scalar s.

(** The characters before the first one that UTF-8 has no bytes for. *)
Fixpoint scalar_prefix (s : pystr) : pystr :=
  match s with
  | [] => []
  | c :: r => if scalar c then c :: scalar_prefix r else []
  end.

End Str.

Import Str.

(** ** Python dictionaries: insertion-ordered, unique keys *)

Module Dict.

Section WithValue.
Variable V : Type.

Definition t := list (pystr * V).

(** [d[k]] / [d.get(k)] *)
Fixpoint get (k : pystr) (d : t) : option V :=
  match d with
  | [] => None
  | (k', v) :: r => if Str.eqb k' k then Some v else get k r
  end.

(** [d[k] = v]: an existing key keeps its position, a new key goes last. *)
Fixpoint set (k : pystr) (v : V) (d : t) : t :=
  match d with
  | [] => [(k, v)]
  | (k', v') :: r => if Str.eqb k' k then (k', v) :: r else (k', v') :: set k v r
  end.

(** [del d[k]] *)
Fixpoint del (k : pystr) (d : t) : t :=
  match d with
  | [] => []
  | (k', v') :: r => if Str.eqb k' k then r else (k', v') :: del k r
  end.

Definition keys (d : t) : list pystr := map fst d.
Definition values (d : t) : list V := map snd d.

(** [dict(pairs)]: later pairs overwrite earlier ones. *)
Definition of_pairs (ps : list (pystr * V)) : t :=
  fold_left (fun d kv => set (fst kv) (snd kv) d) ps [].

End WithValue.

End Dict.

(** ** Python values, as [json.load] builds them *)

Inductive PyVal : Type :=
| VNone
| VBool (b : bool)
| VInt (z : Z)
| VFloat (lit : pystr)   (* a float, kept as the literal it was read from *)
| VStr (s : pystr)
| VList (l : list PyVal)
| VDict (d : list (pystr * PyVal)).

(** ** The [json] module: [json.dumps(v, ensure_ascii=False, indent=2)] and
    [json.loads] *)

Module Json.

Definition hexdigit (n : N) : N :=
  if (n <? 10)%N then (48 + n)%N else (87 + n)%N.

(** [ESCAPE_DCT] of [json.encoder]: the quote, the backslash and the control
    characters are escaped, everything else is written as it is. *)
Definition escape_char (c : N) : pystr :=
  if (c =? 34)%N then [92; 34]%N
  else if (c =? 92)%N then u "\\"
  else if (c =? 10)%N then u "\n"
  else if (c =? 13)%N then u "\r"
  else if (c =? 9)%N then u "\t"
  else if (c =? 8)%N then u "\b"
  else if (c =? 12)%N then u "\f"
  else if (c <? 32)%N then u "\u00" ++ [hexdigit (c / 16); hexdigit (c mod 16)]
  else [c].

Definition encode_str (s : pystr) : pystr :=
  34%N :: flat_map escape_char s ++ [34%N].

(** Newline and indentation at nesting level [lvl]. *)
Definition nl (lvl : nat) : pystr := 10%N :: repeat 32%N (2 * lvl).

Fixpoint encode (lvl : nat) (v : PyVal) : pystr :=
  match v with
  | VNone => u "null"
  | VBool true => u "true"
  | VBool false => u "false"
  | VInt z => Str.of_Z z
  | VFloat lit => lit
  | VStr s => encode_str s
  | VList [] => u "[]"
  | VList (x :: xs) =>
      u "[" ++ nl (S lvl) ++ encode (S lvl) x ++
      (fix rest (l : list PyVal) : pystr :=
         match l with
         | [] => []
         | y :: ys => u "," ++ nl (S lvl) ++ encode (S lvl) y ++ rest ys
         end) xs ++
      nl lvl ++ u "]"
  | VDict [] => u "{}"
  | VDict ((k, x) :: xs) =>
      u "{" ++ nl (S lvl) ++ encode_str k ++ u ": " ++ encode (S lvl) x ++
      (fix rest (l : list (pystr * PyVal)) : pystr :=
         match l with
         | [] => []
         | (k', y) :: ys =>
             u "," ++ nl (S lvl) ++ encode_str k' ++ u ": " ++
             encode (S lvl) y ++ rest ys
         end) xs ++
      nl lvl ++ u "}"
  end.

Definition dumps (v : PyVal) : pystr := encode 0 v.

(** *** Decoding *)

(** [WHITESPACE = [ \t\n\r]*] *)
Definition is_ws (c : N) : bool :=
  ((c =? 32) || (c =? 9) || (c =? 10) || (c =? 13))%N.

Fixpoint skip_ws (s : pystr) : pystr :=
  match s with
  | c :: r => if is_ws c then skip_ws r else s
  | [] => []
  end.

Definition hexval (c : N) : option N :=
  if ((48 <=? c) && (c <=? 57))%N then Some (c - 48)%N
  else if ((97 <=? c) && (c <=? 102))%N then Some (c - 87)%N
  else if ((65 <=? c) && (c <=? 70))%N then Some (c - 55)%N
  else None.

Definition hex4 (a b c d : N) : option N :=
  match hexval a, hexval b, hexval c, hexval d with
  | Some x, Some y, Some z, Some w => Some (((x * 16 + y) * 16 + z) * 16 + w)%N
  | _, _, _, _ => None
  end.

(** [BACKSLASH] of [json.decoder] *)
Definition unescape (c : N) : option N :=
  if (c =? 34)%N then Some 34%N
  else if (c =? 92)%N then Some 92%N
  else if (c =? 47)%N then Some 47%N
  else if (c =? 98)%N then Some 8%N
  else if (c =? 102)%N then Some 12%N
  else if (c =? 110)%N then Some 10%N
  else if (c =? 114)%N then Some 13%N
  else if (c =? 116)%N then Some 9%N
  else None.

(** The body of a string literal, after its opening quote: the characters
    read, each marked when it came from a [\uXXXX] escape, and the text after
    the closing quote.  A raw control character is an error (strict mode). *)
Fixpoint scan_units (s : pystr) : option (list (N * bool) * pystr) :=
  match s with
  | [] => None
  | c :: r =>
      if (c =? 34)%N then Some ([], r)
      else if (c =? 92)%N then
        match r with
        | [] => None
        | e :: r1 =>
            if (e =? 117)%N then
              match r1 with
              | a :: b :: c' :: d :: r2 =>
                  match hex4 a b c' d with
                  | Some n =>
                      match scan_units r2 with
                      | Some (us, rest) => Some ((n, true) :: us, rest)
                      | None => None
                      end
                  | None => None
                  end
              | _ => None
              end
            else
              match unescape e with
              | Some n =>
                  match scan_units r1 with
                  | Some (us, rest) => Some ((n, false) :: us, rest)
                  | None => None
                  end
              | None => None
              end
        end
      else if (c <? 32)%N then None
      else
        match scan_units r with
        | Some (us, rest) => Some ((c, false) :: us, rest)
        | None => None
        end
  end.

(** Two adjacent [\u] escapes that form a UTF-16 surrogate pair are one
    character. *)
Fixpoint pair_surrogates (us : list (N * bool)) : pystr :=
  match us with
  | [] => []
  | (hi, esc) :: tl =>
      match tl with
      | (lo, true) :: tl' =>
          if esc && (55296 <=? hi)%N && (hi <=? 56319)%N
                 && (56320 <=? lo)%N && (lo <=? 57343)%N
          then (65536 + ((hi - 55296) * 1024 + (lo - 56320)))%N
                 :: pair_surrogates tl'
          else hi :: pair_surrogates tl
      | _ => hi :: pair_surrogates tl
      end
  end.

(** [py_scanstring], after the opening quote. *)
Definition scanstring (s : pystr) : option (pystr * pystr) :=
  match scan_units s with
  | Some (us, rest) => Some (pair_surrogates us, rest)
  | None => None
  end.

Definition is_digit (c : N) : bool := ((48 <=? c) && (c <=? 57))%N.

Fixpoint span_digits (s : pystr) : pystr * pystr :=
  match s with
  | c :: r =>
      if is_digit c then let (ds, rest) := span_digits r in (c :: ds, rest)
      else ([], s)
  | [] => ([], [])
  end.

Definition digits_value (ds : pystr) : Z :=
  fold_left (fun acc c => (acc * 10 + Z.of_N (c - 48))%Z) ds 0%Z.

(** [NUMBER_RE]: an optional minus sign, then 0 or a digit string without
    leading zero, then an optional fraction (a dot and digits) and an optional
    exponent (e or E, an optional sign, digits); the longest match at the head
    of [s]. *)
Definition scan_int_part (s : pystr) : option (pystr * pystr) :=
  match s with
  | c :: r =>
      if (c =? 48)%N then Some ([c], r)
      else if is_digit c then
        let (ds, rest) := span_digits r in Some (c :: ds, rest)
      else None
  | [] => None
  end.

Definition scan_frac (s : pystr) : pystr * pystr :=
  match s with
  | c :: r =>
      if (c =? 46)%N then
        match span_digits r with
        | ([], _) => ([], s)
        | (ds, rest) => (c :: ds, rest)
        end
      else ([], s)
  | [] => ([], [])
  end.

Definition scan_exp (s : pystr) : pystr * pystr :=
  match s with
  | c :: r =>
      if ((c =? 101) || (c =? 69))%N then
        match r with
        | sg :: r' =>
            if ((sg =? 43) || (sg =? 45))%N then
              match span_digits r' with
              | ([], _) => ([], s)
              | (ds, rest) => (c :: sg :: ds, rest)
              end
            else
              match span_digits r with
              | ([], _) => ([], s)
              | (ds, rest) => (c :: ds, rest)
              end
        | [] => ([], s)
        end
      else ([], s)
  | [] => ([], [])
  end.

Definition scan_number (s : pystr) : option (PyVal * pystr) :=
  let '(neg, s1) :=
    match s with
    | c :: r => if (c =? 45)%N then (true, r) else (false, s)
    | [] => (false, s)
    end in
  match scan_int_part s1 with
  | None => None
  | Some (ip, s2) =>
      let (fp, s3) := scan_frac s2 in
      let (ep, s4) := scan_exp s3 in
      match fp, ep with
      | [], [] =>
          Some (VInt (if neg then - digits_value ip else digits_value ip)%Z, s4)
      | _, _ =>
          Some (VFloat ((if neg then [45%N] else []) ++ ip ++ fp ++ ep), s4)
      end
  end.

Definition strip_prefix (p s : pystr) : option pystr :=
  if Str.startswith p s then Some (skipn (List.length p) s) else None.

(** What stops [json.load] on a document, other than a character out of
    place: the interpreter's limit on the digits of an integer, and its
    limit on recursion. *)
Inductive Limit : Type :=
| TooManyDigits (digits : nat)   (* [int(s)] on a literal of that many digits *)
| TooDeep (in_object : bool).    (* one more object, or one more array *)

(** What the scanner comes back with. *)
Inductive Scan (A : Type) : Type :=
| Found (a : A)
| Malformed                      (* [JSONDecodeError] *)
| Over (l : Limit).              (* [ValueError], [RecursionError] *)
Arguments Malformed {A}.
Arguments Over {A} l.

(** The loop of [JSONArray], from the first element on. *)
Fixpoint array_loop (scan : pystr -> Scan (PyVal * pystr)) (n : nat)
    (s : pystr) (acc : list PyVal) : Scan (PyVal * pystr) :=
  match n with
  | O => Malformed
  | S n' =>
      match scan s with
      | Malformed => Malformed
      | Over l => Over l
      | Found (v, r) =>
          match skip_ws r with
          | c :: r' =>
              if (c =? 93)%N then Found (VList (rev (v :: acc)), r')
              else if (c =? 44)%N then array_loop scan n' (skip_ws r') (v :: acc)
              else Malformed
          | [] => Malformed
          end
      end
  end.

(** The loop of [JSONObject], from the opening quote of a key on. *)
Fixpoint object_loop (scan : pystr -> Scan (PyVal * pystr)) (n : nat)
    (s : pystr) (acc : list (pystr * PyVal)) : Scan (PyVal * pystr) :=
  match n with
  | O => Malformed
  | S n' =>
      match s with
      | q :: s0 =>
          if negb (q =? 34)%N then Malformed else
          match scanstring s0 with
          | None => Malformed
          | Some (k, r) =>
              match skip_ws r with
              | c :: r1 =>
                  if negb (c =? 58)%N then Malformed else
                  match scan (skip_ws r1) with
                  | Malformed => Malformed
                  | Over l => Over l
                  | Found (v, r2) =>
                      match skip_ws r2 with
                      | c2 :: r3 =>
                          if (c2 =? 125)%N
                          then Found (VDict (Dict.of_pairs (rev ((k, v) :: acc))), r3)
                          else if (c2 =? 44)%N
                          then object_loop scan n' (skip_ws r3) ((k, v) :: acc)
                          else Malformed
                      | [] => Malformed
                      end
                  end
              | [] => Malformed
              end
          end
      | [] => Malformed
      end
  end.

(** [int(s)] on an integer literal: [max_digits] is
    [sys.get_int_max_str_digits()], 0 for no limit. *)
Definition int_digits (z : Z) : nat := List.length (Str.of_Z (Z.abs z)).

Definition int_of_literal (max_digits : nat) (z : Z) (rest : pystr)
  : Scan (PyVal * pystr) :=
  if ((0 <? max_digits) && (max_digits <? int_digits z))%nat
  then Over (TooManyDigits (int_digits z))
  else Found (VInt z, rest).

(** [scan_once]: one value at the head of [s].  [room] is the number of
    objects and arrays that may still be entered, one inside the other,
    before the recursion limit. *)
Fixpoint scan_once (max_digits room : nat) (s : pystr) : Scan (PyVal * pystr) :=
  match s with
  | [] => Malformed
  | c :: r =>
      if (c =? 34)%N then
        match scanstring r with
        | Some (str, rest) => Found (VStr str, rest)
        | None => Malformed
        end
      else if (c =? 123)%N then
        match room with
        | O => Over (TooDeep true)
        | S room' =>
            match skip_ws r with
            | c' :: r' =>
                if (c' =? 125)%N then Found (VDict [], r')
                else object_loop (scan_once max_digits room') (List.length r)
                       (skip_ws r) []
            | [] => Malformed
            end
        end
      else if (c =? 91)%N then
        match room with
        | O => Over (TooDeep false)
        | S room' =>
            match skip_ws r with
            | c' :: r' =>
                if (c' =? 93)%N then Found (VList [], r')
                else array_loop (scan_once max_digits room') (List.length r)
                       (skip_ws r) []
            | [] => Malformed
            end
        end
      else
        match strip_prefix (u "null") s with
        | Some rest => Found (VNone, rest)
        | None =>
        match strip_prefix (u "true") s with
        | Some rest => Found (VBool true, rest)
        | None =>
        match strip_prefix (u "false") s with
        | Some rest => Found (VBool false, rest)
        | None =>
        match scan_number s with
        | Some (VInt z, rest) => int_of_literal max_digits z rest
        | Some res => Found res
        | None =>
        match strip_prefix (u "NaN") s with
        | Some rest => Found (VFloat (u "NaN"), rest)
        | None =>
        match strip_prefix (u "Infinity") s with
        | Some rest => Found (VFloat (u "Infinity"), rest)
        | None =>
        match strip_prefix (u "-Infinity") s with
        | Some rest => Found (VFloat (u "-Infinity"), rest)
        | None => Malformed
        end end end end end end end
  end.

(** [json.loads]: one value, surrounded by whitespace only. *)
Definition loads (max_digits room : nat) (s : pystr) : Scan PyVal :=
  match scan_once max_digits room (skip_ws s) with
  | Found (v, rest) =>
      match skip_ws rest with
      | [] => Found v
      | _ :: _ => Malformed
      end
  | Malformed => Malformed
  | Over l => Over l
  end.

(** *** The text of a collection of string lists, spelled out *)

(** The items of a list after the first, at nesting level [lvl]. *)
Definition strs_tail (lvl : nat) (items : list pystr) : pystr :=
  flat_map (fun y => u "," ++ nl lvl ++ encode_str y) items.

(** The members of a dictionary after the first, at nesting level [lvl]. *)
Definition members_tail (lvl : nat) (ms : list (pystr * list pystr)) : pystr :=
  flat_map (fun kv => u "," ++ nl lvl ++ encode_str (fst kv) ++ u ": "
                      ++ encode lvl (VList (map VStr (snd kv)))) ms.

(** The characters [scan_units] gets back from an escaped string: only the
    control characters without a short escape come from a [\u] escape. *)
Definition unit_of (c : N) : N * bool :=
  (c, negb ((c =? 34) || (c =? 92) || (c =? 10) || (c =? 13) || (c =? 9)
            || (c =? 8) || (c =? 12))%N && (c <? 32)%N).

End Json.

(** ** [config.py] *)

Record BotConfig : Type := {
  data_file : pystr;
  max_list_name_length : Z;
  max_item_length : Z;
  max_lists_per_user : Z;
  max_items_per_list : Z;
  backup_enabled : bool;
  backup_interval_hours : Z
}.

(** [BotConfig()] *)
Definition default_config : BotConfig := {|
  data_file := u "lists_data.json";
  max_list_name_length := 50;
  max_item_length := 200;
  max_lists_per_user := 50;
  max_items_per_list := 100;
  backup_enabled := true;
  backup_interval_hours := 24
|}.

(** The templates of class [Messages], each with its [.format] applied. *)
Module Messages.

Definition ok_mark : pystr := [9989%N; 32%N].            (* check mark, space *)
Definition err_mark : pystr := [10060%N; 32%N].          (* cross mark, space *)
Definition warn_mark : pystr := [9888%N; 65039%N; 32%N]. (* warning sign, space *)
Definition bin_mark : pystr := [128465%N; 65039%N; 32%N].
Definition memo_mark : pystr := [128221%N; 32%N].

Definition LIST_CREATED (name : pystr) : pystr :=
  ok_mark ++ u "Created list '" ++ name ++ u "'".
Definition LIST_EXISTS (name : pystr) : pystr :=
  err_mark ++ u "List '" ++ name ++ u "' already exists!".
Definition LIST_NOT_FOUND (name : pystr) : pystr :=
  err_mark ++ u "List '" ++ name ++ u "' not found!".
Definition ITEM_ADDED (item list_name : pystr) : pystr :=
  ok_mark ++ u "Added '" ++ item ++ u "' to '" ++ list_name ++ u "'".
Definition ITEM_EXISTS (item list_name : pystr) : pystr :=
  warn_mark ++ u "'" ++ item ++ u "' is already in '" ++ list_name ++ u "'".
Definition ITEM_REMOVED (item list_name : pystr) : pystr :=
  ok_mark ++ u "Removed '" ++ item ++ u "' from '" ++ list_name ++ u "'".
Definition ITEM_NOT_FOUND (item list_name : pystr) : pystr :=
  err_mark ++ u "'" ++ item ++ u "' not found in '" ++ list_name ++ u "'".
Definition LIST_DELETED (name : pystr) : pystr :=
  bin_mark ++ u "Deleted list '" ++ name ++ u "'".
Definition NO_LISTS : pystr :=
  memo_mark ++ u "No lists created yet! Use 'create <list_name>' to create one.".
Definition EMPTY_LIST (name : pystr) : pystr :=
  memo_mark ++ u "List '" ++ name ++ u "' is empty".
Definition NO_SEARCH_RESULTS (term : pystr) : pystr :=
  err_mark ++ u "No items found containing '" ++ term ++ u "'".

Definition INVALID_LIST_NAME (max_len : Z) : pystr :=
  err_mark ++ u "List name must be 1-" ++ Str.of_Z max_len ++ u " characters long".
Definition INVALID_ITEM (max_len : Z) : pystr :=
  err_mark ++ u "Item must be 1-" ++ Str.of_Z max_len ++ u " characters long".
Definition TOO_MANY_LISTS (max_lists : Z) : pystr :=
  err_mark ++ u "Maximum " ++ Str.of_Z max_lists ++ u " lists allowed".
Definition TOO_MANY_ITEMS (max_items : Z) : pystr :=
  err_mark ++ u "Maximum " ++ Str.of_Z max_items ++ u " items per list allowed".

End Messages.

(** ** [exceptions.py], and the built-in exceptions the code can meet *)

Inductive Exn : Type :=
| ValidationError (msg : pystr)
| ListNotFoundError (msg : pystr)
| ListExistsError (msg : pystr)
| ItemNotFoundError (msg : pystr)
| ItemExistsError (msg : pystr)
| LimitExceededError (msg : pystr)
| DataStorageError (msg : pystr)
| IOError (msg : pystr)
| JSONDecodeError (msg : pystr)
| TypeError (msg : pystr)
| AttributeError (msg : pystr)
| ValueError (msg : pystr)
| KeyError (msg : pystr)    (* no method raises it: keys come from the dictionary *)
| UnicodeDecodeError (msg : pystr)   (* a [ValueError]: the file is not UTF-8 *)
| UnicodeEncodeError (c : N) (position : nat)   (* a [ValueError]: no bytes for [c] *)
| RecursionError (msg : pystr).

(** [str(e)] *)
Definition exn_str (e : Exn) : pystr :=
  match e with
  | ValidationError m | ListNotFoundError m | ListExistsError m
  | ItemNotFoundError m | ItemExistsError m | LimitExceededError m
  | DataStorageError m | IOError m | JSONDecodeError m | TypeError m
  | AttributeError m | ValueError m | KeyError m
  | UnicodeDecodeError m | RecursionError m => m
  | UnicodeEncodeError c position =>
      u "'utf-8' codec can't encode character '" ++ [92%N; 117%N]
      ++ map Json.hexdigit [c / 4096; (c / 256) mod 16; (c / 16) mod 16; c mod 16]%N
      ++ u "' in position " ++ Str.of_Z (Z.of_nat position)
      ++ u ": surrogates not allowed"
  end.

(** The error categories of the bot's own exception classes. *)
Inductive Category : Type :=
| Validation | NotFound | AlreadyExists | LimitExceeded | StorageFailure.

Definition category (e : Exn) : option Category :=
  match e with
  | ValidationError _ => Some Validation
  | ListNotFoundError _ | ItemNotFoundError _ => Some NotFound
  | ListExistsError _ | ItemExistsError _ => Some AlreadyExists
  | LimitExceededError _ => Some LimitExceeded
  | DataStorageError _ => Some StorageFailure
  | _ => None
  end.

(** ** What the Python runtime supplies from its own tables *)

Record PyRuntime : Type := {
  lower : pystr -> pystr;          (* [str.lower] *)
  repr : PyVal -> pystr;           (* [repr], which [str()] uses off strings *)
  decode_error : pystr -> pystr;   (* the text of [json]'s error on a document *)
  utf8_error : pystr -> pystr;     (* the text of the codec's error on a file *)
  int_max_str_digits : nat;        (* [sys.get_int_max_str_digits()], 0: no limit *)
  nesting_room : nat               (* the objects and arrays [json.load] enters one
                                      inside the other before the recursion limit,
                                      past the two of a mapping of lists *)
}.

(** A runtime for examples over ASCII text. *)
Definition ascii_runtime : PyRuntime := {|
  lower := Str.ascii_lower;
  repr := fun v => Json.dumps v;
  decode_error := fun _ => u "Expecting value";
  utf8_error := fun _ => u "'utf-8' codec can't decode byte";
  int_max_str_digits := 4300;
  nesting_room := 100
|}.

(** ** Dynamic operations on the values of [self.lists] *)

Module Py.

Definition type_name (v : PyVal) : pystr :=
  match v with
  | VNone => u "NoneType"
  | VBool _ => u "bool"
  | VInt _ => u "int"
  | VFloat _ => u "float"
  | VStr _ => u "str"
  | VList _ => u "list"
  | VDict _ => u "dict"
  end.

Definition is_str (s : pystr) (v : PyVal) : bool :=
  match v with
  | VStr s' => Str.eqb s' s
  | _ => false
  end.

(** [len(v)] *)
Definition len (v : PyVal) : Exn + Z :=
  match v with
  | VStr s => inr (Str.len s)
  | VList l => inr (Z.of_nat (List.length l))
  | VDict d => inr (Z.of_nat (List.length d))
  | _ => inl (TypeError (u "object of type '" ++ type_name v ++ u "' has no len()"))
  end.

(** [item in v], for a string [item] *)
Definition contains (item : pystr) (v : PyVal) : Exn + bool :=
  match v with
  | VList l => inr (existsb (is_str item) l)
  | VStr s => inr (Str.contains item s)
  | VDict d => inr (existsb (Str.eqb item) (map fst d))
  | _ => inl (TypeError (u "argument of type '" ++ type_name v ++ u "' is not iterable"))
  end.

(** [v.append(item)] *)
Definition append (item : pystr) (v : PyVal) : Exn + PyVal :=
  match v with
  | VList l => inr (VList (l ++ [VStr item]))
  | _ => inl (AttributeError
                (u "'" ++ type_name v ++ u "' object has no attribute 'append'"))
  end.

Fixpoint remove_first (item : pystr) (l : list PyVal) : option (list PyVal) :=
  match l with
  | [] => None
  | x :: r =>
      if is_str item x then Some r
      else match remove_first item r with
           | Some r' => Some (x :: r')
           | None => None
           end
  end.

(** [v.remove(item)] *)
Definition remove (item : pystr) (v : PyVal) : Exn + PyVal :=
  match v with
  | VList l =>
      match remove_first item l with
      | Some l' => inr (VList l')
      | None => inl (ValueError (u "list.remove(x): x not in list"))
      end
  | _ => inl (AttributeError
                (u "'" ++ type_name v ++ u "' object has no attribute 'remove'"))
  end.

(** [iter(v)], run to its end *)
Definition iter (v : PyVal) : Exn + list PyVal :=
  match v with
  | VList l => inr l
  | VStr s => inr (map (fun c => VStr [c]) s)
  | VDict d => inr (map (fun kv => VStr (fst kv)) d)
  | _ => inl (TypeError (u "'" ++ type_name v ++ u "' object is not iterable"))
  end.

(** A float literal denotes zero when its mantissa has no digit but 0 (a
    literal that underflows to zero is not covered). *)
Fixpoint zero_mantissa (lit : pystr) : bool :=
  match lit with
  | [] => true
  | c :: r =>
      if ((c =? 101) || (c =? 69))%N then true
      else if ((c =? 45) || (c =? 46) || (c =? 48))%N then zero_mantissa r
      else false
  end.

(** [bool(v)] *)
Definition truth (v : PyVal) : bool :=
  match v with
  | VNone => false
  | VBool b => b
  | VInt z => negb (z =? 0)%Z
  | VFloat lit => negb (zero_mantissa lit)
  | VStr s => Str.truthy s
  | VList l => match l with [] => false | _ => true end
  | VDict d => match d with [] => false | _ => true end
  end.

End Py.

(** ** The object and its environment *)

Inductive Level : Type := DEBUG | INFO | WARNING | ERROR.

(** How the write of a file can fail. *)
Inductive WriteFault : Type :=
| OpenFails (msg : pystr)                 (* [open(path, 'w')] raises: the file is untouched *)
| WriteFails (written : nat) (msg : pystr). (* the file is truncated, a prefix is written *)

(** The content of a file is kept as characters: the text its bytes decode
    to, with a code point that is not [Str.scalar] standing for bytes that
    are not UTF-8. *)
Record State : Type := {
  lists : Dict.t PyVal;             (* [self.lists] *)
  files : Dict.t pystr;             (* the file system: path to content *)
  log : list (Level * pystr);       (* the calls made to [logger], oldest first *)
  clock : pystr;                    (* [datetime.now(pytz.UTC).strftime('%Y%m%d_%H%M%S')] *)
  read_fault : option pystr;        (* set: opening a file for reading raises [IOError] *)
  copy_fault : option pystr;        (* set: [shutil.copy2] raises [IOError] *)
  copy_partial : option nat;        (* when the copy fails with its source open: whether
                                       it opened the destination, and how much of the
                                       source reached it *)
  write_fault : option WriteFault;  (* set: writing a file raises [IOError] *)
  encode_flushed : nat              (* when a text cannot be encoded: how much of it
                                       was handed to the file in earlier pieces *)
}.

Definition with_lists (d : Dict.t PyVal) (st : State) : State :=
  {| lists := d; files := files st; log := log st; clock := clock st;
     read_fault := read_fault st; copy_fault := copy_fault st;
     copy_partial := copy_partial st; write_fault := write_fault st;
     encode_flushed := encode_flushed st |}.

Definition with_files (f : Dict.t pystr) (st : State) : State :=
  {| lists := lists st; files := f; log := log st; clock := clock st;
     read_fault := read_fault st; copy_fault := copy_fault st;
     copy_partial := copy_partial st; write_fault := write_fault st;
     encode_flushed := encode_flushed st |}.

Definition with_log (l : list (Level * pystr)) (st : State) : State :=
  {| lists := lists st; files := files st; log := l; clock := clock st;
     read_fault := read_fault st; copy_fault := copy_fault st;
     copy_partial := copy_partial st; write_fault := write_fault st;
     encode_flushed := encode_flushed st |}.

(** ** Statements: state passing with exceptions *)

Inductive Outcome (A : Type) : Type :=
| Ret (a : A)
| Raise (e : Exn).
Arguments Ret {A} a.
Arguments Raise {A} e.

Definition M (A : Type) : Type := State -> Outcome A * State.

Definition ret {A} (a : A) : M A := fun st => (Ret a, st).

Definition raise {A} (e : Exn) : M A := fun st => (Raise e, st).

Definition bind {A B} (c : M A) (k : A -> M B) : M B :=
  fun st =>
    match c st with
    | (Ret a, st') => k a st'
    | (Raise e, st') => (Raise e, st')
    end.

(** [try: c  except Exception as e: h e]; a handler re-raises what its
    [except] clauses do not name. *)
Definition catch {A} (c : M A) (h : Exn -> M A) : M A :=
  fun st =>
    match c st with
    | (Ret a, st') => (Ret a, st')
    | (Raise e, st') => h e st'
    end.

(** The outcome of the first statements of a [try] block, handed to the code
    that picks the handler. *)
Definition attempt {A} (c : M A) : M (Exn + A) :=
  fun st =>
    match c st with
    | (Ret a, st') => (Ret (inr a), st')
    | (Raise e, st') => (Ret (inl e), st')
    end.

Definition lift {A} (r : Exn + A) : M A :=
  match r with
  | inl e => raise e
  | inr a => ret a
  end.

Declare Scope py_scope.
Delimit Scope py_scope with py.
Notation "x <- c ;; k" := (bind c (fun x => k))
  (at level 61, c at next level, right associativity) : py_scope.
Notation "c ;; k" := (bind c (fun _ => k))
  (at level 61, right associativity) : py_scope.
Local Open Scope py_scope.

Definition get_lists : M (Dict.t PyVal) := fun st => (Ret (lists st), st).

(** [logger.<level>(msg)] *)
Definition logger (lvl : Level) (msg : pystr) : M unit :=
  fun st => (Ret tt, with_log (log st ++ [(lvl, msg)]) st).

(** [os.path.exists(path)] *)
Definition path_exists (path : pystr) : M bool :=
  fun st => (Ret (match Dict.get path (files st) with Some _ => true | None => false end), st).

(** [shutil.copy2(src, dst)]: it opens the source, then the destination,
    which that truncates, and copies piece by piece.  A copy that fails
    leaves the destination as it was when the source cannot be opened, and
    otherwise as [copy_partial] says: untouched, or with the start of the
    source for a content. *)
Definition copy2 (src dst : pystr) : M unit :=
  fun st =>
    match copy_fault st with
    | Some msg =>
        (Raise (IOError msg),
         match read_fault st, copy_partial st, Dict.get src (files st) with
         | None, Some n, Some content =>
             with_files (Dict.set dst (firstn n content) (files st)) st
         | _, _, _ => st
         end)
    | None =>
        match Dict.get src (files st) with
        | Some content => (Ret tt, with_files (Dict.set dst content (files st)) st)
        | None => (Raise (IOError (u "No such file or directory")), st)
        end
    end.

(** [open(path, 'r', encoding='utf-8')]: the content behind the open file,
    not decoded yet. *)
Definition open_read (path : pystr) : M pystr :=
  fun st =>
    match read_fault st with
    | Some msg => (Raise (IOError msg), st)
    | None =>
        match Dict.get path (files st) with
        | Some content => (Ret content, st)
        | None => (Raise (IOError (u "No such file or directory")), st)
        end
    end.

(** What a text in pieces leaves in the file when a character of it cannot
    be encoded: the pieces before the one with that character. *)
Definition flushed (st : State) (text : pystr) : nat :=
  Nat.min (encode_flushed st) (List.length (Str.scalar_prefix text)).

(** [f.write] on a piece with a character that UTF-8 has no bytes for. *)
Definition encode_error (st : State) (text : pystr) : Exn :=
  UnicodeEncodeError (nth (List.length (Str.scalar_prefix text)) text 0%N)
    (List.length (Str.scalar_prefix text) - flushed st text).

(** [with open(path, 'w', encoding='utf-8') as f:] and the writes of [text]
    to [f], piece by piece.  Opening truncates the file; the write that
    meets a character without bytes raises [UnicodeEncodeError], and what
    was written before it stays in the file. *)
Definition write_text (path text : pystr) : M unit :=
  fun st =>
    match write_fault st with
    | Some (OpenFails msg) => (Raise (IOError msg), st)
    | Some (WriteFails n msg) =>
        if Str.utf8 (firstn n text)
        then (Raise (IOError msg),
              with_files (Dict.set path (firstn n text) (files st)) st)
        else (Raise (encode_error st text),
              with_files (Dict.set path (firstn (flushed st text) text) (files st)) st)
    | None =>
        if Str.utf8 text
        then (Ret tt, with_files (Dict.set path text (files st)) st)
        else (Raise (encode_error st text),
              with_files (Dict.set path (firstn (flushed st text) text) (files st)) st)
    end.

(** [self.lists[k]] *)
Definition getitem (k : pystr) : M PyVal :=
  fun st =>
    match Dict.get k (lists st) with
    | Some v => (Ret v, st)
    | None => (Raise (KeyError k), st)
    end.

(** [self.lists[k] = v], and the update in place of the object at
    [self.lists[k]] *)
Definition setitem (k : pystr) (v : PyVal) : M unit :=
  fun st => (Ret tt, with_lists (Dict.set k v (lists st)) st).

(** [del self.lists[k]] *)
Definition delitem (k : pystr) : M unit :=
  fun st =>
    match Dict.get k (lists st) with
    | Some _ => (Ret tt, with_lists (Dict.del k (lists st)) st)
    | None => (Raise (KeyError k), st)
    end.

(** An [Optional[str]] that passes [if not x: raise ...]: neither [None] nor
    the empty string. *)
Definition resolved (o : option pystr) : option pystr :=
  match o with
  | Some (c :: s) => Some (c :: s)
  | _ => None
  end.

(** [sorted] on names: insertion by code point order, stable. *)
Fixpoint str_leb (a b : pystr) : bool :=
  match a, b with
  | [], _ => true
  | _ :: _, [] => false
  | x :: a', y :: b' => (x <? y)%N || ((x =? y)%N && str_leb a' b')
  end.

Fixpoint insert_sorted {V} (kv : pystr * V) (l : list (pystr * V)) : list (pystr * V) :=
  match l with
  | [] => [kv]
  | kv' :: r =>
      if str_leb (fst kv') (fst kv) then kv' :: insert_sorted kv r
      else kv :: l
  end.

Definition sorted_items {V} (d : list (pystr * V)) : list (pystr * V) :=
  fold_left (fun acc kv => insert_sorted kv acc) d [].

(** ** [class ListManager] *)

Section ListManager.

Variable rt : PyRuntime.
Variable cfg : BotConfig.   (* [self.config] *)

(** *** Persistence *)

Definition _backup_corrupted_file : M unit :=
  ex <- path_exists (data_file cfg) ;;
  if ex then
    st <- (fun st => (Ret st, st)) ;;
    let backup_name := data_file cfg ++ u ".backup_" ++ clock st in
    catch
      (copy2 (data_file cfg) backup_name ;;
       logger INFO (u "Corrupted file backed up to " ++ backup_name))
      (fun e =>
         match e with
         | IOError _ =>
             logger ERROR (u "Failed to backup corrupted file: " ++ exn_str e)
         | _ => raise e
         end)
  else ret tt.

(** What [json.load] raises at a limit of the interpreter. *)
Definition limit_error (l : Json.Limit) : Exn :=
  match l with
  | Json.TooManyDigits n =>
      ValueError
        (u "Exceeds the limit (" ++ Str.of_Z (Z.of_nat (int_max_str_digits rt))
         ++ u " digits) for integer string conversion: value has "
         ++ Str.of_Z (Z.of_nat n)
         ++ u " digits; use sys.set_int_max_str_digits() to increase the limit")
  | Json.TooDeep in_object =>
      RecursionError
        (u "maximum recursion depth exceeded while decoding a JSON "
         ++ (if in_object then u "object" else u "array")
         ++ u " from a unicode string")
  end.

(** [with open(path, 'r', encoding='utf-8') as f: json.load(f)]: [f.read()]
    decodes the content, then [json.loads] scans the text. *)
Definition json_load (path : pystr) : M PyVal :=
  content <- open_read path ;;
  if negb (Str.utf8 content)
  then raise (UnicodeDecodeError (utf8_error rt content))
  else
    match Json.loads (int_max_str_digits rt) (2 + nesting_room rt) content with
    | Json.Found v => ret v
    | Json.Malformed => raise (JSONDecodeError (decode_error rt content))
    | Json.Over l => raise (limit_error l)
    end.

Definition _load_data : M unit :=
  catch
    (ex <- path_exists (data_file cfg) ;;
     if ex then
       data <- json_load (data_file cfg) ;;
       match data with
       | VDict d => fun st => (Ret tt, with_lists d st)
       | _ =>
           logger WARNING (u "Invalid data format in " ++ data_file cfg) ;;
           fun st => (Ret tt, with_lists [] st)
       end
     else
       (fun st => (Ret tt, with_lists [] st)) ;;
       logger INFO (u "Data file " ++ data_file cfg ++ u " not found, starting fresh"))
    (fun e =>
       match e with
       | JSONDecodeError _ | IOError _ =>
           logger ERROR (u "Error loading data: " ++ exn_str e) ;;
           _backup_corrupted_file ;;
           fun st => (Ret tt, with_lists [] st)
       | _ => raise e
       end).

Definition _save_data : M unit :=
  catch
    (ex <- path_exists (data_file cfg) ;;
     (if backup_enabled cfg && ex
      then copy2 (data_file cfg) (data_file cfg ++ u ".backup")
      else ret tt) ;;
     ls <- get_lists ;;
     write_text (data_file cfg) (Json.dumps (VDict ls)) ;;
     logger DEBUG (u "Data saved to " ++ data_file cfg))
    (fun e =>
       match e with
       | IOError _ =>
           logger ERROR (u "Error saving data: " ++ exn_str e) ;;
           raise (DataStorageError (u "Failed to save data: " ++ exn_str e))
       | _ => raise e
       end).

(** [ListManager(config)]: [self.lists = {}], then [_load_data()], in the
    environment [env]. *)
Definition __init__ (env : State) : Outcome unit * State :=
  _load_data (with_lists [] env).

(** *** Validation and limits *)

Definition _validate_list_name (list_name : pystr) : Exn + unit :=
  if negb (Str.truthy list_name) || negb (Str.truthy (Str.strip list_name))
  then inl (ValidationError (u "List name cannot be empty"))
  else
    let list_name := Str.strip list_name in
    if (Str.len list_name >? max_list_name_length cfg)%Z
    then inl (ValidationError (Messages.INVALID_LIST_NAME (max_list_name_length cfg)))
    else inr tt.

Definition _validate_item (item : pystr) : Exn + unit :=
  if negb (Str.truthy item) || negb (Str.truthy (Str.strip item))
  then inl (ValidationError (u "Item cannot be empty"))
  else
    let item := Str.strip item in
    if (Str.len item >? max_item_length cfg)%Z
    then inl (ValidationError (Messages.INVALID_ITEM (max_item_length cfg)))
    else inr tt.

Fixpoint find_first_lower (list_name_lower : pystr) (names : list pystr) : option pystr :=
  match names with
  | [] => None
  | name :: r =>
      if Str.eqb (lower rt name) list_name_lower then Some name
      else find_first_lower list_name_lower r
  end.

Definition _find_list_name (ls : Dict.t PyVal) (list_name : pystr) : option pystr :=
  let list_name_lower := lower rt list_name in
  find_first_lower list_name_lower (Dict.keys ls).

Definition _check_list_limit (ls : Dict.t PyVal) : Exn + unit :=
  if (Z.of_nat (List.length ls) >=? max_lists_per_user cfg)%Z
  then inl (LimitExceededError (Messages.TOO_MANY_LISTS (max_lists_per_user cfg)))
  else inr tt.

Definition _check_item_limit (list_name : pystr) : M unit :=
  v <- getitem list_name ;;
  n <- lift (Py.len v) ;;
  if (n >=? max_items_per_list cfg)%Z
  then raise (LimitExceededError (Messages.TOO_MANY_ITEMS (max_items_per_list cfg)))
  else ret tt.

(** *** create_list *)

(** The two [except] clauses of [create_list]; [list_name] is the local
    variable as it stands when the exception is raised. *)
Definition create_list_except (list_name : pystr) (e : Exn) : M pystr :=
  match e with
  | ValidationError _ | ListExistsError _ | LimitExceededError _ =>
      logger WARNING (u "Failed to create list '" ++ list_name ++ u "': " ++ exn_str e) ;;
      ret (exn_str e)
  | _ =>
      logger ERROR (u "Unexpected error creating list '" ++ list_name ++ u "': " ++ exn_str e) ;;
      ret (Messages.err_mark ++ u "An error occurred while creating the list")
  end.

(** The body of [create_list]: its [try] block, with [except] for the clauses
    that follow it. *)
Definition create_list_under (except : pystr -> Exn -> M pystr)
    (list_name : pystr) : M pystr :=
  r <- attempt
         (lift (_validate_list_name list_name) ;;
          ls <- get_lists ;;
          lift (_check_list_limit ls)) ;;
  match r with
  | inl e => except list_name e
  | inr _ =>
      let list_name := Str.strip list_name in
      catch
        (ls <- get_lists ;;
         match resolved (_find_list_name ls list_name) with
         | Some _ => raise (ListExistsError (Messages.LIST_EXISTS list_name))
         | None =>
             setitem list_name (VList []) ;;
             _save_data ;;
             logger INFO (u "Created list: " ++ list_name) ;;
             ret (Messages.LIST_CREATED list_name)
         end)
        (except list_name)
  end.

Definition create_list (list_name : pystr) : M pystr :=
  create_list_under create_list_except list_name.

(** *** add_item *)

Definition add_item_except (list_name item : pystr) (e : Exn) : M pystr :=
  match e with
  | ValidationError _ | ListNotFoundError _ | ItemExistsError _ | LimitExceededError _ =>
      logger WARNING (u "Failed to add item '" ++ item ++ u "' to '" ++ list_name
                      ++ u "': " ++ exn_str e) ;;
      ret (exn_str e)
  | _ =>
      logger ERROR (u "Unexpected error adding item '" ++ item ++ u "' to '" ++ list_name
                    ++ u "': " ++ exn_str e) ;;
      ret (Messages.err_mark ++ u "An error occurred while adding the item")
  end.

(** The body of [add_item]: its [try] block, with [except] for the clauses
    that follow it. *)
Definition add_item_under (except : pystr -> pystr -> Exn -> M pystr)
    (list_name item : pystr) : M pystr :=
  r <- attempt
         (lift (_validate_item item) ;;
          ls <- get_lists ;;
          match resolved (_find_list_name ls list_name) with
          | None => raise (ListNotFoundError (Messages.LIST_NOT_FOUND list_name))
          | Some actual_list_name =>
              _check_item_limit actual_list_name ;;
              ret actual_list_name
          end) ;;
  match r with
  | inl e => except list_name item e
  | inr actual_list_name =>
      let item := Str.strip item in
      catch
        (v <- getitem actual_list_name ;;
         dup <- lift (Py.contains item v) ;;
         if dup : bool
         then raise (ItemExistsError (Messages.ITEM_EXISTS item actual_list_name))
         else
           v <- getitem actual_list_name ;;
           v' <- lift (Py.append item v) ;;
           setitem actual_list_name v' ;;
           _save_data ;;
           logger INFO (u "Added '" ++ item ++ u "' to '" ++ actual_list_name ++ u "'") ;;
           ret (Messages.ITEM_ADDED item actual_list_name))
        (except list_name item)
  end.

Definition add_item (list_name item : pystr) : M pystr :=
  add_item_under add_item_except list_name item.

(** *** add_multiple_items *)

(** What the body of the [for] loop did with one candidate. *)
Inductive Verdict : Type := Added | Skipped | Invalid | Errored.

(** The [try] block inside the loop, with its two [except] clauses. *)
Definition add_candidate (actual_list_name item : pystr) : M Verdict :=
  catch
    (lift (_validate_item item) ;;
     v <- getitem actual_list_name ;;
     dup <- lift (Py.contains item v) ;;
     if dup : bool then ret Skipped
     else
       v <- getitem actual_list_name ;;
       v' <- lift (Py.append item v) ;;
       setitem actual_list_name v' ;;
       ret Added)
    (fun e =>
       match e with
       | ValidationError _ => ret Invalid
       | _ => ret Errored
       end).

(** [added_items], [skipped_items], [failed_items] *)
Record Tally : Type := {
  added_items : list pystr;
  skipped_items : list pystr;
  failed_items : list pystr
}.

Definition tally (t : Tally) (item : pystr) (v : Verdict) : Tally :=
  match v with
  | Added =>
      {| added_items := added_items t ++ [item]; skipped_items := skipped_items t;
         failed_items := failed_items t |}
  | Skipped =>
      {| added_items := added_items t; skipped_items := skipped_items t ++ [item];
         failed_items := failed_items t |}
  | Invalid =>
      {| added_items := added_items t; skipped_items := skipped_items t;
         failed_items := failed_items t ++ [item ++ u " (invalid)"] |}
  | Errored =>
      {| added_items := added_items t; skipped_items := skipped_items t;
         failed_items := failed_items t ++ [item ++ u " (error)"] |}
  end.

(** [for item in items: ...] *)
Fixpoint add_candidates (actual_list_name : pystr) (items : list pystr) (t : Tally)
  : M Tally :=
  match items with
  | [] => ret t
  | item :: rest =>
      v <- add_candidate actual_list_name item ;;
      add_candidates actual_list_name rest (tally t item v)
  end.

Definition bullet (item : pystr) : pystr := u "  " ++ [8226%N; 32%N] ++ item.

(** [items = [item.strip() for item in items_text.split(',') if item.strip()]] *)
Definition split_items (items_text : pystr) : list pystr :=
  map Str.strip
    (filter (fun item => Str.truthy (Str.strip item)) (Str.split_comma items_text)).

Definition count (l : list pystr) : pystr := Str.of_Z (Z.of_nat (List.length l)).

(** [result_parts] *)
Definition result_parts (actual_list_name : pystr) (t : Tally) : list pystr :=
  (match added_items t with
   | [] => []
   | _ :: _ =>
       (Messages.ok_mark ++ u "Added " ++ count (added_items t) ++ u " items to '"
        ++ actual_list_name ++ u "':") :: map bullet (added_items t)
   end) ++
  (match skipped_items t with
   | [] => []
   | _ :: _ =>
       (Messages.warn_mark ++ u "Skipped " ++ count (skipped_items t)
        ++ u " duplicate items:") :: map bullet (skipped_items t)
   end) ++
  (match failed_items t with
   | [] => []
   | _ :: _ =>
       (Messages.err_mark ++ u "Failed to add " ++ count (failed_items t) ++ u " items:")
       :: map bullet (failed_items t)
   end).

Definition add_multiple_items_except (list_name : pystr) (e : Exn) : M pystr :=
  match e with
  | ValidationError _ | ListNotFoundError _ | LimitExceededError _ =>
      logger WARNING (u "Failed to add multiple items to '" ++ list_name ++ u "': "
                      ++ exn_str e) ;;
      ret (exn_str e)
  | _ =>
      logger ERROR (u "Unexpected error adding multiple items to '" ++ list_name
                    ++ u "': " ++ exn_str e) ;;
      ret (Messages.err_mark ++ u "An error occurred while adding the items")
  end.

(** The body of [add_multiple_items]: its [try] block, with [except] for the clauses
    that follow it. *)
Definition add_multiple_items_under (except : pystr -> Exn -> M pystr)
    (list_name items_text : pystr) : M pystr :=
  catch
    (ls <- get_lists ;;
     match resolved (_find_list_name ls list_name) with
     | None => raise (ListNotFoundError (Messages.LIST_NOT_FOUND list_name))
     | Some actual_list_name =>
         let items := split_items items_text in
         match items with
         | [] => raise (ValidationError (u "No valid items found"))
         | _ :: _ =>
             v <- getitem actual_list_name ;;
             n <- lift (Py.len v) ;;
             if (n + Z.of_nat (List.length items) >? max_items_per_list cfg)%Z
             then raise (LimitExceededError
                           (Messages.err_mark ++ u "Adding " ++ count items
                            ++ u " items would exceed the limit of "
                            ++ Str.of_Z (max_items_per_list cfg) ++ u " items per list"))
             else
               t <- add_candidates actual_list_name items
                      {| added_items := []; skipped_items := []; failed_items := [] |} ;;
               (match added_items t with
                | [] => ret tt
                | _ :: _ =>
                    _save_data ;;
                    logger INFO (u "Added " ++ count (added_items t) ++ u " items to '"
                                 ++ actual_list_name ++ u "': "
                                 ++ repr rt (VList (map VStr (added_items t))))
                end) ;;
               match result_parts actual_list_name t with
               | [] => ret (Messages.err_mark ++ u "No items were processed")
               | parts => ret (Str.join [10%N] parts)
               end
         end
     end)
    (except list_name).

Definition add_multiple_items (list_name items_text : pystr) : M pystr :=
  add_multiple_items_under add_multiple_items_except list_name items_text.

(** *** remove_item *)

Definition remove_item_except (list_name item : pystr) (e : Exn) : M pystr :=
  match e with
  | ListNotFoundError _ | ItemNotFoundError _ =>
      logger WARNING (u "Failed to remove item '" ++ item ++ u "' from '" ++ list_name
                      ++ u "': " ++ exn_str e) ;;
      ret (exn_str e)
  | _ =>
      logger ERROR (u "Unexpected error removing item '" ++ item ++ u "' from '"
                    ++ list_name ++ u "': " ++ exn_str e) ;;
      ret (Messages.err_mark ++ u "An error occurred while removing the item")
  end.

(** The body of [remove_item]: its [try] block, with [except] for the clauses
    that follow it. *)
Definition remove_item_under (except : pystr -> pystr -> Exn -> M pystr)
    (list_name item : pystr) : M pystr :=
  ls <- get_lists ;;
  match resolved (_find_list_name ls list_name) with
  | None =>
      except list_name item
        (ListNotFoundError (Messages.LIST_NOT_FOUND list_name))
  | Some actual_list_name =>
      let item := Str.strip item in
      catch
        (v <- getitem actual_list_name ;;
         present <- lift (Py.contains item v) ;;
         if negb present
         then raise (ItemNotFoundError (Messages.ITEM_NOT_FOUND item actual_list_name))
         else
           v <- getitem actual_list_name ;;
           v' <- lift (Py.remove item v) ;;
           setitem actual_list_name v' ;;
           _save_data ;;
           logger INFO (u "Removed '" ++ item ++ u "' from '" ++ actual_list_name ++ u "'") ;;
           ret (Messages.ITEM_REMOVED item actual_list_name))
        (except list_name item)
  end.

Definition remove_item (list_name item : pystr) : M pystr :=
  remove_item_under remove_item_except list_name item.

(** *** show_list *)

(** [str(v)], as an f-string formats it *)
Definition py_str (v : PyVal) : pystr :=
  match v with
  | VStr s => s
  | _ => repr rt v
  end.

Fixpoint numbered (i : Z) (items : list PyVal) : pystr :=
  match items with
  | [] => []
  | item :: r => Str.of_Z i ++ u ". " ++ py_str item ++ [10%N] ++ numbered (i + 1) r
  end.

Definition show_list_except (list_name : pystr) (e : Exn) : M pystr :=
  match e with
  | ListNotFoundError _ =>
      logger WARNING (u "Failed to show list '" ++ list_name ++ u "': " ++ exn_str e) ;;
      ret (exn_str e)
  | _ =>
      logger ERROR (u "Unexpected error showing list '" ++ list_name ++ u "': "
                    ++ exn_str e) ;;
      ret (Messages.err_mark ++ u "An error occurred while showing the list")
  end.

(** The body of [show_list]: its [try] block, with [except] for the clauses
    that follow it. *)
Definition show_list_under (except : pystr -> Exn -> M pystr)
    (list_name : pystr) : M pystr :=
  catch
    (ls <- get_lists ;;
     match resolved (_find_list_name ls list_name) with
     | None => raise (ListNotFoundError (Messages.LIST_NOT_FOUND list_name))
     | Some actual_list_name =>
         items <- getitem actual_list_name ;;
         if negb (Py.truth items) then ret (Messages.EMPTY_LIST actual_list_name)
         else
           n <- lift (Py.len items) ;;
           elems <- lift (Py.iter items) ;;
           ret (Str.strip
                  ([128203%N; 32%N] ++ u "**" ++ actual_list_name ++ u "** ("
                   ++ Str.of_Z n ++ u " items):" ++ [10%N] ++ numbered 1 elems))
     end)
    (except list_name).

Definition show_list (list_name : pystr) : M pystr :=
  show_list_under show_list_except list_name.

(** *** show_all_lists: no [try] around its body *)

Fixpoint all_lines (sorted_lists : list (pystr * PyVal)) : Exn + pystr :=
  match sorted_lists with
  | [] => inr []
  | (list_name, items) :: r =>
      match Py.len items with
      | inl e => inl e
      | inr n =>
          match all_lines r with
          | inl e => inl e
          | inr rest =>
              inr ([8226%N; 32%N] ++ list_name ++ u " (" ++ Str.of_Z n ++ u " items)"
                   ++ [10%N] ++ rest)
          end
      end
  end.

Definition show_all_lists : M pystr :=
  ls <- get_lists ;;
  match ls with
  | [] => ret Messages.NO_LISTS
  | _ :: _ =>
      lines <- lift (all_lines (sorted_items ls)) ;;
      ret (Str.strip ([128218%N; 32%N] ++ u "**All Lists:**" ++ [10%N] ++ lines))
  end.

(** *** delete_list *)

Definition delete_list_except (list_name : pystr) (e : Exn) : M pystr :=
  match e with
  | ListNotFoundError _ =>
      logger WARNING (u "Failed to delete list '" ++ list_name ++ u "': " ++ exn_str e) ;;
      ret (exn_str e)
  | _ =>
      logger ERROR (u "Unexpected error deleting list '" ++ list_name ++ u "': "
                    ++ exn_str e) ;;
      ret (Messages.err_mark ++ u "An error occurred while deleting the list")
  end.

(** The body of [delete_list]: its [try] block, with [except] for the clauses
    that follow it. *)
Definition delete_list_under (except : pystr -> Exn -> M pystr)
    (list_name : pystr) : M pystr :=
  catch
    (ls <- get_lists ;;
     match resolved (_find_list_name ls list_name) with
     | None => raise (ListNotFoundError (Messages.LIST_NOT_FOUND list_name))
     | Some actual_list_name =>
         delitem actual_list_name ;;
         _save_data ;;
         logger INFO (u "Deleted list: " ++ actual_list_name) ;;
         ret (Messages.LIST_DELETED actual_list_name)
     end)
    (except list_name).

Definition delete_list (list_name : pystr) : M pystr :=
  delete_list_under delete_list_except list_name.

(** *** search_item *)

(** [item.lower()] on a value of a list *)
Definition py_lower (item : PyVal) : Exn + pystr :=
  match item with
  | VStr s => inr (lower rt s)
  | _ => inl (AttributeError
                (u "'" ++ Py.type_name item ++ u "' object has no attribute 'lower'"))
  end.

(** The inner loop, over the items of one list. *)
Fixpoint search_in (search_term_lower list_name : pystr) (items : list PyVal)
  : Exn + list pystr :=
  match items with
  | [] => inr []
  | item :: r =>
      match py_lower item with
      | inl e => inl e
      | inr item_lower =>
          match search_in search_term_lower list_name r with
          | inl e => inl e
          | inr rest =>
              inr (if Str.contains search_term_lower item_lower
                   then ([128203%N; 32%N] ++ list_name ++ u ": " ++ py_str item) :: rest
                   else rest)
          end
      end
  end.

(** The outer loop, over [self.lists.items()]. *)
Fixpoint search_all (search_term_lower : pystr) (ls : list (pystr * PyVal))
  : Exn + list pystr :=
  match ls with
  | [] => inr []
  | (list_name, items) :: r =>
      match Py.iter items with
      | inl e => inl e
      | inr elems =>
          match search_in search_term_lower list_name elems with
          | inl e => inl e
          | inr here =>
              match search_all search_term_lower r with
              | inl e => inl e
              | inr rest => inr (here ++ rest)
              end
          end
      end
  end.

Definition search_item_except (search_term : pystr) (e : Exn) : M pystr :=
  match e with
  | ValidationError _ =>
      logger WARNING (u "Search validation error: " ++ exn_str e) ;;
      ret (exn_str e)
  | _ =>
      logger ERROR (u "Unexpected error searching for '" ++ search_term ++ u "': "
                    ++ exn_str e) ;;
      ret (Messages.err_mark ++ u "An error occurred while searching")
  end.

(** The body of [search_item]: its [try] block, with [except] for the clauses
    that follow it. *)
Definition search_item_under (except : pystr -> Exn -> M pystr)
    (search_term : pystr) : M pystr :=
  if negb (Str.truthy search_term) || negb (Str.truthy (Str.strip search_term))
  then except search_term (ValidationError (u "Search term cannot be empty"))
  else
    let search_term := Str.strip search_term in
    catch
      (ls <- get_lists ;;
       results <- lift (search_all (lower rt search_term) ls) ;;
       match results with
       | [] => ret (Messages.NO_SEARCH_RESULTS search_term)
       | _ :: _ =>
           ret ([128269%N; 32%N] ++ u "**Search results for '" ++ search_term ++ u "':**"
                ++ [10%N] ++ Str.join [10%N] results)
       end)
      (except search_term).

Definition search_item (search_term : pystr) : M pystr :=
  search_item_under search_item_except search_term.

(** *** get_stats: no [try] around its body, and a dictionary for a result *)

(** A Python number: an [int], or the [float] that [a / b] evaluates to. *)
Inductive Number : Type :=
| NInt (z : Z)
| NTrueDiv (a b : Z).

Record Stats : Type := {
  total_lists : Z;
  total_items : Z;
  average_items_per_list : Number;
  largest_list_size : Z
}.

(** [len(items) for items in self.lists.values()] *)
Fixpoint lens (vs : list PyVal) : Exn + list Z :=
  match vs with
  | [] => inr []
  | v :: r =>
      match Py.len v with
      | inl e => inl e
      | inr n =>
          match lens r with
          | inl e => inl e
          | inr ns => inr (n :: ns)
          end
      end
  end.

Definition sum (ns : list Z) : Z := fold_left Z.add ns 0%Z.

(** [max] of a sequence that is not empty *)
Definition maximum (ns : list Z) : Z :=
  match ns with
  | [] => 0%Z
  | n :: r => fold_left Z.max r n
  end.

Definition get_stats : M Stats :=
  ls <- get_lists ;;
  ns <- lift (lens (Dict.values ls)) ;;
  let total := sum ns in
  let nlists := Z.of_nat (List.length ls) in
  ret {| total_lists := nlists;
         total_items := total;
         average_items_per_list :=
           match ls with
           | [] => NInt 0
           | _ :: _ => NTrueDiv total nlists
           end;
         largest_list_size :=
           match ls with
           | [] => 0%Z
           | _ :: _ => maximum ns
           end |}.

End ListManager.

(** ** The public interface, as one type of calls *)

Inductive Call : Type :=
| CreateList (list_name : pystr)
| AddItem (list_name item : pystr)
| AddMultipleItems (list_name items_text : pystr)
| RemoveItem (list_name item : pystr)
| ShowList (list_name : pystr)
| ShowAllLists
| DeleteList (list_name : pystr)
| SearchItem (search_term : pystr)
| GetStats.

(** What a public method hands back: a [str], or the [dict] of [get_stats]. *)
Inductive Returned : Type :=
| RStr (s : pystr)
| RDict (s : Stats).

Definition fmap {A B} (f : A -> B) (c : M A) : M B :=
  fun st =>
    match c st with
    | (Ret a, st') => (Ret (f a), st')
    | (Raise e, st') => (Raise e, st')
    end.

Definition call (rt : PyRuntime) (cfg : BotConfig) (c : Call) : M Returned :=
  match c with
  | CreateList n => fmap RStr (create_list rt cfg n)
  | AddItem n x => fmap RStr (add_item rt cfg n x)
  | AddMultipleItems n t => fmap RStr (add_multiple_items rt cfg n t)
  | RemoveItem n x => fmap RStr (remove_item rt cfg n x)
  | ShowList n => fmap RStr (show_list rt n)
  | ShowAllLists => fmap RStr show_all_lists
  | DeleteList n => fmap RStr (delete_list rt cfg n)
  | SearchItem t => fmap RStr (search_item rt t)
  | GetStats => fmap RDict get_stats
  end.

(** The five methods that write to [self.lists]. *)
Definition mutating (c : Call) : bool :=
  match c with
  | CreateList _ | AddItem _ _ | AddMultipleItems _ _ | RemoveItem _ _ | DeleteList _ => true
  | _ => false
  end.

(** The methods whose body sits in [try ... except Exception]. *)
Definition guarded (c : Call) : bool :=
  match c with
  | ShowAllLists | GetStats => false
  | _ => true
  end.

(** What happens to an object over time: a call, or a change of the world
    around it (files, faults, clock) that leaves the object alone. *)
Inductive Event : Type :=
| Invoke (c : Call)
| Outside (env : State).

Definition step (rt : PyRuntime) (cfg : BotConfig) (st : State) (ev : Event) : State :=
  match ev with
  | Invoke c => snd (call rt cfg c st)
  | Outside env => with_log (log st) (with_lists (lists st) env)
  end.

Definition run (rt : PyRuntime) (cfg : BotConfig) (evs : list Event) (st : State) : State :=
  fold_left (step rt cfg) evs st.

(** ** The data model: names to lists of strings *)

Definition is_vstr (v : PyVal) : bool :=
  match v with
  | VStr _ => true
  | _ => false
  end.

Definition is_str_list (v : PyVal) : bool :=
  match v with
  | VList l => forallb is_vstr l
  | _ => false
  end.

(** [Dict[str, List[str]]] *)
Definition well_typed (ls : Dict.t PyVal) : bool :=
  forallb (fun kv => is_str_list (snd kv)) ls.

(** A collection given by its lists of strings. *)
Definition typed (tl : list (pystr * list pystr)) : Dict.t PyVal :=
  map (fun kv => (fst kv, VList (map VStr (snd kv)))) tl.

(** The strings of a value that is a list of strings. *)
Definition strings_of (v : PyVal) : list pystr :=
  match v with
  | VList l => flat_map (fun x => match x with VStr s => [s] | _ => [] end) l
  | _ => []
  end.

(** The number of keys that equal [name] up to letter case. *)
Definition case_matches (rt : PyRuntime) (ls : Dict.t PyVal) (name : pystr) : nat :=
  List.length (filter (fun k => Str.eqb (lower rt k) (lower rt name)) (Dict.keys ls)).

(** ** Shapes of outcomes, for stating what a method does *)

(** The tail of every writing method: [_save_data()], then the [INFO] entry
    and the confirmation, under the method's [except] clauses. *)
Definition then_save (cfg : BotConfig) (done confirmation : pystr)
    (except : Exn -> M pystr) : M pystr :=
  catch (_save_data cfg ;; logger INFO done ;; ret confirmation) except.

(** A handler that logs one entry and returns a string. *)
Definition quiet (h : Exn -> M pystr) : Prop :=
  forall e st, exists s entry, h e st = (Ret s, with_log (log st ++ [entry]) st).

(** The empty tally a call of [add_multiple_items] starts from. *)
Definition no_items : Tally :=
  {| added_items := []; skipped_items := []; failed_items := [] |}.

(** ** The specification's wording of add_many, to compare the code with *)

(** "splits raw_text on commas, trims each piece, discards empty pieces" *)
Definition spec_candidates (raw_text : pystr) : list pystr :=
  filter Str.truthy (map Str.strip (Str.split_comma raw_text)).

(** "validates item length/non-empty", on a candidate *)
Definition spec_valid (cfg : BotConfig) (item : pystr) : bool :=
  Str.truthy (Str.strip item) && (Str.len (Str.strip item) <=? max_item_length cfg)%Z.

(** "processes each candidate independently: validation failure -> invalid,
    exact-duplicate against current list content -> skipped, else ->
    appended and counted as added": what becomes of each candidate, in the
    order of the text. *)
Inductive Fate : Type := Appended | Duplicate | Rejected.

Fixpoint spec_fates (cfg : BotConfig) (content cands : list pystr)
  : list (pystr * Fate) :=
  match cands with
  | [] => []
  | c :: r =>
      if negb (spec_valid cfg c) then (c, Rejected) :: spec_fates cfg content r
      else if existsb (Str.eqb c) content then (c, Duplicate) :: spec_fates cfg content r
      else (c, Appended) :: spec_fates cfg (content ++ [c]) r
  end.

Definition spec_appended (fates : list (pystr * Fate)) : list pystr :=
  flat_map (fun cf => match snd cf with Appended => [fst cf] | _ => [] end) fates.

Definition spec_skipped (fates : list (pystr * Fate)) : list pystr :=
  flat_map (fun cf => match snd cf with Duplicate => [fst cf] | _ => [] end) fates.

Definition spec_invalid (fates : list (pystr * Fate)) : list pystr :=
  flat_map (fun cf => match snd cf with Rejected => [fst cf] | _ => [] end) fates.

(** "a composite multi-section message enumerating added, skipped, and
    failed items (each section omitted if empty)", "a generic nothing
    processed message only when every section is empty": a headline with
    the number of items, then one line for each item; the lines are joined
    by newlines. *)
Definition spec_section (before after : pystr) (items : list pystr) : list pystr :=
  match items with
  | [] => []
  | _ :: _ =>
      (before ++ Str.of_Z (Z.of_nat (List.length items)) ++ after)
      :: map (fun item => u "  " ++ [8226%N; 32%N] ++ item) items
  end.

Definition spec_report (list_name : pystr) (fates : list (pystr * Fate)) : pystr :=
  match
    spec_section (Messages.ok_mark ++ u "Added ")
      (u " items to '" ++ list_name ++ u "':") (spec_appended fates)
    ++ spec_section (Messages.warn_mark ++ u "Skipped ") (u " duplicate items:")
         (spec_skipped fates)
    ++ spec_section (Messages.err_mark ++ u "Failed to add ") (u " items:")
         (map (fun item => item ++ u " (invalid)") (spec_invalid fates))
  with
  | [] => Messages.err_mark ++ u "No items were processed"
  | line :: lines => Str.join [10%N] (line :: lines)
  end.

(** The wording again, with the code's three lists for an accumulator: the
    form in which the loop of the code is compared with it. *)
Fixpoint spec_add_many (cfg : BotConfig) (content cands : list pystr) (t : Tally)
  : list pystr * Tally :=
  match cands with
  | [] => (content, t)
  | c :: r =>
      if negb (spec_valid cfg c) then spec_add_many cfg content r (tally t c Invalid)
      else if existsb (Str.eqb c) content
      then spec_add_many cfg content r (tally t c Skipped)
      else spec_add_many cfg (content ++ [c]) r (tally t c Added)
  end.

(** ** What a call writes, read off the methods

    [effect c ls] is the collection a writing call leaves in [self.lists]
    when it gets as far as its write, and [None] when the call is rejected
    before that, or is a read.  Storage plays no part in it. *)

(** The loop of [add_multiple_items] on the value of the target list. *)
Fixpoint add_all (cfg : BotConfig) (items : list pystr) (v : PyVal) (t : Tally)
  : PyVal * Tally :=
  match items with
  | [] => (v, t)
  | item :: rest =>
      match _validate_item cfg item with
      | inl _ => add_all cfg rest v (tally t item Invalid)
      | inr _ =>
          match Py.contains item v with
          | inl _ => add_all cfg rest v (tally t item Errored)
          | inr true => add_all cfg rest v (tally t item Skipped)
          | inr false =>
              match Py.append item v with
              | inl _ => add_all cfg rest v (tally t item Errored)
              | inr v' => add_all cfg rest v' (tally t item Added)
              end
          end
      end
  end.

Definition effect (rt : PyRuntime) (cfg : BotConfig) (c : Call) (ls : Dict.t PyVal)
  : option (Dict.t PyVal) :=
  match c with
  | CreateList n =>
      match _validate_list_name cfg n, _check_list_limit cfg ls,
            resolved (_find_list_name rt ls (Str.strip n)) with
      | inr _, inr _, None => Some (Dict.set (Str.strip n) (VList []) ls)
      | _, _, _ => None
      end
  | AddItem n x =>
      match _validate_item cfg x, resolved (_find_list_name rt ls n) with
      | inr _, Some k =>
          match Dict.get k ls with
          | Some v =>
              match Py.len v, Py.contains (Str.strip x) v, Py.append (Str.strip x) v with
              | inr len, inr false, inr v' =>
                  if (len >=? max_items_per_list cfg)%Z then None
                  else Some (Dict.set k v' ls)
              | _, _, _ => None
              end
          | None => None
          end
      | _, _ => None
      end
  | AddMultipleItems n text =>
      match resolved (_find_list_name rt ls n), split_items text with
      | Some k, (_ :: _) as items =>
          match Dict.get k ls with
          | Some v =>
              match Py.len v with
              | inr len =>
                  if (len + Z.of_nat (List.length items) >? max_items_per_list cfg)%Z
                  then None
                  else
                    let (v', t) := add_all cfg items v no_items in
                    match added_items t with
                    | [] => None
                    | _ :: _ => Some (Dict.set k v' ls)
                    end
              | inl _ => None
              end
          | None => None
          end
      | _, _ => None
      end
  | RemoveItem n x =>
      match resolved (_find_list_name rt ls n) with
      | Some k =>
          match Dict.get k ls with
          | Some v =>
              match Py.contains (Str.strip x) v, Py.remove (Str.strip x) v with
              | inr true, inr v' => Some (Dict.set k v' ls)
              | _, _ => None
              end
          | None => None
          end
      | None => None
      end
  | DeleteList n =>
      match resolved (_find_list_name rt ls n) with
      | Some k =>
          match Dict.get k ls with
          | Some _ => Some (Dict.del k ls)
          | None => None
          end
      | None => None
      end
  | _ => None
  end.

(** The string of each method's [except Exception] clause. *)
Definition generic_error (c : Call) : pystr :=
  Messages.err_mark ++
  match c with
  | CreateList _ => u "An error occurred while creating the list"
  | AddItem _ _ => u "An error occurred while adding the item"
  | AddMultipleItems _ _ => u "An error occurred while adding the items"
  | RemoveItem _ _ => u "An error occurred while removing the item"
  | ShowList _ => u "An error occurred while showing the list"
  | DeleteList _ => u "An error occurred while deleting the list"
  | SearchItem _ => u "An error occurred while searching"
  | ShowAllLists | GetStats => []
  end.

(** *** The specification's wording of the boundary, to compare the code with *)

(** "Validation/NotFound/AlreadyExists/LimitExceeded are expected,
    user-facing outcomes" *)
Definition spec_expected (e : Exn) : bool :=
  match category e with
  | Some Validation | Some NotFound | Some AlreadyExists | Some LimitExceeded => true
  | Some StorageFailure | None => false
  end.

(** "caught at the operation boundary and rendered as a descriptive
    string"; a storage failure comes "as a generic failure string", and
    "anything not in the taxonomy" is "converted to a generic message":
    what the caller of [c] gets when the body of [c] ends in [o]. *)
Definition spec_boundary (c : Call) (o : Outcome Returned) : Returned :=
  match o with
  | Ret r => r
  | Raise e => RStr (if spec_expected e then exn_str e else generic_error c)
  end.

(** The body of each method with no clause [except] around it: what is
    raised in it comes out of it. *)
Definition try_block (rt : PyRuntime) (cfg : BotConfig) (c : Call) : M Returned :=
  match c with
  | CreateList n => fmap RStr (create_list_under rt cfg (fun _ => raise) n)
  | AddItem n x => fmap RStr (add_item_under rt cfg (fun _ _ => raise) n x)
  | AddMultipleItems n t => fmap RStr (add_multiple_items_under rt cfg (fun _ => raise) n t)
  | RemoveItem n x => fmap RStr (remove_item_under rt cfg (fun _ _ => raise) n x)
  | ShowList n => fmap RStr (show_list_under rt (fun _ => raise) n)
  | ShowAllLists => fmap RStr show_all_lists
  | DeleteList n => fmap RStr (delete_list_under rt cfg (fun _ => raise) n)
  | SearchItem t => fmap RStr (search_item_under rt (fun _ => raise) t)
  | GetStats => fmap RDict get_stats
  end.

(** How the outcome [a] of a method follows the outcome [b] of its body on
    its own: the string of [b], or the string that the boundary makes of
    the exception of [b]; the same collection, the same files. *)
Definition at_boundary (c : Call) (a b : Outcome pystr * State) : Prop :=
  fst a = Ret (match fst b with
               | Ret s => s
               | Raise e => if spec_expected e then exn_str e else generic_error c
               end)
  /\ lists (snd a) = lists (snd b)
  /\ files (snd a) = files (snd b).

(** How a method's outcome [r] after [st] follows [o], the effect of the
    call: a string comes back; and nothing is written and no file touched,
    or [ls'] is written and [_save_data] run on it, with the string [g] for
    a result when that fails. *)
Definition writes_then_saves (cfg : BotConfig) (g : pystr) (o : option (Dict.t PyVal))
    (st : State) (r : Outcome pystr * State) : Prop :=
  (exists s, fst r = Ret s) /\
  match o with
  | None => lists (snd r) = lists st /\ files (snd r) = files st
  | Some ls' =>
      lists (snd r) = ls'
      /\ files (snd r) = files (snd (_save_data cfg (with_lists ls' st)))
      /\ (fst (_save_data cfg (with_lists ls' st)) <> Ret tt -> fst r = Ret g)
  end.

(** ** Invariants of the collection *)

(** A stored item: a string that is not empty, also after trimming. *)
Definition good_item (v : PyVal) : bool :=
  match v with
  | VStr s => Str.truthy s && Str.truthy (Str.strip s)
  | _ => false
  end.

Definition good_list (v : PyVal) : bool :=
  match v with
  | VList l => forallb good_item l
  | _ => false
  end.

Definition good (ls : Dict.t PyVal) : bool :=
  forallb (fun kv => good_list (snd kv)) ls.

(** What holds of [self.lists] in every state reached from the empty
    collection: names are not empty and differ even when lowercased, and
    every value is a list of good items. *)
Definition invariant (rt : PyRuntime) (ls : Dict.t PyVal) : Prop :=
  NoDup (map (lower rt) (Dict.keys ls))
  /\ Forall (fun k => k <> []) (Dict.keys ls)
  /\ good ls = true.

(** ** States and inputs for examples *)

(** An object with no list yet, in a world with no file and no fault. *)
Definition fresh : State := {|
  lists := []; files := []; log := []; clock := u "20240101_120000";
  read_fault := None; copy_fault := None; copy_partial := None;
  write_fault := None; encode_flushed := 0
|}.

(** The same, on a disk that cannot be written. *)
Definition disk_full : State := {|
  lists := []; files := []; log := []; clock := u "20240101_120000";
  read_fault := None; copy_fault := None; copy_partial := None;
  write_fault := Some (OpenFails (u "[Errno 28] No space left on device"));
  encode_flushed := 0
|}.

(** A world whose data file holds [text]. *)
Definition world_with (cfg : BotConfig) (text : pystr) : State := {|
  lists := []; files := [(data_file cfg, text)]; log := [];
  clock := u "20240101_120000";
  read_fault := None; copy_fault := None; copy_partial := None;
  write_fault := None; encode_flushed := 0
|}.

(** [list1], [list2], ...: names for filling a collection. *)
Definition nth_name (i : nat) : pystr := u "list" ++ Str.of_Z (Z.of_nat i).

Definition create_many (first count : nat) : list Event :=
  map (fun i => Invoke (CreateList (nth_name i))) (seq first count).

(** The object after 49 lists were created, and after "milk" was too. *)
Definition forty_nine : State :=
  run ascii_runtime default_config (create_many 1 49) fresh.

Definition fifty : State :=
  snd (create_list ascii_runtime default_config (u "milk") forty_nine).

(** An object with the one, empty list "groceries". *)
Definition groceries_only : State := with_lists [(u "groceries", VList [])] fresh.

(** An object with the list "Groceries" that holds "milk". *)
Definition milk_list : State :=
  with_lists [(u "Groceries", VList [VStr (u "milk")])] fresh.

(** The same, reached through the public methods. *)
Definition groceries_milk : State :=
  run ascii_runtime default_config
    [Invoke (CreateList (u "Groceries")); Invoke (AddItem (u "groceries") (u "milk"))]
    fresh.

(** An object with the lists "A" (one item) and "B" (two items). *)
Definition two_lists : State :=
  with_lists [(u "A", VList [VStr (u "x")]);
              (u "B", VList [VStr (u "y"); VStr (u "z")])] fresh.

(** An object with the list "work", and after "milk" was created too. *)
Definition work_only : State :=
  run ascii_runtime default_config [Invoke (CreateList (u "work"))] fresh.

Definition work_and_milk : State :=
  snd (create_list ascii_runtime default_config (u "milk") work_only).

(** The text of a one-entry object from "a" to the number 1: brace, quote,
    a, quote, colon, space, 1, brace. *)
Definition number_text : pystr := [123; 34; 97; 34; 58; 32; 49; 125]%N.

(** The object built on a data file that holds [number_text]. *)
Definition adopted_number : State :=
  snd (__init__ ascii_runtime default_config (world_with default_config number_text)).

(** A data file of one byte, 0xFF, which is not UTF-8: the code point that
    stands for it is U+DCFF. *)
Definition byte_ff : pystr := [56575%N].

(** An integer literal of 4301 digits, and 103 opening brackets. *)
Definition long_integer : pystr := repeat 49%N 4301.

Definition deep_array : pystr := repeat 91%N 103.


(** A world in which [shutil.copy2] breaks off once it has opened its
    destination; the data file holds an empty object, and an earlier save
    has left a copy next to it. *)
Definition copy_breaks : State := {|
  lists := [(u "a", VList [])];
  files := [(data_file default_config, u "{}");
            (data_file default_config ++ u ".backup", u "{OLD}")];
  log := []; clock := u "20240101_120000";
  read_fault := None; copy_fault := Some (u "[Errno 28] No space left on device");
  copy_partial := Some 0%nat; write_fault := None; encode_flushed := 0
|}.

Unset Implicit Arguments.


(** * The front ends of the list store

    What follows embeds the callers of [ListManager]: the command line of
    [src/test_cli.py] ([parse_command], [handle_command]) and the pure
    methods of [TelegramListBot] in [src/telegram_bot.py] ([_parse_command],
    [_handle_command], [_parse_mention]), with what they use of
    [src/config.py] ([Commands], the usage templates of [Messages]) and
    [ListManager.get_help].

    [print] is modelled by its argument: a function that prints returns the
    list of the strings it printed.  What [format(x, '.1f')] gives for a
    number is left to a parameter, like [str.lower].  The handlers of
    [TelegramListBot] that talk to Telegram ([handle_message],
    [handle_mention], [start], [help_command]) are not embedded. *)

(** ** [str.split] without a separator *)

Module Split.

(** The longest prefix without a space, and what follows it. *)
Fixpoint span_word (s : pystr) : pystr * pystr :=
  match s with
  | [] => ([], [])
  | c :: r =>
      if Str.isspace c then ([], s)
      else let (w, rest) := span_word r in (c :: w, rest)
  end.

(** [s.split()]: the maximal runs of characters that are not spaces, in
    order; spaces at either end give no empty string. *)
Fixpoint split (s : pystr) : list pystr :=
  match s with
  | [] => []
  | c :: r =>
      if Str.isspace c then split r
      else
        match r with
        | [] => [[c]]
        | c' :: _ =>
            if Str.isspace c' then [c] :: split r
            else match split r with
                 | w :: ws => (c :: w) :: ws
                 | [] => [[c]]
                 end
        end
  end.

(** [s.split(None, 1)]: the first word, and the rest of [s] from its next
    character that is not a space, as it is. *)
Definition split1 (s : pystr) : list pystr :=
  match Str.lstrip s with
  | [] => []
  | c :: r =>
      let (word, rest) := span_word (c :: r) in
      match Str.lstrip rest with
      | [] => [word]
      | c' :: r' => [word; c' :: r']
      end
  end.

(** A word: a string that is not empty and holds no space. *)
Definition is_word (s : pystr) : bool :=
  Str.truthy s && negb (existsb Str.isspace s).

End Split.

(** ** [config.py]: the command names and the usage messages *)

Module Commands.

Definition HELP : pystr := u "help".
Definition CREATE : pystr := u "create".
Definition LISTS : pystr := u "lists".
Definition ADD : pystr := u "add".
Definition REMOVE : pystr := u "remove".
Definition SHOW : pystr := u "show".
Definition DELETE : pystr := u "delete".
Definition SEARCH : pystr := u "search".

Definition ALL_COMMANDS : list pystr :=
  [HELP; CREATE; LISTS; ADD; REMOVE; SHOW; DELETE; SEARCH].

End Commands.

(** The usage templates of class [Messages]. *)
Module Usage.

Definition USAGE_CREATE : pystr := Messages.err_mark ++ u "Usage: `create <list_name>`".
Definition USAGE_ADD : pystr := Messages.err_mark ++ u "Usage: `add <list_name> <item>`".
Definition USAGE_REMOVE : pystr :=
  Messages.err_mark ++ u "Usage: `remove <list_name> <item>`".
Definition USAGE_SHOW : pystr := Messages.err_mark ++ u "Usage: `show <list_name>`".
Definition USAGE_DELETE : pystr := Messages.err_mark ++ u "Usage: `delete <list_name>`".
Definition USAGE_SEARCH : pystr := Messages.err_mark ++ u "Usage: `search <term>`".

End Usage.

(** ** [ListManager.get_help] *)

Definition get_help (cfg : BotConfig) : pystr :=
  Str.join [10%N]
    [[129302%N] ++ u " **List Bot Commands:**";
     [];
     u "**List Management:**";
     [8226%N] ++ u " `create <list_name>` - Create a new list";
     [8226%N] ++ u " `lists` - Show all lists";
     [8226%N] ++ u " `delete <list_name>` - Delete a list";
     [];
     u "**Item Management:**";
     [8226%N] ++ u " `add <list_name> <item>` - Add item to list";
     [8226%N] ++ u " `remove <list_name> <item>` - Remove item from list";
     [8226%N] ++ u " `show <list_name>` - Show all items in list";
     [];
     u "**Quick Add (Mention Bot):**";
     [8226%N] ++ u " `@meowlister_bot <list_name> <item1>, <item2>, <item3>` - Add multiple items at once";
     [8226%N] ++ u " `@meowlister_bot groceries milk, bread, eggs` - Example: add 3 items to groceries";
     [];
     u "**Search:**";
     [8226%N] ++ u " `search <term>` - Search for items across all lists";
     [];
     u "**Examples:**";
     [8226%N] ++ u " `create groceries`";
     [8226%N] ++ u " `add groceries milk`";
     [8226%N] ++ u " `@meowlister_bot groceries bread, eggs, butter`";
     [8226%N] ++ u " `show groceries`";
     [8226%N] ++ u " `search milk`";
     [];
     u "**Limits:**";
     [8226%N] ++ u " Max lists: " ++ Str.of_Z (max_lists_per_user cfg);
     [8226%N] ++ u " Max items per list: " ++ Str.of_Z (max_items_per_list cfg);
     [8226%N] ++ u " Max list name length: " ++ Str.of_Z (max_list_name_length cfg);
     [8226%N] ++ u " Max item length: " ++ Str.of_Z (max_item_length cfg)].

(** ** [test_cli.py] *)

Module Cli.

Section WithManager.

Variable rt : PyRuntime.
Variable cfg : BotConfig.               (* the configuration of [list_manager] *)
Variable format_1f : Number -> pystr.   (* [format(x, '.1f')] *)

Definition parse_command (command : pystr) : option pystr * list pystr :=
  match Split.split (Str.strip command) with
  | [] => (None, [])
  | action :: args => (Some (lower rt action), args)
  end.

(** [handle_command(list_manager, action, args)]; the result is what it
    printed, one string for each call of [print]. *)
Definition handle_command (action : pystr) (args : list pystr) : M (list pystr) :=
  if Str.eqb action Commands.HELP then ret [get_help cfg]
  else if Str.eqb action Commands.CREATE then
    match args with
    | [] => ret [Usage.USAGE_CREATE]
    | _ :: _ =>
        let list_name := Str.join [32%N] args in
        result <- create_list rt cfg list_name ;;
        ret [result]
    end
  else if Str.eqb action Commands.LISTS then
    result <- show_all_lists ;;
    ret [result]
  else if Str.eqb action Commands.ADD then
    match args with
    | list_name :: (_ :: _) as rest =>
        let item := Str.join [32%N] rest in
        result <- add_item rt cfg list_name item ;;
        ret [result]
    | _ => ret [Usage.USAGE_ADD]
    end
  else if Str.eqb action Commands.REMOVE then
    match args with
    | list_name :: (_ :: _) as rest =>
        let item := Str.join [32%N] rest in
        result <- remove_item rt cfg list_name item ;;
        ret [result]
    | _ => ret [Usage.USAGE_REMOVE]
    end
  else if Str.eqb action Commands.SHOW then
    match args with
    | [] => ret [Usage.USAGE_SHOW]
    | _ :: _ =>
        let list_name := Str.join [32%N] args in
        result <- show_list rt list_name ;;
        ret [result]
    end
  else if Str.eqb action Commands.DELETE then
    match args with
    | [] => ret [Usage.USAGE_DELETE]
    | _ :: _ =>
        let list_name := Str.join [32%N] args in
        result <- delete_list rt cfg list_name ;;
        ret [result]
    end
  else if Str.eqb action Commands.SEARCH then
    match args with
    | [] => ret [Usage.USAGE_SEARCH]
    | _ :: _ =>
        let search_term := Str.join [32%N] args in
        result <- search_item rt search_term ;;
        ret [result]
    end
  else if Str.eqb action (u "stats") then
    stats <- get_stats ;;
    ret ([[10%N; 128202%N] ++ u " **Statistics:**";
          [8226%N] ++ u " Total lists: " ++ Str.of_Z (total_lists stats);
          [8226%N] ++ u " Total items: " ++ Str.of_Z (total_items stats)]
         ++ if (total_lists stats >? 0)%Z
            then [[8226%N] ++ u " Average items per list: "
                  ++ format_1f (average_items_per_list stats);
                  [8226%N] ++ u " Largest list size: "
                  ++ Str.of_Z (largest_list_size stats)]
            else [])
  else if Str.eqb action (u "multi") then
    match args with
    | list_name :: (_ :: _) as rest =>
        let items_text := Str.join [32%N] rest in
        result <- add_multiple_items rt cfg list_name items_text ;;
        ret [result]
    | _ =>
        ret [Messages.err_mark ++ u "Usage: multi <list_name> <item1>, <item2>, <item3>"]
    end
  else
    ret [Messages.err_mark ++ u "Unknown command: " ++ action;
         u "Type 'help' for available commands"].

End WithManager.

End Cli.

(** ** [telegram_bot.py]: the methods of [TelegramListBot] that do not talk
    to Telegram *)

Module Bot.

Section WithManager.

Variable rt : PyRuntime.
Variable cfg : BotConfig.               (* [self.bot_config] *)
Variable format_1f : Number -> pystr.   (* [format(x, '.1f')] *)

Definition _parse_command (message_text : pystr) : option pystr * list pystr :=
  match Split.split (Str.strip message_text) with
  | [] => (None, [])
  | command :: args => (Some (lower rt command), args)
  end.

(** [_handle_command(command, args)]: the response, or [None] for a word
    that is no command. *)
Definition _handle_command (command : pystr) (args : list pystr) : M (option pystr) :=
  if Str.eqb command Commands.HELP then ret (Some (get_help cfg))
  else if Str.eqb command Commands.CREATE then
    match args with
    | [] => ret (Some Usage.USAGE_CREATE)
    | _ :: _ =>
        let list_name := Str.join [32%N] args in
        fmap Some (create_list rt cfg list_name)
    end
  else if Str.eqb command Commands.LISTS then fmap Some show_all_lists
  else if Str.eqb command Commands.ADD then
    match args with
    | list_name :: (_ :: _) as rest =>
        let item := Str.join [32%N] rest in
        fmap Some (add_item rt cfg list_name item)
    | _ => ret (Some Usage.USAGE_ADD)
    end
  else if Str.eqb command Commands.REMOVE then
    match args with
    | list_name :: (_ :: _) as rest =>
        let item := Str.join [32%N] rest in
        fmap Some (remove_item rt cfg list_name item)
    | _ => ret (Some Usage.USAGE_REMOVE)
    end
  else if Str.eqb command Commands.SHOW then
    match args with
    | [] => ret (Some Usage.USAGE_SHOW)
    | _ :: _ =>
        let list_name := Str.join [32%N] args in
        fmap Some (show_list rt list_name)
    end
  else if Str.eqb command Commands.DELETE then
    match args with
    | [] => ret (Some Usage.USAGE_DELETE)
    | _ :: _ =>
        let list_name := Str.join [32%N] args in
        fmap Some (delete_list rt cfg list_name)
    end
  else if Str.eqb command Commands.SEARCH then
    match args with
    | [] => ret (Some Usage.USAGE_SEARCH)
    | _ :: _ =>
        let search_term := Str.join [32%N] args in
        fmap Some (search_item rt search_term)
    end
  else if Str.eqb command (u "stats") then
    stats <- get_stats ;;
    ret (Some (Str.join [10%N]
                 [[128202%N] ++ u " **Bot Statistics:**";
                  [8226%N] ++ u " Total lists: " ++ Str.of_Z (total_lists stats);
                  [8226%N] ++ u " Total items: " ++ Str.of_Z (total_items stats);
                  [8226%N] ++ u " Average items per list: "
                  ++ format_1f (average_items_per_list stats);
                  [8226%N] ++ u " Largest list size: "
                  ++ Str.of_Z (largest_list_size stats)]))
  else ret None.

(** [_parse_mention(message_text, bot_username)] *)
Definition _parse_mention (message_text bot_username : pystr)
  : option pystr * option pystr :=
  let mention_prefix := u "@" ++ bot_username in
  if negb (Str.startswith mention_prefix message_text) then (None, None)
  else
    let remaining_text :=
      Str.strip (skipn (List.length mention_prefix) message_text) in
    if negb (Str.truthy remaining_text) then (None, None)
    else
      match Split.split1 remaining_text with
      | list_name :: items_text :: _ => (Some list_name, Some items_text)
      | _ => (None, None)
      end.

End WithManager.

End Bot.

(** ** More states and inputs for examples *)

(** A formatter for examples that never show an average. *)
Definition no_average (_ : Number) : pystr := u "0.0".

(** An object with the one list "my list", made by the command
    "create my list". *)
Definition my_list : State :=
  snd (Bot._handle_command ascii_runtime default_config no_average
         (u "create") [u "my"; u "list"] fresh).

(** ** What validation and the limits leave in the collection *)

(** A stored name or item: not empty, trimmed, and no longer than
    [max_len]. *)
Definition tidy_text (max_len : Z) (s : pystr) : Prop :=
  s <> [] /\ Str.strip s = s /\ (Str.len s <= max_len)%Z.

(** A stored list: distinct tidy items, [max_items_per_list] of them at
    most. *)
Definition tidy_list (cfg : BotConfig) (v : PyVal) : Prop :=
  exists items,
    v = VList (map VStr items)
    /\ NoDup items
    /\ Forall (tidy_text (max_item_length cfg)) items
    /\ (Z.of_nat (List.length items) <= Z.max 0 (max_items_per_list cfg))%Z.

(** A collection of tidy lists under tidy names, [max_lists_per_user] of
    them at most. *)
Definition tidy (cfg : BotConfig) (ls : Dict.t PyVal) : Prop :=
  Forall (fun kv => tidy_text (max_list_name_length cfg) (fst kv)
                    /\ tidy_list cfg (snd kv)) ls
  /\ (Z.of_nat (List.length ls) <= Z.max 0 (max_lists_per_user cfg))%Z.

(** [list.remove] on a list of strings: the first occurrence goes. *)
Fixpoint without (x : pystr) (items : list pystr) : list pystr :=
  match items with
  | [] => []
  | y :: r => if Str.eqb y x then r else y :: without x r
  end.

(** What holds of the collection in every state reached from an empty
    one: the invariant of the names, and tidiness. *)
Definition sound (rt : PyRuntime) (cfg : BotConfig) (ls : Dict.t PyVal) : Prop :=
  invariant rt ls /\ tidy cfg ls.


Unset Implicit Arguments.

(** * Facts about strings *)

Module StrFacts.

Lemma eqb_eq (a b : pystr) : Str.eqb a b = true <-> a = b.
Proof.
  revert b; induction a as [|x a IH]; intros [|y b]; simpl; split;
    try congruence; try reflexivity.
  - intros H. apply andb_true_iff in H as [Hx Hab].
    apply N.eqb_eq in Hx. apply IH in Hab. congruence.
  - intros H. injection H as -> ->.
    rewrite N.eqb_refl. simpl. now apply IH.
Qed.

Lemma eqb_refl (a : pystr) : Str.eqb a a = true.
Proof. now apply eqb_eq. Qed.

Lemma eqb_neq (a b : pystr) : Str.eqb a b = false <-> a <> b.
Proof.
  split.
  - intros H E. apply eqb_eq in E. congruence.
  - intros H. destruct (Str.eqb a b) eqn:E; [|reflexivity].
    apply eqb_eq in E. contradiction.
Qed.

Lemma eqb_sym (a b : pystr) : Str.eqb a b = Str.eqb b a.
Proof.
  destruct (Str.eqb a b) eqn:E.
  - apply eqb_eq in E. subst. symmetry. apply eqb_refl.
  - symmetry. apply eqb_neq. apply eqb_neq in E. congruence.
Qed.

Lemma eqb_spec (a b : pystr) : reflect (a = b) (Str.eqb a b).
Proof.
  destruct (Str.eqb a b) eqn:E; constructor.
  - now apply eqb_eq.
  - now apply eqb_neq.
Qed.

(** [lstrip] leaves nothing, or a string that starts with a character that
    is not a space. *)
Lemma lstrip_head (s : pystr) :
  match lstrip s with
  | [] => True
  | c :: _ => isspace c = false
  end.
Proof.
  induction s as [|c s IH]; simpl; [exact I|].
  destruct (isspace c) eqn:E; [exact IH|exact E].
Qed.

Lemma lstrip_fixed (c : N) (s : pystr) : isspace c = false -> lstrip (c :: s) = c :: s.
Proof. intros H. simpl. now rewrite H. Qed.

Lemma lstrip_app_last (a : pystr) (c : N) :
  lstrip (a ++ [c]) =
  match lstrip a with
  | [] => if isspace c then [] else [c]
  | _ :: _ => lstrip a ++ [c]
  end.
Proof.
  induction a as [|x a IH]; simpl; [reflexivity|].
  destruct (isspace x); [exact IH|reflexivity].
Qed.

Lemma rstrip_cons (c : N) (s : pystr) :
  rstrip (c :: s) =
  match rstrip s with
  | [] => if isspace c then [] else [c]
  | _ :: _ => c :: rstrip s
  end.
Proof.
  unfold rstrip. simpl rev at 2. rewrite lstrip_app_last.
  destruct (lstrip (rev s)) as [|y t] eqn:E; simpl.
  - destruct (isspace c); reflexivity.
  - rewrite rev_app_distr. simpl.
    destruct (rev t ++ [y]) eqn:E2; [destruct (rev t); discriminate|reflexivity].
Qed.

Lemma rstrip_keeps_head (c : N) (s : pystr) :
  isspace c = false -> exists t, rstrip (c :: s) = c :: t.
Proof.
  intros H. rewrite rstrip_cons. destruct (rstrip s) as [|y t].
  - rewrite H. now exists [].
  - now exists (y :: t).
Qed.

Lemma rstrip_idem (s : pystr) : rstrip (rstrip s) = rstrip s.
Proof.
  unfold rstrip. rewrite rev_involutive.
  assert (L : forall t, lstrip (lstrip t) = lstrip t).
  { intros t. pose proof (lstrip_head t) as Hh.
    destruct (lstrip t) as [|c r]; [reflexivity|]. now apply lstrip_fixed. }
  now rewrite L.
Qed.

(** [strip] is idempotent. *)
Lemma strip_idem (s : pystr) : strip (strip s) = strip s.
Proof.
  unfold strip. pose proof (lstrip_head s) as Hh.
  destruct (lstrip s) as [|c r] eqn:E; [reflexivity|].
  destruct (rstrip_keeps_head c r Hh) as [t Ht]. rewrite Ht.
  rewrite (lstrip_fixed c t Hh). rewrite <- Ht. apply rstrip_idem.
Qed.

Lemma truthy_nonempty (s : pystr) : Str.truthy s = true <-> s <> [].
Proof. destruct s; simpl; split; congruence. Qed.

End StrFacts.

(** * Facts about dictionaries *)

Module DictFacts.

Section WithValue.
Context {V : Type}.
Implicit Types (d : Dict.t V) (k : pystr) (v : V).

Lemma get_set_same k v d : Dict.get k (Dict.set k v d) = Some v.
Proof.
  induction d as [|[k' v'] d IH]; simpl.
  - now rewrite StrFacts.eqb_refl.
  - destruct (Str.eqb k' k) eqn:E; simpl; rewrite E; [reflexivity|exact IH].
Qed.

Lemma get_set_other k k' v d : k' <> k -> Dict.get k' (Dict.set k v d) = Dict.get k' d.
Proof.
  intros Hne. induction d as [|[k0 v0] d IH]; simpl.
  - destruct (StrFacts.eqb_spec k k'); [congruence|reflexivity].
  - destruct (StrFacts.eqb_spec k0 k); simpl.
    + subst k0. destruct (StrFacts.eqb_spec k k'); [congruence|reflexivity].
    + destruct (Str.eqb k0 k'); [reflexivity|exact IH].
Qed.

Lemma get_del_other k k' d : k' <> k -> Dict.get k' (Dict.del k d) = Dict.get k' d.
Proof.
  intros Hne. induction d as [|[k0 v0] d IH]; simpl; [reflexivity|].
  destruct (StrFacts.eqb_spec k0 k); simpl.
  - subst k0. destruct (StrFacts.eqb_spec k k'); [congruence|reflexivity].
  - destruct (Str.eqb k0 k'); [reflexivity|exact IH].
Qed.

Lemma get_some_in k v d : Dict.get k d = Some v -> In k (Dict.keys d).
Proof.
  induction d as [|[k0 v0] d IH]; simpl; [discriminate|].
  destruct (StrFacts.eqb_spec k0 k); [now left|]. intros H. right. now apply IH.
Qed.

Lemma get_none_notin k d : Dict.get k d = None <-> ~ In k (Dict.keys d).
Proof.
  induction d as [|[k0 v0] d IH]; simpl.
  - split; [intros _ []|reflexivity].
  - destruct (StrFacts.eqb_spec k0 k).
    + split; [discriminate|]. intros H. exfalso. apply H. now left.
    + rewrite IH. split; [intros H [E|HIn]; [congruence|now apply H]|].
      intros H HIn. apply H. now right.
Qed.

Lemma in_get_some k d : In k (Dict.keys d) -> exists v, Dict.get k d = Some v.
Proof.
  intros H. destruct (Dict.get k d) eqn:E; [eauto|].
  apply get_none_notin in E. contradiction.
Qed.

(** Writing to a key that is there keeps the keys and their order. *)
Lemma keys_set_present k v d :
  In k (Dict.keys d) -> Dict.keys (Dict.set k v d) = Dict.keys d.
Proof.
  induction d as [|[k0 v0] d IH]; simpl; [intros []|].
  destruct (StrFacts.eqb_spec k0 k); simpl; [reflexivity|].
  intros [E|H]; [congruence|]. f_equal. now apply IH.
Qed.

(** Writing to a new key puts it last. *)
Lemma set_absent k v d : ~ In k (Dict.keys d) -> Dict.set k v d = d ++ [(k, v)].
Proof.
  induction d as [|[k0 v0] d IH]; simpl; [reflexivity|].
  intros H. destruct (StrFacts.eqb_spec k0 k).
  - exfalso. apply H. now left.
  - f_equal. apply IH. intros HIn. apply H. now right.
Qed.

Lemma in_del k d x : In x (Dict.del k d) -> In x d.
Proof.
  induction d as [|[k0 v0] d IH]; simpl; [intros []|].
  destruct (Str.eqb k0 k); simpl; [now right|].
  intros [E|H]; [now left|right; now apply IH].
Qed.

Lemma set_set k v v' d : Dict.set k v' (Dict.set k v d) = Dict.set k v' d.
Proof.
  induction d as [|[k0 v0] d IH]; simpl.
  - now rewrite StrFacts.eqb_refl.
  - destruct (Str.eqb k0 k) eqn:E; simpl; rewrite E; [reflexivity|now rewrite IH].
Qed.

Lemma set_get_same k v d : Dict.get k d = Some v -> Dict.set k v d = d.
Proof.
  induction d as [|[k0 v0] d IH]; simpl; [discriminate|].
  destruct (Str.eqb k0 k) eqn:E.
  - now intros [= ->].
  - intros H. now rewrite IH.
Qed.

(** [dict(pairs)] of pairs with distinct keys is the pairs themselves. *)
Lemma of_pairs_nodup (ps : list (pystr * V)) :
  NoDup (map fst ps) -> Dict.of_pairs ps = ps.
Proof.
  unfold Dict.of_pairs.
  assert (G : forall (ps d : Dict.t V),
             NoDup (map fst (d ++ ps)) ->
             fold_left (fun d kv => Dict.set (fst kv) (snd kv) d) ps d = d ++ ps).
  { clear ps. induction ps as [|[k v] ps IH]; intros d Hnd; simpl.
    - now rewrite app_nil_r.
    - rewrite set_absent.
      + rewrite IH; rewrite <- app_assoc; [reflexivity|exact Hnd].
      + rewrite map_app in Hnd. simpl in Hnd. apply NoDup_remove_2 in Hnd.
        intros HIn. apply Hnd. apply in_or_app. now left. }
  intros H. now apply (G ps []).
Qed.

End WithValue.

End DictFacts.


(** * [json.loads] reads back what [json.dumps] wrote *)

Module JsonFacts.

Import Json.

Lemma hex4_low (c : N) :
  (c < 32)%N -> hex4 48 48 (hexdigit (c / 16)) (hexdigit (c mod 16)) = Some c.
Proof.
  intros H. destruct c as [|p]; [reflexivity|].
  do 5 (destruct p as [p|p|]; try reflexivity); exfalso; lia.
Qed.

Lemma scan_units_escape (s rest : pystr) :
  scan_units (flat_map escape_char s ++ 34%N :: rest) = Some (map unit_of s, rest).
Proof.
  induction s as [|c s IH]; [reflexivity|].
  cbn [flat_map map]. rewrite <- app_assoc.
  unfold escape_char at 1, unit_of at 1.
  destruct (N.eqb_spec c 34); [subst; cbn; cbn in IH; now rewrite IH|].
  destruct (N.eqb_spec c 92); [subst; cbn; cbn in IH; now rewrite IH|].
  destruct (N.eqb_spec c 10); [subst; cbn; cbn in IH; now rewrite IH|].
  destruct (N.eqb_spec c 13); [subst; cbn; cbn in IH; now rewrite IH|].
  destruct (N.eqb_spec c 9); [subst; cbn; cbn in IH; now rewrite IH|].
  destruct (N.eqb_spec c 8); [subst; cbn; cbn in IH; now rewrite IH|].
  destruct (N.eqb_spec c 12); [subst; cbn; cbn in IH; now rewrite IH|].
  destruct (N.ltb_spec c 32) as [Hlt|Hge].
  - change (u "\u00") with [92; 117; 48; 48]%N.
    cbn [app scan_units N.eqb Pos.eqb].
    rewrite (hex4_low c Hlt), IH. reflexivity.
  - cbn [app scan_units].
    destruct (N.eqb_spec c 34); [contradiction|].
    destruct (N.eqb_spec c 92); [contradiction|].
    destruct (N.ltb_spec c 32); [lia|].
    now rewrite IH.
Qed.

Lemma pair_surrogates_units (s : pystr) : pair_surrogates (map unit_of s) = s.
Proof.
  induction s as [|c s IH]; [reflexivity|].
  cbn [map]. cbn [map] in IH.
  destruct s as [|c' s'].
  - reflexivity.
  - cbn [map pair_surrogates] in *. unfold unit_of at 1 2.
    cbn [fst snd].
    set (b' := (negb _ && (c' <? 32)%N)).
    set (b := (negb _ && (c <? 32)%N)).
    assert (Hb : b && (55296 <=? c)%N = false).
    { subst b. destruct (N.ltb_spec c 32); [|now rewrite andb_false_r].
      destruct (N.leb_spec 55296 c); [lia|]. now rewrite andb_false_r. }
    change (pair_surrogates (unit_of c' :: map unit_of s')) with
      (pair_surrogates (map unit_of (c' :: s'))) in *.
    destruct b'.
    + rewrite Hb. cbn [andb]. now rewrite IH.
    + now rewrite IH.
Qed.

(** A string literal reads back as the string. *)
Lemma scanstring_encode (s rest : pystr) :
  scanstring (flat_map escape_char s ++ 34%N :: rest) = Some (s, rest).
Proof.
  unfold scanstring. rewrite scan_units_escape. now rewrite pair_surrogates_units.
Qed.

Lemma skip_ws_nl (lvl : nat) (t : pystr) : skip_ws (nl lvl ++ t) = skip_ws t.
Proof.
  unfold nl. cbn [app skip_ws is_ws N.eqb Pos.eqb orb].
  induction (2 * lvl)%nat as [|n IH]; [reflexivity|exact IH].
Qed.

Lemma skip_ws_stop (c : N) (t : pystr) : is_ws c = false -> skip_ws (c :: t) = c :: t.
Proof. intros H. simpl. now rewrite H. Qed.

Lemma encode_str_app (s rest : pystr) :
  encode_str s ++ rest = 34%N :: flat_map escape_char s ++ 34%N :: rest.
Proof. unfold encode_str. simpl. now rewrite <- app_assoc. Qed.

Section WithLimit.
Variable m : nat.   (* the limit on the digits of an integer *)

(** [scan_once] at each of the three opening characters. *)
Lemma scan_once_quote (f : nat) (r : pystr) :
  scan_once m f (34%N :: r) =
  match scanstring r with
  | Some (str, rest) => Found (VStr str, rest)
  | None => Malformed
  end.
Proof. destruct f; reflexivity. Qed.

Lemma scan_once_bracket (f : nat) (r : pystr) :
  scan_once m (S f) (91%N :: r) =
  match skip_ws r with
  | c' :: r' =>
      if (c' =? 93)%N then Found (VList [], r')
      else array_loop (scan_once m f) (List.length r) (skip_ws r) []
  | [] => Malformed
  end.
Proof. reflexivity. Qed.

Lemma scan_once_brace (f : nat) (r : pystr) :
  scan_once m (S f) (123%N :: r) =
  match skip_ws r with
  | c' :: r' =>
      if (c' =? 125)%N then Found (VDict [], r')
      else object_loop (scan_once m f) (List.length r) (skip_ws r) []
  | [] => Malformed
  end.
Proof. reflexivity. Qed.

Lemma skip_ws_encode_str (s rest : pystr) :
  skip_ws (encode_str s ++ rest) = encode_str s ++ rest.
Proof. rewrite encode_str_app. now apply skip_ws_stop. Qed.

Lemma scan_once_str (f : nat) (s rest : pystr) :
  scan_once m f (encode_str s ++ rest) = Found (VStr s, rest).
Proof.
  rewrite encode_str_app, scan_once_quote.
  now rewrite scanstring_encode.
Qed.

Lemma encode_strs (lvl : nat) (x : pystr) (xs : list pystr) :
  encode lvl (VList (map VStr (x :: xs))) =
  91%N :: nl (S lvl) ++ encode_str x ++ strs_tail (S lvl) xs ++ nl lvl ++ [93%N].
Proof.
  cbn [map encode]. change (u "[") with [91%N]. change (u "]") with [93%N].
  cbn [app]. do 3 f_equal.
  induction xs as [|y ys IH]; [reflexivity|].
  cbn [map strs_tail flat_map]. rewrite <- !app_assoc. do 3 f_equal. exact IH.
Qed.

Lemma encode_strs_app (lvl : nat) (x : pystr) (xs : list pystr) (tail : pystr) :
  encode lvl (VList (map VStr (x :: xs))) ++ tail =
  91%N :: nl (S lvl) ++ encode_str x ++ strs_tail (S lvl) xs ++ nl lvl ++ 93%N :: tail.
Proof.
  rewrite encode_strs. cbn [app]. f_equal. rewrite <- !app_assoc. reflexivity.
Qed.

Lemma length_strs_tail (lvl : nat) (xs : list pystr) :
  (List.length xs <= List.length (strs_tail lvl xs))%nat.
Proof.
  induction xs as [|y ys IH]; [simpl; lia|].
  cbn [strs_tail flat_map]. rewrite length_app. change (u ",") with [44%N].
  cbn [app List.length]. unfold strs_tail in IH.
  change (u ",") with [44%N] in IH. cbn [app] in IH. lia.
Qed.

Lemma array_loop_strs (f : nat) (lvl k : nat) (tail : pystr) (xs : list pystr) :
  forall (x : pystr) (acc : list PyVal) (n : nat),
    (List.length xs < n)%nat ->
    array_loop (scan_once m f) n
      (encode_str x ++ strs_tail k xs ++ nl lvl ++ 93%N :: tail) acc
    = Found (VList (rev acc ++ VStr x :: map VStr xs), tail).
Proof.
  induction xs as [|y ys IH]; intros x acc n Hn;
    (destruct n as [|n']; [simpl in Hn; lia|]);
    cbn [array_loop]; rewrite scan_once_str.
  - cbn [strs_tail flat_map app]. rewrite skip_ws_nl.
    rewrite skip_ws_stop by reflexivity. cbn [N.eqb Pos.eqb].
    reflexivity.
  - cbn [strs_tail flat_map]. change (u ",") with [44%N].
    rewrite <- !app_assoc. cbn [app].
    rewrite skip_ws_stop by reflexivity. cbn [N.eqb Pos.eqb].
    rewrite skip_ws_nl. rewrite encode_str_app at 1.
    rewrite skip_ws_stop by reflexivity. rewrite <- encode_str_app.
    fold (strs_tail k ys). rewrite IH by (simpl in Hn; lia).
    cbn [rev map]. now rewrite <- app_assoc.
Qed.

(** A list of strings reads back. *)
Lemma scan_once_strs (f lvl : nat) (items : list pystr) (tail : pystr) :
  scan_once m (S f) (encode lvl (VList (map VStr items)) ++ tail)
  = Found (VList (map VStr items), tail).
Proof.
  destruct items as [|x xs].
  - reflexivity.
  - rewrite encode_strs_app, scan_once_bracket.
    rewrite skip_ws_nl, skip_ws_encode_str.
    rewrite encode_str_app at 1. cbn [N.eqb Pos.eqb].
    rewrite array_loop_strs; [reflexivity|].
    unfold nl at 1. cbn [app List.length]. rewrite !length_app.
    pose proof (length_strs_tail (S lvl) xs). lia.
Qed.

Lemma encode_strs_head (lvl : nat) (items : list pystr) :
  exists t, encode lvl (VList (map VStr items)) = 91%N :: t.
Proof.
  destruct items as [|x xs]; [now exists [93%N]|].
  rewrite encode_strs. eauto.
Qed.

Lemma encode_members (lvl : nat) (k : pystr) (x : list pystr)
    (ms : list (pystr * list pystr)) :
  encode lvl (VDict (typed ((k, x) :: ms))) =
  123%N :: nl (S lvl) ++ encode_str k ++ [58; 32]%N
    ++ encode (S lvl) (VList (map VStr x)) ++ members_tail (S lvl) ms
    ++ nl lvl ++ [125%N].
Proof.
  cbn [typed map fst snd encode].
  change (u "{") with [123%N]. change (u "}") with [125%N].
  change (u ": ") with [58; 32]%N.
  cbn [app]. do 7 (f_equal; []).
  induction ms as [|[k' y] ms IH]; [reflexivity|].
  cbn [map members_tail flat_map fst snd]. rewrite <- !app_assoc.
  change (u ": ") with [58; 32]%N. cbn [app]. do 6 (f_equal; []). exact IH.
Qed.

Lemma encode_members_app (lvl : nat) (k : pystr) (x : list pystr)
    (ms : list (pystr * list pystr)) (tail : pystr) :
  encode lvl (VDict (typed ((k, x) :: ms))) ++ tail =
  123%N :: nl (S lvl) ++ encode_str k ++ [58; 32]%N
    ++ encode (S lvl) (VList (map VStr x)) ++ members_tail (S lvl) ms
    ++ nl lvl ++ 125%N :: tail.
Proof.
  rewrite encode_members. cbn [app]. f_equal. rewrite <- !app_assoc.
  do 2 f_equal. cbn [app]. rewrite <- !app_assoc. reflexivity.
Qed.

Lemma length_members_tail (lvl : nat) (ms : list (pystr * list pystr)) :
  (List.length ms <= List.length (members_tail lvl ms))%nat.
Proof.
  induction ms as [|y ys IH]; [simpl; lia|].
  cbn [members_tail flat_map]. rewrite length_app. change (u ",") with [44%N].
  cbn [app List.length]. unfold members_tail in IH.
  change (u ",") with [44%N] in IH. cbn [app] in IH. lia.
Qed.

Lemma object_loop_members (f lvl k0 : nat) (tail : pystr)
    (ms : list (pystr * list pystr)) :
  forall (k : pystr) (x : list pystr) (acc : list (pystr * PyVal)) (n : nat),
    (List.length ms < n)%nat ->
    object_loop (scan_once m (S f)) n
      (encode_str k ++ [58; 32]%N ++ encode k0 (VList (map VStr x))
         ++ members_tail k0 ms ++ nl lvl ++ 125%N :: tail) acc
    = Found (VDict (Dict.of_pairs (rev acc ++ typed ((k, x) :: ms))), tail).
Proof.
  induction ms as [|[k' y] ms IH]; intros k x acc n Hn;
    (destruct n as [|n']; [simpl in Hn; lia|]);
    rewrite encode_str_app; cbn [object_loop N.eqb Pos.eqb negb];
    rewrite scanstring_encode; cbn [app];
    rewrite skip_ws_stop by reflexivity; cbn [N.eqb Pos.eqb negb];
    (destruct (encode_strs_head k0 x) as [t Ht]);
    cbn [skip_ws is_ws N.eqb Pos.eqb orb];
    rewrite Ht at 1; cbn [app]; rewrite skip_ws_stop by reflexivity;
    change (91%N :: t ++ ?r) with ((91%N :: t) ++ r); rewrite <- Ht;
    rewrite scan_once_strs.
  - cbn [members_tail flat_map app]. rewrite skip_ws_nl.
    rewrite skip_ws_stop by reflexivity. cbn [N.eqb Pos.eqb].
    cbn [rev]. reflexivity.
  - cbn [members_tail flat_map fst snd]. change (u ",") with [44%N].
    change (u ": ") with [58; 32]%N.
    rewrite <- !app_assoc. cbn [app].
    rewrite skip_ws_stop by reflexivity. cbn [N.eqb Pos.eqb].
    rewrite skip_ws_nl. rewrite encode_str_app at 1.
    rewrite skip_ws_stop by reflexivity. rewrite <- encode_str_app.
    fold (members_tail k0 ms).
    change (58%N :: 32%N :: ?r) with ([58; 32]%N ++ r).
    rewrite IH by (simpl in Hn; lia).
    cbn [rev typed map fst snd]. now rewrite <- app_assoc.
Qed.

(** A collection of string lists with distinct names reads back. *)
Lemma scan_once_typed (f : nat) (tl : list (pystr * list pystr)) (tail : pystr) :
  NoDup (map fst tl) ->
  scan_once m (S (S f)) (encode 0 (VDict (typed tl)) ++ tail)
  = Found (VDict (typed tl), tail).
Proof.
  intros Hnd. destruct tl as [|[k x] ms].
  - reflexivity.
  - rewrite encode_members_app, scan_once_brace.
    rewrite skip_ws_nl, skip_ws_encode_str.
    rewrite encode_str_app at 1. cbn [N.eqb Pos.eqb].
    rewrite object_loop_members.
    + cbn [rev app]. rewrite DictFacts.of_pairs_nodup; [reflexivity|].
      unfold typed. rewrite map_map. cbn [fst]. exact Hnd.
    + unfold nl at 1. cbn [app List.length]. rewrite !length_app.
      cbn [List.length]. rewrite !length_app.
      pose proof (length_members_tail 1 ms). lia.
Qed.

Lemma encode_typed_head (tl : list (pystr * list pystr)) :
  exists t, encode 0 (VDict (typed tl)) = 123%N :: t.
Proof.
  destruct tl as [|[k x] ms]; [now exists [125%N]|].
  rewrite encode_members. eauto.
Qed.

(** [json.loads(json.dumps(d))] is [d] for a collection of string lists,
    whatever the limit on digits, once two levels of nesting are allowed. *)
Lemma loads_dumps_typed (f : nat) (tl : list (pystr * list pystr)) :
  NoDup (map fst tl) ->
  loads m (2 + f) (dumps (VDict (typed tl))) = Found (VDict (typed tl)).
Proof.
  intros Hnd. unfold loads, dumps.
  destruct (encode_typed_head tl) as [t Ht].
  rewrite Ht at 1. rewrite skip_ws_stop by reflexivity. rewrite <- Ht.
  rewrite <- (app_nil_r (encode 0 (VDict (typed tl)))) at 1.
  change (2 + f)%nat with (S (S f)).
  rewrite scan_once_typed by exact Hnd. reflexivity.
Qed.

(** Every well-typed collection is given by its lists of strings. *)
Lemma well_typed_typed (ls : Dict.t PyVal) :
  well_typed ls = true -> exists tl, ls = typed tl.
Proof.
  induction ls as [|[k v] ls IH]; intros H.
  - now exists [].
  - cbn [well_typed forallb snd] in H. apply andb_true_iff in H as [Hv Hls].
    destruct (IH Hls) as [tl ->].
    destruct v as [| | | | |l|]; try discriminate.
    assert (Hl : exists xs, l = map VStr xs).
    { clear -Hv. induction l as [|a l IHl]; [now exists []|].
      cbn [is_str_list forallb] in Hv. apply andb_true_iff in Hv as [Ha Hl].
      destruct a; try discriminate. destruct (IHl Hl) as [xs ->].
      now exists (s :: xs). }
    destruct Hl as [xs ->]. now exists ((k, xs) :: tl).
Qed.

Lemma keys_typed (tl : list (pystr * list pystr)) : Dict.keys (typed tl) = map fst tl.
Proof. unfold Dict.keys, typed. now rewrite map_map. Qed.

Lemma loads_dumps (f : nat) (ls : Dict.t PyVal) :
  well_typed ls = true -> NoDup (Dict.keys ls) ->
  loads m (2 + f) (dumps (VDict ls)) = Found (VDict ls).
Proof.
  intros Hwt Hnd. destruct (well_typed_typed ls Hwt) as [tl ->].
  apply loads_dumps_typed. now rewrite <- keys_typed.
Qed.

End WithLimit.

End JsonFacts.


(** * The persistence layer *)

Ltac munfold :=
  unfold bind, catch, attempt, ret, raise, lift, logger, path_exists, copy2,
    open_read, write_text, getitem, setitem, delitem, get_lists, fmap in *.

Module PersistFacts.

#[local] Arguments Json.dumps : simpl never.
#[local] Arguments u : simpl never.
#[local] Arguments app : simpl never.
#[local] Arguments Str.utf8 : simpl never.
#[local] Arguments firstn : simpl never.
#[local] Arguments flushed : simpl never.
#[local] Arguments encode_error : simpl never.

Section WithConfig.
Variable rt : PyRuntime.
Variable cfg : BotConfig.

(** Case analysis on everything [_save_data] looks at. *)
Ltac save_cases st :=
  unfold _save_data; munfold;
  destruct (Dict.get (data_file cfg) (files st)) eqn:?; cbn;
  destruct (backup_enabled cfg) eqn:?; cbn;
  destruct (copy_fault st) eqn:?; cbn;
  try (destruct (read_fault st) eqn:?; cbn);
  try (destruct (copy_partial st) eqn:?; cbn);
  repeat match goal with H : Dict.get _ _ = _ |- _ => rewrite H; cbn end;
  destruct (write_fault st) as [[?|? ?]|] eqn:?; cbn;
  repeat match goal with
         | |- context [if Str.utf8 ?t then _ else _] => destruct (Str.utf8 t) eqn:?; cbn
         end.

(** [_save_data] does not touch [self.lists], the clock or the faults. *)
Lemma save_frame (st : State) :
  lists (snd (_save_data cfg st)) = lists st
  /\ clock (snd (_save_data cfg st)) = clock st
  /\ read_fault (snd (_save_data cfg st)) = read_fault st
  /\ copy_fault (snd (_save_data cfg st)) = copy_fault st
  /\ write_fault (snd (_save_data cfg st)) = write_fault st.
Proof. save_cases st; repeat split; assumption || reflexivity. Qed.

Lemma save_lists (st : State) : lists (snd (_save_data cfg st)) = lists st.
Proof. apply save_frame. Qed.

(** It returns, or raises [DataStorageError], or lets the
    [UnicodeEncodeError] of the write through. *)
Lemma save_outcome (st : State) :
  fst (_save_data cfg st) = Ret tt
  \/ (exists m, fst (_save_data cfg st) = Raise (DataStorageError m))
  \/ (exists c p, fst (_save_data cfg st) = Raise (UnicodeEncodeError c p)).
Proof.
  save_cases st; unfold encode_error;
    first [ left; reflexivity
          | right; left; eexists; reflexivity
          | right; right; do 2 eexists; reflexivity ].
Qed.

(** When it returns, the file holds the whole collection. *)
Lemma save_ok_file (st : State) :
  fst (_save_data cfg st) = Ret tt ->
  Dict.get (data_file cfg) (files (snd (_save_data cfg st)))
  = Some (Json.dumps (VDict (lists st))).
Proof.
  save_cases st; try discriminate; intros _; apply DictFacts.get_set_same.
Qed.

(** And every character of that text has bytes in UTF-8. *)
Lemma save_ok_utf8 (st : State) :
  fst (_save_data cfg st) = Ret tt ->
  Str.utf8 (Json.dumps (VDict (lists st))) = true.
Proof. save_cases st; try discriminate; intros _; reflexivity. Qed.


(** Case analysis on everything [_load_data] looks at. *)
Ltac load_cases env :=
  unfold __init__, _load_data, json_load, _backup_corrupted_file; munfold; cbn;
  destruct (Dict.get (data_file cfg) (files env)) as [txt|] eqn:?; cbn;
  [ destruct (read_fault env) eqn:?; cbn;
    repeat match goal with H : Dict.get _ _ = _ |- _ => rewrite H; cbn end;
    [ | destruct (Str.utf8 txt) eqn:?; cbn;
        [ destruct (Json.loads (int_max_str_digits rt) (S (S (nesting_room rt))) txt)
            as [[| | | | | |]| |[?|[|]]] eqn:?; cbn | ] ];
    repeat match goal with H : Dict.get _ _ = _ |- _ => rewrite H; cbn end;
    try (destruct (copy_fault env) eqn:?; cbn);
    try (destruct (copy_partial env) eqn:?; cbn);
    repeat match goal with
           | H : Dict.get _ _ = _ |- _ => rewrite H; cbn
           | H : read_fault _ = _ |- _ => rewrite H; cbn
           end
  | ].

(** Without a file, the collection starts empty. *)
Lemma init_absent (env : State) :
  Dict.get (data_file cfg) (files env) = None ->
  fst (__init__ rt cfg env) = Ret tt
  /\ lists (snd (__init__ rt cfg env)) = []
  /\ files (snd (__init__ rt cfg env)) = files env.
Proof. intros H. load_cases env; try discriminate. now repeat split. Qed.

(** A document that is a dictionary is adopted as it is, silently. *)
Lemma init_dict (env : State) (text : pystr) (d : list (pystr * PyVal)) :
  read_fault env = None ->
  Dict.get (data_file cfg) (files env) = Some text ->
  Str.utf8 text = true ->
  Json.loads (int_max_str_digits rt) (2 + nesting_room rt) text = Json.Found (VDict d) ->
  fst (__init__ rt cfg env) = Ret tt
  /\ lists (snd (__init__ rt cfg env)) = d
  /\ files (snd (__init__ rt cfg env)) = files env
  /\ log (snd (__init__ rt cfg env)) = log env.
Proof.
  intros Hr Hg Hu Hl. cbn [Nat.add] in Hl. load_cases env; try congruence.
  all: assert (txt = text) by congruence; subst; repeat split; congruence.
Qed.

(** A document that is anything else gives a warning and an empty
    collection. *)
Lemma init_not_dict (env : State) (text : pystr) (v : PyVal) :
  read_fault env = None ->
  Dict.get (data_file cfg) (files env) = Some text ->
  Str.utf8 text = true ->
  Json.loads (int_max_str_digits rt) (2 + nesting_room rt) text = Json.Found v ->
  (forall d, v <> VDict d) ->
  fst (__init__ rt cfg env) = Ret tt
  /\ lists (snd (__init__ rt cfg env)) = []
  /\ files (snd (__init__ rt cfg env)) = files env
  /\ log (snd (__init__ rt cfg env))
     = log env ++ [(WARNING, u "Invalid data format in " ++ data_file cfg)].
Proof.
  intros Hr Hg Hu Hl Hv. cbn [Nat.add] in Hl. load_cases env; try congruence;
    try (repeat split; reflexivity).
  all: exfalso; assert (txt = text) by congruence; subst;
    eapply Hv; congruence.
Qed.

(** A file that is not UTF-8: [UnicodeDecodeError] leaves the constructor,
    which has touched nothing. *)
Lemma init_undecodable (env : State) (content : pystr) :
  read_fault env = None ->
  Dict.get (data_file cfg) (files env) = Some content ->
  Str.utf8 content = false ->
  __init__ rt cfg env
  = (Raise (UnicodeDecodeError (utf8_error rt content)), with_lists [] env).
Proof.
  intros Hr Hg Hu. load_cases env; try congruence.
  all: assert (txt = content) by congruence; subst; reflexivity.
Qed.

(** A document past a limit of the interpreter: the error of [json.load]
    leaves the constructor, which has touched nothing. *)
Lemma init_limit (env : State) (text : pystr) (l : Json.Limit) :
  read_fault env = None ->
  Dict.get (data_file cfg) (files env) = Some text ->
  Str.utf8 text = true ->
  Json.loads (int_max_str_digits rt) (2 + nesting_room rt) text = Json.Over l ->
  __init__ rt cfg env = (Raise (limit_error rt l), with_lists [] env).
Proof.
  intros Hr Hg Hu Hl. cbn [Nat.add] in Hl. load_cases env; try congruence.
  all: assert (txt = text) by congruence; subst;
    match goal with H : Json.loads _ _ _ = _ |- _ => rewrite H in Hl end;
    injection Hl as <-; reflexivity.
Qed.

(** Text that does not parse: the file is copied to the timestamped name,
    or the failure of the copy is logged; the collection is empty. *)
Lemma init_malformed (env : State) (text : pystr) :
  read_fault env = None ->
  Dict.get (data_file cfg) (files env) = Some text ->
  Str.utf8 text = true ->
  Json.loads (int_max_str_digits rt) (2 + nesting_room rt) text = Json.Malformed ->
  let backup_name := data_file cfg ++ u ".backup_" ++ clock env in
  let err := (ERROR, u "Error loading data: " ++ decode_error rt text) in
  fst (__init__ rt cfg env) = Ret tt
  /\ lists (snd (__init__ rt cfg env)) = []
  /\ match copy_fault env with
     | None =>
         files (snd (__init__ rt cfg env)) = Dict.set backup_name text (files env)
         /\ log (snd (__init__ rt cfg env))
            = log env ++ [err; (INFO, u "Corrupted file backed up to " ++ backup_name)]
     | Some msg =>
         files (snd (__init__ rt cfg env))
         = match copy_partial env with
           | Some n => Dict.set backup_name (firstn n text) (files env)
           | None => files env
           end
         /\ log (snd (__init__ rt cfg env))
            = log env ++ [err; (ERROR, u "Failed to backup corrupted file: " ++ msg)]
     end.
Proof.
  intros Hr Hg Hu Hl. cbn [Nat.add] in Hl. load_cases env; try congruence;
    assert (txt = text) by congruence; subst;
    (split; [reflexivity|]); (split; [reflexivity|]);
    rewrite <- ?app_assoc; split; reflexivity.
Qed.

End WithConfig.

End PersistFacts.


(** * The methods, case by case *)

Module Cases.

#[local] Arguments Json.dumps : simpl never.
#[local] Arguments u : simpl never.
#[local] Arguments app : simpl never.
#[local] Arguments Str.strip : simpl never.
#[local] Arguments Str.of_Z : simpl never.

Section WithConfig.
Variable rt : PyRuntime.
Variable cfg : BotConfig.

Lemma validate_item_exn (x : pystr) (e : Exn) :
  _validate_item cfg x = inl e -> exists m, e = ValidationError m.
Proof.
  unfold _validate_item.
  destruct (_ || _); [intros [= <-]; eauto|].
  destruct (_ >? _)%Z; [intros [= <-]; eauto|discriminate].
Qed.

(** [_check_item_limit] reads only. *)
Lemma check_item_limit_state (k : pystr) (st : State) :
  snd (_check_item_limit cfg k st) = st.
Proof.
  unfold _check_item_limit. munfold.
  destruct (Dict.get k (lists st)); cbn; [|reflexivity].
  destruct (Py.len p); cbn; [reflexivity|].
  destruct (_ >=? _)%Z; reflexivity.
Qed.

(** *** create_list *)

Lemma create_list_under_cases (ex : pystr -> Exn -> M pystr) (n : pystr) (st : State) :
  create_list_under rt cfg ex n st =
  match _validate_list_name cfg n with
  | inl e => ex n e st
  | inr _ =>
      match _check_list_limit cfg (lists st) with
      | inl e => ex n e st
      | inr _ =>
          match resolved (_find_list_name rt (lists st) (Str.strip n)) with
          | Some _ =>
              ex (Str.strip n)
                (ListExistsError (Messages.LIST_EXISTS (Str.strip n))) st
          | None =>
              then_save cfg (u "Created list: " ++ Str.strip n)
                (Messages.LIST_CREATED (Str.strip n))
                (ex (Str.strip n))
                (with_lists (Dict.set (Str.strip n) (VList []) (lists st)) st)
          end
      end
  end.
Proof.
  unfold create_list_under, then_save. munfold.
  destruct (_validate_list_name cfg n); cbn; [reflexivity|].
  destruct (_check_list_limit cfg (lists st)); cbn; [reflexivity|].
  destruct (resolved _); cbn; reflexivity.
Qed.

Lemma create_list_cases (n : pystr) (st : State) :
  create_list rt cfg n st =
  match _validate_list_name cfg n with
  | inl e => create_list_except n e st
  | inr _ =>
      match _check_list_limit cfg (lists st) with
      | inl e => create_list_except n e st
      | inr _ =>
          match resolved (_find_list_name rt (lists st) (Str.strip n)) with
          | Some _ =>
              create_list_except (Str.strip n)
                (ListExistsError (Messages.LIST_EXISTS (Str.strip n))) st
          | None =>
              then_save cfg (u "Created list: " ++ Str.strip n)
                (Messages.LIST_CREATED (Str.strip n))
                (create_list_except (Str.strip n))
                (with_lists (Dict.set (Str.strip n) (VList []) (lists st)) st)
          end
      end
  end.
Proof. apply create_list_under_cases. Qed.

Lemma then_save_cases (done ok : pystr) (except : Exn -> M pystr) (st : State) :
  then_save cfg done ok except st =
  match _save_data cfg st with
  | (Ret _, st') => (Ret ok, with_log (log st' ++ [(INFO, done)]) st')
  | (Raise e, st') => except e st'
  end.
Proof.
  unfold then_save. munfold. destruct (_save_data cfg st) as [[[]|e] st']; reflexivity.
Qed.

(** *** add_item *)

Lemma add_item_under_cases (ex : pystr -> pystr -> Exn -> M pystr) (n x : pystr) (st : State) :
  add_item_under rt cfg ex n x st =
  match _validate_item cfg x with
  | inl e => ex n x e st
  | inr _ =>
      match resolved (_find_list_name rt (lists st) n) with
      | None =>
          ex n x (ListNotFoundError (Messages.LIST_NOT_FOUND n)) st
      | Some k =>
          match fst (_check_item_limit cfg k st) with
          | Raise e => ex n x e st
          | Ret _ =>
              match Dict.get k (lists st) with
              | None => ex n (Str.strip x) (KeyError k) st
              | Some v =>
                  match Py.contains (Str.strip x) v with
                  | inl e => ex n (Str.strip x) e st
                  | inr true =>
                      ex n (Str.strip x)
                        (ItemExistsError (Messages.ITEM_EXISTS (Str.strip x) k)) st
                  | inr false =>
                      match Py.append (Str.strip x) v with
                      | inl e => ex n (Str.strip x) e st
                      | inr v' =>
                          then_save cfg
                            (u "Added '" ++ Str.strip x ++ u "' to '" ++ k ++ u "'")
                            (Messages.ITEM_ADDED (Str.strip x) k)
                            (ex n (Str.strip x))
                            (with_lists (Dict.set k v' (lists st)) st)
                      end
                  end
              end
          end
      end
  end.
Proof.
  unfold add_item_under, then_save. munfold.
  destruct (_validate_item cfg x); cbn; [reflexivity|].
  destruct (resolved _) as [k|]; cbn; [|reflexivity].
  pose proof (check_item_limit_state k st) as Hs.
  destruct (_check_item_limit cfg k st) as [[[]|e] s]; cbn in Hs; subst s; cbn;
    [|reflexivity].
  destruct (Dict.get k (lists st)) as [v|] eqn:Hg; cbn; [|reflexivity].
  destruct (Py.contains (Str.strip x) v) as [e|[]]; cbn; try reflexivity.
  rewrite Hg. cbn.
  destruct (Py.append (Str.strip x) v); cbn; reflexivity.
Qed.

Lemma add_item_cases (n x : pystr) (st : State) :
  add_item rt cfg n x st =
  match _validate_item cfg x with
  | inl e => add_item_except n x e st
  | inr _ =>
      match resolved (_find_list_name rt (lists st) n) with
      | None =>
          add_item_except n x (ListNotFoundError (Messages.LIST_NOT_FOUND n)) st
      | Some k =>
          match fst (_check_item_limit cfg k st) with
          | Raise e => add_item_except n x e st
          | Ret _ =>
              match Dict.get k (lists st) with
              | None => add_item_except n (Str.strip x) (KeyError k) st
              | Some v =>
                  match Py.contains (Str.strip x) v with
                  | inl e => add_item_except n (Str.strip x) e st
                  | inr true =>
                      add_item_except n (Str.strip x)
                        (ItemExistsError (Messages.ITEM_EXISTS (Str.strip x) k)) st
                  | inr false =>
                      match Py.append (Str.strip x) v with
                      | inl e => add_item_except n (Str.strip x) e st
                      | inr v' =>
                          then_save cfg
                            (u "Added '" ++ Str.strip x ++ u "' to '" ++ k ++ u "'")
                            (Messages.ITEM_ADDED (Str.strip x) k)
                            (add_item_except n (Str.strip x))
                            (with_lists (Dict.set k v' (lists st)) st)
                      end
                  end
              end
          end
      end
  end.
Proof. apply add_item_under_cases. Qed.

(** *** remove_item *)

Lemma remove_item_under_cases (ex : pystr -> pystr -> Exn -> M pystr) (n x : pystr) (st : State) :
  remove_item_under rt cfg ex n x st =
  match resolved (_find_list_name rt (lists st) n) with
  | None =>
      ex n x (ListNotFoundError (Messages.LIST_NOT_FOUND n)) st
  | Some k =>
      match Dict.get k (lists st) with
      | None => ex n (Str.strip x) (KeyError k) st
      | Some v =>
          match Py.contains (Str.strip x) v with
          | inl e => ex n (Str.strip x) e st
          | inr false =>
              ex n (Str.strip x)
                (ItemNotFoundError (Messages.ITEM_NOT_FOUND (Str.strip x) k)) st
          | inr true =>
              match Py.remove (Str.strip x) v with
              | inl e => ex n (Str.strip x) e st
              | inr v' =>
                  then_save cfg
                    (u "Removed '" ++ Str.strip x ++ u "' from '" ++ k ++ u "'")
                    (Messages.ITEM_REMOVED (Str.strip x) k)
                    (ex n (Str.strip x))
                    (with_lists (Dict.set k v' (lists st)) st)
              end
          end
      end
  end.
Proof.
  unfold remove_item_under, then_save. munfold.
  destruct (resolved _) as [k|]; cbn; [|reflexivity].
  destruct (Dict.get k (lists st)) as [v|] eqn:Hg; cbn; [|reflexivity].
  destruct (Py.contains (Str.strip x) v) as [e|[]]; cbn; try reflexivity.
  rewrite Hg. cbn.
  destruct (Py.remove (Str.strip x) v); cbn; reflexivity.
Qed.

Lemma remove_item_cases (n x : pystr) (st : State) :
  remove_item rt cfg n x st =
  match resolved (_find_list_name rt (lists st) n) with
  | None =>
      remove_item_except n x (ListNotFoundError (Messages.LIST_NOT_FOUND n)) st
  | Some k =>
      match Dict.get k (lists st) with
      | None => remove_item_except n (Str.strip x) (KeyError k) st
      | Some v =>
          match Py.contains (Str.strip x) v with
          | inl e => remove_item_except n (Str.strip x) e st
          | inr false =>
              remove_item_except n (Str.strip x)
                (ItemNotFoundError (Messages.ITEM_NOT_FOUND (Str.strip x) k)) st
          | inr true =>
              match Py.remove (Str.strip x) v with
              | inl e => remove_item_except n (Str.strip x) e st
              | inr v' =>
                  then_save cfg
                    (u "Removed '" ++ Str.strip x ++ u "' from '" ++ k ++ u "'")
                    (Messages.ITEM_REMOVED (Str.strip x) k)
                    (remove_item_except n (Str.strip x))
                    (with_lists (Dict.set k v' (lists st)) st)
              end
          end
      end
  end.
Proof. apply remove_item_under_cases. Qed.

(** *** delete_list *)

Lemma delete_list_under_cases (ex : pystr -> Exn -> M pystr) (n : pystr) (st : State) :
  delete_list_under rt cfg ex n st =
  match resolved (_find_list_name rt (lists st) n) with
  | None => ex n (ListNotFoundError (Messages.LIST_NOT_FOUND n)) st
  | Some k =>
      match Dict.get k (lists st) with
      | None => ex n (KeyError k) st
      | Some _ =>
          then_save cfg (u "Deleted list: " ++ k) (Messages.LIST_DELETED k)
            (ex n) (with_lists (Dict.del k (lists st)) st)
      end
  end.
Proof.
  unfold delete_list_under, then_save. munfold.
  destruct (resolved _) as [k|]; cbn; [|reflexivity].
  destruct (Dict.get k (lists st)) as [v|] eqn:Hg; cbn; [|reflexivity].
  destruct (_save_data cfg _) as [[[]|e] st']; cbn; reflexivity.
Qed.

Lemma delete_list_cases (n : pystr) (st : State) :
  delete_list rt cfg n st =
  match resolved (_find_list_name rt (lists st) n) with
  | None => delete_list_except n (ListNotFoundError (Messages.LIST_NOT_FOUND n)) st
  | Some k =>
      match Dict.get k (lists st) with
      | None => delete_list_except n (KeyError k) st
      | Some _ =>
          then_save cfg (u "Deleted list: " ++ k) (Messages.LIST_DELETED k)
            (delete_list_except n) (with_lists (Dict.del k (lists st)) st)
      end
  end.
Proof. apply delete_list_under_cases. Qed.

(** *** add_multiple_items *)

Lemma add_candidate_cases (k item : pystr) (st : State) :
  add_candidate cfg k item st =
  match _validate_item cfg item with
  | inl _ => (Ret Invalid, st)
  | inr _ =>
      match Dict.get k (lists st) with
      | None => (Ret Errored, st)
      | Some v =>
          match Py.contains item v with
          | inl _ => (Ret Errored, st)
          | inr true => (Ret Skipped, st)
          | inr false =>
              match Py.append item v with
              | inl _ => (Ret Errored, st)
              | inr v' => (Ret Added, with_lists (Dict.set k v' (lists st)) st)
              end
          end
      end
  end.
Proof.
  unfold add_candidate. munfold.
  destruct (_validate_item cfg item) as [e|] eqn:Hv; cbn.
  - destruct (validate_item_exn _ _ Hv) as [m ->]. reflexivity.
  - destruct (Dict.get k (lists st)) as [v|] eqn:Hg; cbn; [|reflexivity].
    destruct v; cbn; try reflexivity;
      match goal with |- context [if ?b then _ else _] => destruct b end;
      cbn; rewrite ?Hg; cbn; reflexivity.
Qed.

Lemma with_lists_same (st : State) : with_lists (lists st) st = st.
Proof. now destruct st. Qed.

Lemma add_multiple_items_under_cases (ex : pystr -> Exn -> M pystr) (n text : pystr) (st : State) :
  add_multiple_items_under rt cfg ex n text st =
  match resolved (_find_list_name rt (lists st) n) with
  | None =>
      ex n (ListNotFoundError (Messages.LIST_NOT_FOUND n)) st
  | Some k =>
      match split_items text with
      | [] =>
          ex n (ValidationError (u "No valid items found")) st
      | items =>
          match Dict.get k (lists st) with
          | None => ex n (KeyError k) st
          | Some v =>
              match Py.len v with
              | inl e => ex n e st
              | inr len =>
                  if (len + Z.of_nat (List.length items) >? max_items_per_list cfg)%Z
                  then
                    ex n
                      (LimitExceededError
                         (Messages.err_mark ++ u "Adding " ++ count items
                          ++ u " items would exceed the limit of "
                          ++ Str.of_Z (max_items_per_list cfg) ++ u " items per list")) st
                  else
                    match add_candidates cfg k items no_items st with
                    | (Raise e, st1) => ex n e st1
                    | (Ret t, st1) =>
                        let summary :=
                          match result_parts k t with
                          | [] => Messages.err_mark ++ u "No items were processed"
                          | parts => Str.join [10%N] parts
                          end in
                        match added_items t with
                        | [] => (Ret summary, st1)
                        | _ :: _ =>
                            then_save cfg
                              (u "Added " ++ count (added_items t)
                               ++ u " items to '" ++ k ++ u "': "
                               ++ repr rt (VList (map VStr (added_items t))))
                              summary (ex n) st1
                        end
                    end
              end
          end
      end
  end.
Proof.
  unfold add_multiple_items_under, no_items, then_save. munfold.
  destruct (resolved _) as [k|]; cbn; [|reflexivity].
  destruct (split_items text) as [|i items]; cbn; [reflexivity|].
  destruct (Dict.get k (lists st)) as [v|] eqn:Hg; cbn; [|reflexivity].
  destruct (Py.len v) as [e|len]; cbn; [reflexivity|].
  destruct (_ >? _)%Z; cbn; [reflexivity|].
  destruct (bind _ _ st) as [[t|e] st1]; cbn; [|reflexivity].
  destruct (added_items t) as [|a l]; cbn.
  - destruct (result_parts k t); reflexivity.
  - destruct (_save_data cfg st1) as [[[]|e] st2]; cbn; [|reflexivity].
    destruct (result_parts k t); reflexivity.
Qed.

Lemma add_multiple_items_cases (n text : pystr) (st : State) :
  add_multiple_items rt cfg n text st =
  match resolved (_find_list_name rt (lists st) n) with
  | None =>
      add_multiple_items_except n (ListNotFoundError (Messages.LIST_NOT_FOUND n)) st
  | Some k =>
      match split_items text with
      | [] =>
          add_multiple_items_except n (ValidationError (u "No valid items found")) st
      | items =>
          match Dict.get k (lists st) with
          | None => add_multiple_items_except n (KeyError k) st
          | Some v =>
              match Py.len v with
              | inl e => add_multiple_items_except n e st
              | inr len =>
                  if (len + Z.of_nat (List.length items) >? max_items_per_list cfg)%Z
                  then
                    add_multiple_items_except n
                      (LimitExceededError
                         (Messages.err_mark ++ u "Adding " ++ count items
                          ++ u " items would exceed the limit of "
                          ++ Str.of_Z (max_items_per_list cfg) ++ u " items per list")) st
                  else
                    match add_candidates cfg k items no_items st with
                    | (Raise e, st1) => add_multiple_items_except n e st1
                    | (Ret t, st1) =>
                        let summary :=
                          match result_parts k t with
                          | [] => Messages.err_mark ++ u "No items were processed"
                          | parts => Str.join [10%N] parts
                          end in
                        match added_items t with
                        | [] => (Ret summary, st1)
                        | _ :: _ =>
                            then_save cfg
                              (u "Added " ++ count (added_items t)
                               ++ u " items to '" ++ k ++ u "': "
                               ++ repr rt (VList (map VStr (added_items t))))
                              summary (add_multiple_items_except n) st1
                        end
                    end
              end
          end
      end
  end.
Proof. apply add_multiple_items_under_cases. Qed.

End WithConfig.

End Cases.


(** * The methods write what [effect] says, and then save *)

Module Effect.

#[local] Arguments Json.dumps : simpl never.
#[local] Arguments u : simpl never.
#[local] Arguments app : simpl never.
#[local] Arguments Str.strip : simpl never.
#[local] Arguments Str.of_Z : simpl never.

Section WithConfig.
Variable rt : PyRuntime.
Variable cfg : BotConfig.

Ltac quiet_tac :=
  let e := fresh "e" in let st := fresh "st" in
  intros e st; destruct e; cbn; munfold; cbn; eauto.

Lemma create_list_except_quiet (n : pystr) : quiet (create_list_except n).
Proof. quiet_tac. Qed.

Lemma add_item_except_quiet (n x : pystr) : quiet (add_item_except n x).
Proof. quiet_tac. Qed.

Lemma add_multiple_items_except_quiet (n : pystr) : quiet (add_multiple_items_except n).
Proof. quiet_tac. Qed.

Lemma remove_item_except_quiet (n x : pystr) : quiet (remove_item_except n x).
Proof. quiet_tac. Qed.

Lemma delete_list_except_quiet (n : pystr) : quiet (delete_list_except n).
Proof. quiet_tac. Qed.

Lemma show_list_except_quiet (n : pystr) : quiet (show_list_except n).
Proof. quiet_tac. Qed.

Lemma search_item_except_quiet (n : pystr) : quiet (search_item_except n).
Proof. quiet_tac. Qed.

(** What a rejected call leaves behind. *)
Lemma quiet_unchanged (h : Exn -> M pystr) (e : Exn) (st : State) :
  quiet h ->
  lists (snd (h e st)) = lists st /\ files (snd (h e st)) = files st
  /\ exists s, fst (h e st) = Ret s.
Proof.
  intros Hq. destruct (Hq e st) as (s & entry & ->). cbn. eauto.
Qed.

(** What the clause [except Exception] of each method answers: the errors
    of the save are among those it takes. *)
Ltac generic_tac :=
  let e := fresh "e" in let st := fresh "st" in let H := fresh "H" in
  intros e st H; destruct e; try discriminate H; reflexivity.

Lemma create_list_except_generic (n n' : pystr) (e : Exn) (st : State) :
  category e = Some StorageFailure \/ category e = None ->
  fst (create_list_except n e st) = Ret (generic_error (CreateList n')).
Proof. intros [H|H]; revert e st H; generic_tac. Qed.

Lemma add_item_except_generic (n x n' x' : pystr) (e : Exn) (st : State) :
  category e = Some StorageFailure \/ category e = None ->
  fst (add_item_except n x e st) = Ret (generic_error (AddItem n' x')).
Proof. intros [H|H]; revert e st H; generic_tac. Qed.

Lemma add_multiple_items_except_generic (n t : pystr) (e : Exn) (st : State) :
  category e = Some StorageFailure \/ category e = None ->
  fst (add_multiple_items_except n e st) = Ret (generic_error (AddMultipleItems n t)).
Proof. intros [H|H]; revert e st H; generic_tac. Qed.

Lemma remove_item_except_generic (n x n' x' : pystr) (e : Exn) (st : State) :
  category e = Some StorageFailure \/ category e = None ->
  fst (remove_item_except n x e st) = Ret (generic_error (RemoveItem n' x')).
Proof. intros [H|H]; revert e st H; generic_tac. Qed.

Lemma delete_list_except_generic (n n' : pystr) (e : Exn) (st : State) :
  category e = Some StorageFailure \/ category e = None ->
  fst (delete_list_except n e st) = Ret (generic_error (DeleteList n')).
Proof. intros [H|H]; revert e st H; generic_tac. Qed.

(** The errors of the save are of that kind. *)
Lemma save_error (st : State) (e : Exn) :
  fst (_save_data cfg st) = Raise e ->
  category e = Some StorageFailure \/ category e = None.
Proof.
  intros H.
  destruct (PersistFacts.save_outcome cfg st) as [Ho|[[m Ho]|(c & p & Ho)]];
    rewrite Ho in H; [discriminate| |]; injection H as <-; auto.
Qed.

(** What [then_save] leaves behind. *)
Lemma then_save_effect (done ok g : pystr) (h : Exn -> M pystr) (st : State) :
  quiet h ->
  (forall e st', category e = Some StorageFailure \/ category e = None ->
                 fst (h e st') = Ret g) ->
  lists (snd (then_save cfg done ok h st)) = lists st
  /\ files (snd (then_save cfg done ok h st)) = files (snd (_save_data cfg st))
  /\ (fst (_save_data cfg st) = Ret tt -> fst (then_save cfg done ok h st) = Ret ok)
  /\ (fst (_save_data cfg st) <> Ret tt -> fst (then_save cfg done ok h st) = Ret g).
Proof.
  intros Hq Hg. rewrite Cases.then_save_cases.
  pose proof (PersistFacts.save_lists cfg st) as Hl.
  pose proof (PersistFacts.save_outcome cfg st) as Ho.
  destruct (_save_data cfg st) as [[[]|e] st1]; cbn in *.
  - split; [exact Hl|]. split; [reflexivity|]. split; [reflexivity|].
    intros H. now contradiction H.
  - assert (He : category e = Some StorageFailure \/ category e = None).
    { destruct Ho as [Ho|[[m Ho]|(c & p & Ho)]]; [discriminate| |];
        injection Ho as ->; auto. }
    destruct (Hq e st1) as (s & entry & E).
    specialize (Hg e st1 He). rewrite E in *. cbn in *.
    split; [exact Hl|]. split; [reflexivity|]. split; [discriminate|].
    intros _. exact Hg.
Qed.

Lemma rejected (h : Exn -> M pystr) (e : Exn) (g : pystr) (st : State) :
  quiet h -> writes_then_saves cfg g None st (h e st).
Proof. intros Hq. destruct (quiet_unchanged h e st Hq) as (H1 & H2 & H3). now repeat split. Qed.

Lemma saved (done ok g : pystr) (h : Exn -> M pystr) (ls' : Dict.t PyVal) (st : State) :
  quiet h ->
  (forall e st', category e = Some StorageFailure \/ category e = None ->
                 fst (h e st') = Ret g) ->
  writes_then_saves cfg g (Some ls') st (then_save cfg done ok h (with_lists ls' st)).
Proof.
  intros Hq Hg.
  destruct (then_save_effect done ok g h (with_lists ls' st) Hq Hg) as (H1 & H2 & H3 & H4).
  split.
  - destruct (PersistFacts.save_outcome cfg (with_lists ls' st))
      as [Ho|[[m Ho]|(c & p & Ho)]].
    + rewrite (H3 Ho). eauto.
    + rewrite H4; [eauto|]. rewrite Ho. discriminate.
    + rewrite H4; [eauto|]. rewrite Ho. discriminate.
  - cbn. repeat split; assumption.
Qed.

Lemma create_list_effect (n : pystr) (st : State) :
  writes_then_saves cfg (generic_error (CreateList n))
    (effect rt cfg (CreateList n) (lists st)) st (create_list rt cfg n st).
Proof.
  rewrite Cases.create_list_cases. cbn [effect].
  destruct (_validate_list_name cfg n);
    [apply rejected, create_list_except_quiet|].
  destruct (_check_list_limit cfg (lists st));
    [apply rejected, create_list_except_quiet|].
  destruct (resolved _); [apply rejected, create_list_except_quiet|].
  apply saved; [apply create_list_except_quiet|apply create_list_except_generic].
Qed.

Lemma check_item_limit_cases (k : pystr) (st : State) :
  fst (_check_item_limit cfg k st) =
  match Dict.get k (lists st) with
  | None => Raise (KeyError k)
  | Some v =>
      match Py.len v with
      | inl e => Raise e
      | inr len =>
          if (len >=? max_items_per_list cfg)%Z
          then Raise (LimitExceededError (Messages.TOO_MANY_ITEMS (max_items_per_list cfg)))
          else Ret tt
      end
  end.
Proof.
  unfold _check_item_limit. munfold.
  destruct (Dict.get k (lists st)); cbn; [|reflexivity].
  destruct (Py.len p); cbn; [reflexivity|].
  destruct (_ >=? _)%Z; reflexivity.
Qed.

Lemma add_item_effect (n x : pystr) (st : State) :
  writes_then_saves cfg (generic_error (AddItem n x))
    (effect rt cfg (AddItem n x) (lists st)) st (add_item rt cfg n x st).
Proof.
  rewrite Cases.add_item_cases. cbn [effect].
  destruct (_validate_item cfg x);
    [apply rejected, add_item_except_quiet|].
  destruct (resolved _) as [k|]; [|apply rejected, add_item_except_quiet].
  rewrite check_item_limit_cases.
  destruct (Dict.get k (lists st)) as [v|]; [|apply rejected, add_item_except_quiet].
  destruct (Py.len v) as [e|len]; [apply rejected, add_item_except_quiet|].
  destruct (len >=? max_items_per_list cfg)%Z.
  { destruct (Py.contains _ v) as [?|[]]; try destruct (Py.append _ v);
      apply rejected, add_item_except_quiet. }
  destruct (Py.contains _ v) as [?|[]]; try (apply rejected, add_item_except_quiet).
  destruct (Py.append _ v); [apply rejected, add_item_except_quiet|].
  apply saved; [apply add_item_except_quiet|apply add_item_except_generic].
Qed.

Lemma remove_item_effect (n x : pystr) (st : State) :
  writes_then_saves cfg (generic_error (RemoveItem n x))
    (effect rt cfg (RemoveItem n x) (lists st)) st (remove_item rt cfg n x st).
Proof.
  rewrite Cases.remove_item_cases. cbn [effect].
  destruct (resolved _) as [k|]; [|apply rejected, remove_item_except_quiet].
  destruct (Dict.get k (lists st)) as [v|]; [|apply rejected, remove_item_except_quiet].
  destruct (Py.contains _ v) as [?|[]]; try (apply rejected, remove_item_except_quiet).
  destruct (Py.remove _ v); [apply rejected, remove_item_except_quiet|].
  apply saved; [apply remove_item_except_quiet|apply remove_item_except_generic].
Qed.

Lemma delete_list_effect (n : pystr) (st : State) :
  writes_then_saves cfg (generic_error (DeleteList n))
    (effect rt cfg (DeleteList n) (lists st)) st (delete_list rt cfg n st).
Proof.
  rewrite Cases.delete_list_cases. cbn [effect].
  destruct (resolved _) as [k|]; [|apply rejected, delete_list_except_quiet].
  destruct (Dict.get k (lists st)) as [v|]; [|apply rejected, delete_list_except_quiet].
  apply saved; [apply delete_list_except_quiet|apply delete_list_except_generic].
Qed.

(** The loop of the method is [add_all] on the value of the target list. *)
Lemma add_candidates_add_all (k : pystr) (items : list pystr) :
  forall (v : PyVal) (t : Tally) (st : State),
    Dict.get k (lists st) = Some v ->
    add_candidates cfg k items t st =
    (Ret (snd (add_all cfg items v t)),
     with_lists (Dict.set k (fst (add_all cfg items v t)) (lists st)) st).
Proof.
  induction items as [|item rest IH]; intros v t st Hg; cbn [add_candidates add_all].
  - cbn [fst snd]. rewrite (DictFacts.set_get_same _ _ _ Hg).
    now rewrite Cases.with_lists_same.
  - unfold bind. rewrite Cases.add_candidate_cases, Hg.
    destruct (_validate_item cfg item); [now apply IH|].
    destruct (Py.contains item v) as [e|[]]; try (now apply IH).
    destruct (Py.append item v) as [e|v']; [now apply IH|].
    rewrite (IH v' _ (with_lists (Dict.set k v' (lists st)) st)).
    + cbn [lists with_lists]. now rewrite DictFacts.set_set.
    + cbn [lists with_lists]. apply DictFacts.get_set_same.
Qed.

(** [add_all] only ever extends [added_items], and leaves the value alone
    when it adds nothing. *)
Lemma add_all_added (items : list pystr) :
  forall (v : PyVal) (t : Tally),
  exists new,
    added_items (snd (add_all cfg items v t)) = added_items t ++ new
    /\ (new = [] -> fst (add_all cfg items v t) = v).
Proof.
  induction items as [|item rest IH]; intros v t; cbn [add_all].
  - exists []. now rewrite app_nil_r.
  - assert (Hkeep : forall w, w <> Added ->
      exists new,
        added_items (snd (add_all cfg rest v (tally t item w))) = added_items t ++ new
        /\ (new = [] -> fst (add_all cfg rest v (tally t item w)) = v)).
    { intros w Hw. destruct (IH v (tally t item w)) as (new & Hn & Hu).
      exists new. split; [|exact Hu]. rewrite Hn. now destruct w. }
    destruct (_validate_item cfg item); [apply Hkeep; discriminate|].
    destruct (Py.contains item v) as [e|[]]; try (apply Hkeep; discriminate).
    destruct (Py.append item v) as [e|v']; [apply Hkeep; discriminate|].
    destruct (IH v' (tally t item Added)) as (new & Hn & Hu).
    exists (item :: new). split; [|discriminate].
    rewrite Hn. cbn. now rewrite <- app_assoc.
Qed.

Lemma add_multiple_items_effect (n text : pystr) (st : State) :
  writes_then_saves cfg (generic_error (AddMultipleItems n text))
    (effect rt cfg (AddMultipleItems n text) (lists st)) st
    (add_multiple_items rt cfg n text st).
Proof.
  rewrite Cases.add_multiple_items_cases. cbn [effect].
  destruct (resolved _) as [k|]; [|apply rejected, add_multiple_items_except_quiet].
  destruct (split_items text) as [|i items];
    [apply rejected, add_multiple_items_except_quiet|].
  destruct (Dict.get k (lists st)) as [v|] eqn:Hg;
    [|apply rejected, add_multiple_items_except_quiet].
  destruct (Py.len v) as [e|len]; [apply rejected, add_multiple_items_except_quiet|].
  destruct (_ >? _)%Z; [apply rejected, add_multiple_items_except_quiet|].
  rewrite (add_candidates_add_all k (i :: items) v no_items st Hg).
  destruct (add_all_added (i :: items) v no_items) as (new & Hn & Hu).
  destruct (add_all cfg (i :: items) v no_items) as [v' t]. cbn [fst snd] in *.
  destruct (added_items t) as [|a l] eqn:Ha.
  - cbn in Hn. symmetry in Hn. rewrite (Hu Hn).
    rewrite (DictFacts.set_get_same _ _ _ Hg). rewrite Cases.with_lists_same.
    split; [eexists; reflexivity|now split].
  - apply saved; [apply add_multiple_items_except_quiet|apply add_multiple_items_except_generic].
Qed.

Lemma fmap_fst {A B : Type} (f : A -> B) (c : M A) (st : State) :
  fst (fmap f c st) = match fst (c st) with Ret a => Ret (f a) | Raise e => Raise e end.
Proof. unfold fmap. now destruct (c st) as [[a|e] st']. Qed.

Lemma fmap_snd {A B : Type} (f : A -> B) (c : M A) (st : State) :
  snd (fmap f c st) = snd (c st).
Proof. unfold fmap. now destruct (c st) as [[a|e] st']. Qed.

(** Every writing call writes what [effect] says and then saves; a call
    that is rejected, and a read, write nothing. *)
Lemma call_effect (c : Call) (st : State) :
  mutating c = true ->
  match effect rt cfg c (lists st) with
  | None =>
      lists (snd (call rt cfg c st)) = lists st
      /\ files (snd (call rt cfg c st)) = files st
  | Some ls' =>
      lists (snd (call rt cfg c st)) = ls'
      /\ files (snd (call rt cfg c st)) = files (snd (_save_data cfg (with_lists ls' st)))
      /\ (fst (_save_data cfg (with_lists ls' st)) <> Ret tt ->
          fst (call rt cfg c st) = Ret (RStr (generic_error c)))
  end.
Proof.
  intros Hm.
  assert (G : forall m : M pystr,
             writes_then_saves cfg (generic_error c) (effect rt cfg c (lists st)) st (m st) ->
             match effect rt cfg c (lists st) with
             | None =>
                 lists (snd (fmap RStr m st)) = lists st
                 /\ files (snd (fmap RStr m st)) = files st
             | Some ls' =>
                 lists (snd (fmap RStr m st)) = ls'
                 /\ files (snd (fmap RStr m st))
                    = files (snd (_save_data cfg (with_lists ls' st)))
                 /\ (fst (_save_data cfg (with_lists ls' st)) <> Ret tt ->
                     fst (fmap RStr m st) = Ret (RStr (generic_error c)))
             end).
  { intros m [_ H]. rewrite fmap_fst, fmap_snd.
    destruct (effect rt cfg c (lists st)); [|exact H].
    destruct H as (H1 & H2 & H3). repeat split; try assumption.
    intros Hf. now rewrite (H3 Hf). }
  destruct c; try discriminate; cbn [call]; apply G.
  - apply create_list_effect.
  - apply add_item_effect.
  - apply add_multiple_items_effect.
  - apply remove_item_effect.
  - apply delete_list_effect.
Qed.

End WithConfig.

End Effect.


(** * The reading methods *)

Module Reads.

#[local] Arguments Json.dumps : simpl never.
#[local] Arguments u : simpl never.
#[local] Arguments app : simpl never.
#[local] Arguments Str.strip : simpl never.
#[local] Arguments Str.of_Z : simpl never.
#[local] Arguments show_list_except : simpl never.
#[local] Arguments sorted_items : simpl never.
#[local] Arguments Dict.values : simpl never.
#[local] Arguments search_item_except : simpl never.

Section WithConfig.
Variable rt : PyRuntime.
Variable cfg : BotConfig.

(** [show_list] and [search_item] return a string and write nothing. *)
Lemma show_list_reads (n : pystr) (st : State) :
  (exists s, fst (show_list rt n st) = Ret s)
  /\ lists (snd (show_list rt n st)) = lists st
  /\ files (snd (show_list rt n st)) = files st.
Proof.
  assert (Q : forall e, (exists s, fst (show_list_except n e st) = Ret s)
                        /\ lists (snd (show_list_except n e st)) = lists st
                        /\ files (snd (show_list_except n e st)) = files st).
  { intros e.
    destruct (Effect.quiet_unchanged _ e st (Effect.show_list_except_quiet n))
      as (H1 & H2 & H3). auto. }
  unfold show_list, show_list_under. munfold.
  destruct (resolved _) as [k|]; cbn; [|apply Q].
  destruct (Dict.get k (lists st)) as [v|]; cbn; [|apply Q].
  destruct (Py.truth v); cbn; [|eauto].
  destruct (Py.len v); cbn; [apply Q|].
  destruct (Py.iter v); cbn; [apply Q|eauto].
Qed.

Lemma search_item_reads (t : pystr) (st : State) :
  (exists s, fst (search_item rt t st) = Ret s)
  /\ lists (snd (search_item rt t st)) = lists st
  /\ files (snd (search_item rt t st)) = files st.
Proof.
  assert (Q : forall t' e, (exists s, fst (search_item_except t' e st) = Ret s)
                        /\ lists (snd (search_item_except t' e st)) = lists st
                        /\ files (snd (search_item_except t' e st)) = files st).
  { intros t' e.
    destruct (Effect.quiet_unchanged _ e st (Effect.search_item_except_quiet t'))
      as (H1 & H2 & H3). auto. }
  unfold search_item, search_item_under.
  destruct (_ || _); [apply Q|]. munfold.
  destruct (search_all rt _ (lists st)) as [e|[|r rs]]; cbn; [apply Q|eauto|eauto].
Qed.

(** [show_all_lists] and [get_stats] leave the state as it is, whatever
    they return or raise. *)
Lemma show_all_lists_state (st : State) : snd (show_all_lists st) = st.
Proof.
  unfold show_all_lists. munfold.
  destruct (lists st); cbn; [reflexivity|].
  destruct (all_lines _); reflexivity.
Qed.

Lemma get_stats_state (st : State) : snd (get_stats st) = st.
Proof.
  unfold get_stats. munfold.
  destruct (lens _); reflexivity.
Qed.

(** A read leaves the collection and the files alone. *)
Lemma read_only (c : Call) (st : State) :
  mutating c = false ->
  lists (snd (call rt cfg c st)) = lists st
  /\ files (snd (call rt cfg c st)) = files st.
Proof.
  intros Hm. destruct c; try discriminate; cbn [call]; rewrite Effect.fmap_snd.
  - apply show_list_reads.
  - now rewrite show_all_lists_state.
  - apply search_item_reads.
  - now rewrite get_stats_state.
Qed.

(** *** Values with a length *)

Lemma is_str_list_len (v : PyVal) :
  is_str_list v = true -> exists n, Py.len v = inr n.
Proof. destruct v; try discriminate. cbn. eauto. Qed.

Lemma insert_sorted_Forall {V : Type} (P : pystr * V -> Prop) (kv : pystr * V)
    (l : list (pystr * V)) :
  P kv -> Forall P l -> Forall P (insert_sorted kv l).
Proof.
  intros Hkv Hl. induction Hl as [|x l Hx Hl IH]; cbn.
  - now constructor.
  - destruct (str_leb _ _); constructor; auto.
Qed.

Lemma sorted_items_Forall {V : Type} (P : pystr * V -> Prop) (d : list (pystr * V)) :
  Forall P d -> Forall P (sorted_items d).
Proof.
  unfold sorted_items.
  assert (G : forall d acc, Forall P d -> Forall P acc ->
                            Forall P (fold_left (fun acc kv => insert_sorted kv acc) d acc)).
  { clear d. induction d as [|kv d IH]; intros acc Hd Hacc; cbn; [exact Hacc|].
    inversion Hd; subst. apply IH; [assumption|]. now apply insert_sorted_Forall. }
  intros H. now apply G.
Qed.

Lemma well_typed_Forall (ls : Dict.t PyVal) :
  well_typed ls = true -> Forall (fun kv => is_str_list (snd kv) = true) ls.
Proof. unfold well_typed. rewrite forallb_forall. now rewrite Forall_forall. Qed.

Lemma all_lines_returns (l : list (pystr * PyVal)) :
  Forall (fun kv => is_str_list (snd kv) = true) l -> exists s, all_lines l = inr s.
Proof.
  induction 1 as [|[k v] l Hv Hl [s IH]]; cbn; [eauto|].
  destruct (is_str_list_len v Hv) as [n ->]. rewrite IH. eauto.
Qed.

Lemma lens_returns (vs : list PyVal) :
  Forall (fun v => is_str_list v = true) vs -> exists ns, lens vs = inr ns.
Proof.
  induction 1 as [|v l Hv Hl [s IH]]; cbn; [eauto|].
  destruct (is_str_list_len v Hv) as [n ->]. rewrite IH. eauto.
Qed.

(** On a collection of string lists, [show_all_lists] and [get_stats]
    return. *)
Lemma show_all_lists_returns (st : State) :
  well_typed (lists st) = true -> exists s, fst (show_all_lists st) = Ret s.
Proof.
  intros Hwt. unfold show_all_lists. munfold.
  destruct (lists st) as [|kv l] eqn:E; cbn; [eauto|].
  destruct (all_lines_returns (sorted_items (kv :: l))) as [s Hs].
  { apply sorted_items_Forall, well_typed_Forall. exact Hwt. }
  rewrite Hs. cbn. eauto.
Qed.

Lemma get_stats_returns (st : State) :
  well_typed (lists st) = true -> exists s, fst (get_stats st) = Ret s.
Proof.
  intros Hwt. unfold get_stats. munfold.
  destruct (lens_returns (Dict.values (lists st))) as [ns Hns].
  { unfold Dict.values. apply Forall_map. now apply well_typed_Forall. }
  rewrite Hns. cbn. eauto.
Qed.

(** Every method with a [try] around its body returns a string. *)
Lemma guarded_returns (c : Call) (st : State) :
  guarded c = true -> exists s, fst (call rt cfg c st) = Ret (RStr s).
Proof.
  intros Hg.
  assert (G : forall m : M pystr, (exists s, fst (m st) = Ret s) ->
                                  exists s, fst (fmap RStr m st) = Ret (RStr s)).
  { intros m [s Hs]. exists s. now rewrite Effect.fmap_fst, Hs. }
  destruct c; try discriminate; cbn [call]; apply G.
  - apply (Effect.create_list_effect rt cfg).
  - apply (Effect.add_item_effect rt cfg).
  - apply (Effect.add_multiple_items_effect rt cfg).
  - apply (Effect.remove_item_effect rt cfg).
  - apply show_list_reads.
  - apply (Effect.delete_list_effect rt cfg).
  - apply search_item_reads.
Qed.

End WithConfig.

End Reads.


(** * Name resolution *)

Module Resolve.

Section WithRuntime.
Variable rt : PyRuntime.

(** [_find_list_name] returns the first key whose lowercase form is that of
    the argument, as it is given. *)
Lemma find_first_lower_spec (target : pystr) (names : list pystr) :
  match find_first_lower rt target names with
  | Some k =>
      exists before after,
        names = before ++ k :: after
        /\ lower rt k = target
        /\ Forall (fun k' => lower rt k' <> target) before
  | None => Forall (fun k' => lower rt k' <> target) names
  end.
Proof.
  induction names as [|k names IH]; cbn; [constructor|].
  destruct (StrFacts.eqb_spec (lower rt k) target) as [E|E].
  - exists [], names. repeat split; [assumption|constructor].
  - destruct (find_first_lower rt target names) as [k'|].
    + destruct IH as (before & after & -> & Hl & Hb).
      exists (k :: before), after. repeat split; [assumption|now constructor].
    + now constructor.
Qed.

Lemma find_some (ls : Dict.t PyVal) (n k : pystr) :
  _find_list_name rt ls n = Some k ->
  In k (Dict.keys ls) /\ lower rt k = lower rt n.
Proof.
  unfold _find_list_name. intros H.
  pose proof (find_first_lower_spec (lower rt n) (Dict.keys ls)) as S.
  rewrite H in S. destruct S as (before & after & E & Hl & _).
  split; [|exact Hl]. rewrite E. apply in_or_app. right. now left.
Qed.

Lemma find_none (ls : Dict.t PyVal) (n : pystr) :
  _find_list_name rt ls n = None ->
  forall k, In k (Dict.keys ls) -> lower rt k <> lower rt n.
Proof.
  unfold _find_list_name. intros H.
  pose proof (find_first_lower_spec (lower rt n) (Dict.keys ls)) as S.
  rewrite H in S. now rewrite Forall_forall in S.
Qed.

Lemma find_exists (ls : Dict.t PyVal) (n k : pystr) :
  In k (Dict.keys ls) -> lower rt k = lower rt n ->
  exists k', _find_list_name rt ls n = Some k'.
Proof.
  intros HIn Hl. destruct (_find_list_name rt ls n) as [k'|] eqn:E; [eauto|].
  exfalso. exact (find_none ls n E k HIn Hl).
Qed.

Lemma resolved_some (o : option pystr) (k : pystr) :
  resolved o = Some k -> o = Some k /\ k <> [].
Proof.
  destruct o as [[|c s]|]; cbn; try discriminate.
  intros [= <-]. split; [reflexivity|discriminate].
Qed.

Lemma resolved_none (o : option pystr) :
  resolved o = None -> o = None \/ o = Some [].
Proof. destruct o as [[|c s]|]; cbn; try discriminate; auto. Qed.

(** A name that resolves is a key of the collection. *)
Lemma resolved_in (ls : Dict.t PyVal) (n k : pystr) :
  resolved (_find_list_name rt ls n) = Some k ->
  In k (Dict.keys ls) /\ lower rt k = lower rt n /\ k <> [].
Proof.
  intros H. apply resolved_some in H as [H Hk].
  apply find_some in H as [H1 H2]. auto.
Qed.

End WithRuntime.

End Resolve.

(** * What the collection keeps through every call *)

Module Invariant.

#[local] Arguments Str.strip : simpl never.

Section WithConfig.
Variable rt : PyRuntime.
Variable cfg : BotConfig.

Lemma validate_list_name_ok (n : pystr) (x : unit) :
  _validate_list_name cfg n = inr x ->
  Str.strip n <> [] /\ (Str.len (Str.strip n) <= max_list_name_length cfg)%Z.
Proof.
  unfold _validate_list_name.
  destruct (Str.truthy n); cbn; [|discriminate].
  destruct (Str.truthy (Str.strip n)) eqn:E; cbn; [|discriminate].
  destruct (Z.gtb_spec (Str.len (Str.strip n)) (max_list_name_length cfg));
    [discriminate|].
  intros _. split; [now apply StrFacts.truthy_nonempty|lia].
Qed.

Lemma validate_item_ok (s : pystr) (x : unit) :
  _validate_item cfg s = inr x ->
  s <> [] /\ Str.strip s <> [] /\ (Str.len (Str.strip s) <= max_item_length cfg)%Z.
Proof.
  unfold _validate_item.
  destruct (Str.truthy s) eqn:E0; cbn; [|discriminate].
  destruct (Str.truthy (Str.strip s)) eqn:E; cbn; [|discriminate].
  destruct (Z.gtb_spec (Str.len (Str.strip s)) (max_item_length cfg));
    [discriminate|].
  intros _. repeat split; [now apply StrFacts.truthy_nonempty
                          |now apply StrFacts.truthy_nonempty|lia].
Qed.

(** A validated item, once trimmed, is a good item. *)
Lemma good_item_strip (s : pystr) (x : unit) :
  _validate_item cfg s = inr x -> good_item (VStr (Str.strip s)) = true.
Proof.
  intros H. apply validate_item_ok in H as (_ & H & _).
  cbn. rewrite StrFacts.strip_idem.
  apply StrFacts.truthy_nonempty in H. now rewrite H.
Qed.

Lemma good_item_valid (s : pystr) (x : unit) :
  _validate_item cfg s = inr x -> good_item (VStr s) = true.
Proof.
  intros H. apply validate_item_ok in H as (H0 & H & _). cbn.
  apply StrFacts.truthy_nonempty in H0, H. now rewrite H0, H.
Qed.

Lemma good_get (ls : Dict.t PyVal) (k : pystr) (v : PyVal) :
  good ls = true -> Dict.get k ls = Some v -> good_list v = true.
Proof.
  unfold good. induction ls as [|[k0 v0] ls IH]; cbn; [discriminate|].
  intros H. apply andb_true_iff in H as [H0 H].
  destruct (Str.eqb k0 k); [now intros [= <-]|now apply IH].
Qed.

Lemma good_set (ls : Dict.t PyVal) (k : pystr) (v : PyVal) :
  good ls = true -> good_list v = true -> good (Dict.set k v ls) = true.
Proof.
  unfold good. intros H Hv. induction ls as [|[k0 v0] ls IH]; cbn.
  - now rewrite Hv.
  - cbn in H. apply andb_true_iff in H as [H0 H].
    destruct (Str.eqb k0 k); cbn.
    + now rewrite Hv, H.
    + now rewrite H0, IH.
Qed.

Lemma good_del (ls : Dict.t PyVal) (k : pystr) :
  good ls = true -> good (Dict.del k ls) = true.
Proof.
  unfold good. intros H. induction ls as [|[k0 v0] ls IH]; cbn; [reflexivity|].
  cbn in H. apply andb_true_iff in H as [H0 H].
  destruct (Str.eqb k0 k); cbn; [exact H|]. now rewrite H0, IH.
Qed.

Lemma good_list_append (v v' : PyVal) (s : pystr) :
  good_list v = true -> good_item (VStr s) = true ->
  Py.append s v = inr v' -> good_list v' = true.
Proof.
  destruct v; try discriminate. cbn [Py.append good_list].
  intros Hl Hs [= <-]. cbn [good_list]. rewrite forallb_app, Hl. cbn [forallb].
  now rewrite Hs.
Qed.

Lemma remove_first_forallb (P : PyVal -> bool) (s : pystr) (l l' : list PyVal) :
  forallb P l = true -> Py.remove_first s l = Some l' -> forallb P l' = true.
Proof.
  revert l'. induction l as [|x l IH]; intros l'; cbn; [discriminate|].
  intros H. apply andb_true_iff in H as [Hx Hl].
  destruct (Py.is_str s x); [now intros [= <-]|].
  destruct (Py.remove_first s l) as [r|]; [|discriminate].
  intros [= <-]. cbn. now rewrite Hx, (IH r).
Qed.

Lemma good_list_remove (v v' : PyVal) (s : pystr) :
  good_list v = true -> Py.remove s v = inr v' -> good_list v' = true.
Proof.
  destruct v; try discriminate. cbn [Py.remove good_list].
  intros Hl. destruct (Py.remove_first s l) as [l'|] eqn:E; [|discriminate].
  intros [= <-]. cbn. eapply remove_first_forallb; eassumption.
Qed.

Lemma good_list_add_all (items : list pystr) :
  forall (v : PyVal) (t : Tally),
    good_list v = true -> good_list (fst (add_all cfg items v t)) = true.
Proof.
  induction items as [|item rest IH]; intros v t Hv; cbn [add_all]; [exact Hv|].
  destruct (_validate_item cfg item) as [e|[]] eqn:Hval; [now apply IH|].
  destruct (Py.contains item v) as [e|[]]; try (now apply IH).
  destruct (Py.append item v) as [e|v'] eqn:Ha; [now apply IH|].
  apply IH. eapply good_list_append; [exact Hv| |exact Ha].
  eapply good_item_valid; eassumption.
Qed.

(** Deleting a key keeps the other names distinct. *)
Lemma keys_del_nodup (f : pystr -> pystr) (ls : Dict.t PyVal) (k : pystr) :
  NoDup (map f (Dict.keys ls)) -> NoDup (map f (Dict.keys (Dict.del k ls))).
Proof.
  induction ls as [|[k0 v0] ls IH]; cbn; [auto|].
  intros H. inversion H as [|a l Hn Hd]; subst.
  destruct (Str.eqb k0 k); cbn; [exact Hd|].
  constructor; [|now apply IH].
  intros HIn. apply Hn. apply in_map_iff in HIn as (y & Hy & HIn).
  apply in_map_iff. exists y. split; [exact Hy|].
  unfold Dict.keys in *. apply in_map_iff in HIn as ([a b] & <- & HIn).
  apply in_map_iff. exists (a, b). split; [reflexivity|].
  eapply DictFacts.in_del; eassumption.
Qed.

Lemma keys_del_incl (ls : Dict.t PyVal) (k x : pystr) :
  In x (Dict.keys (Dict.del k ls)) -> In x (Dict.keys ls).
Proof.
  unfold Dict.keys. intros H. apply in_map_iff in H as ([a b] & <- & HIn).
  apply in_map_iff. exists (a, b). split; [reflexivity|].
  eapply DictFacts.in_del; eassumption.
Qed.

(** Every write keeps the invariant. *)
Lemma effect_invariant (c : Call) (ls ls' : Dict.t PyVal) :
  invariant rt ls -> effect rt cfg c ls = Some ls' -> invariant rt ls'.
Proof.
  intros (Hnd & Hne & Hgood). unfold invariant.
  destruct c; cbn [effect]; try discriminate.
  - (* create_list *)
    destruct (_validate_list_name cfg list_name) as [e|[]] eqn:Hv; [discriminate|].
    destruct (_check_list_limit cfg ls); [discriminate|].
    destruct (resolved _) eqn:Hr; [discriminate|]. intros [= <-].
    apply validate_list_name_ok in Hv as [Hs _].
    assert (Hfind : _find_list_name rt ls (Str.strip list_name) = None).
    { apply Resolve.resolved_none in Hr as [Hr|Hr]; [exact Hr|].
      apply Resolve.find_some in Hr as [HIn _].
      rewrite Forall_forall in Hne. now contradiction (Hne _ HIn). }
    assert (Hnew : forall k, In k (Dict.keys ls) ->
                             lower rt k <> lower rt (Str.strip list_name))
      by (apply Resolve.find_none; exact Hfind).
    assert (Habs : ~ In (Str.strip list_name) (Dict.keys ls)).
    { intros HIn. now apply (Hnew _ HIn). }
    rewrite (DictFacts.set_absent _ _ _ Habs).
    unfold Dict.keys, good. rewrite !map_app, forallb_app. cbn.
    repeat split.
    + apply NoDup_app; [exact Hnd|repeat constructor; intros []|].
      intros a Ha [<-|[]]. apply in_map_iff in Ha as (k & Hk & HIn).
      now apply (Hnew k HIn).
    + apply Forall_app. split; [exact Hne|now repeat constructor].
    + unfold good in Hgood. now rewrite Hgood.
  - (* add_item *)
    destruct (_validate_item cfg item) as [e|[]] eqn:Hv; [discriminate|].
    destruct (resolved _) as [k|] eqn:Hr; [|discriminate].
    destruct (Dict.get k ls) as [v|] eqn:Hg; [|discriminate].
    destruct (Py.len v); [discriminate|].
    destruct (Py.contains _ v) as [?|[]]; try discriminate.
    destruct (Py.append _ v) as [?|v'] eqn:Ha; [discriminate|].
    destruct (_ >=? _)%Z; [discriminate|]. intros [= <-].
    rewrite (DictFacts.keys_set_present k v' ls)
      by (eapply DictFacts.get_some_in; eassumption).
    repeat split; try assumption.
    apply good_set; [exact Hgood|].
    eapply good_list_append; [eapply good_get; eassumption| |exact Ha].
    eapply good_item_strip; eassumption.
  - (* add_multiple_items *)
    destruct (resolved _) as [k|] eqn:Hr; [|discriminate].
    destruct (split_items items_text) as [|i items]; [discriminate|].
    destruct (Dict.get k ls) as [v|] eqn:Hg; [|discriminate].
    destruct (Py.len v); [discriminate|].
    destruct (_ >? _)%Z; [discriminate|].
    pose proof (good_list_add_all (i :: items) v no_items
                  (good_get _ _ _ Hgood Hg)) as Hv'.
    destruct (add_all cfg (i :: items) v no_items) as [v' t]. cbn [fst] in Hv'.
    destruct (added_items t); [discriminate|]. intros [= <-].
    rewrite (DictFacts.keys_set_present k v' ls)
      by (eapply DictFacts.get_some_in; eassumption).
    repeat split; try assumption. now apply good_set.
  - (* remove_item *)
    destruct (resolved _) as [k|] eqn:Hr; [|discriminate].
    destruct (Dict.get k ls) as [v|] eqn:Hg; [|discriminate].
    destruct (Py.contains _ v) as [?|[]]; try discriminate.
    destruct (Py.remove _ v) as [?|v'] eqn:Ha; [discriminate|]. intros [= <-].
    rewrite (DictFacts.keys_set_present k v' ls)
      by (eapply DictFacts.get_some_in; eassumption).
    repeat split; try assumption.
    apply good_set; [exact Hgood|].
    eapply good_list_remove; [eapply good_get; eassumption|exact Ha].
  - (* delete_list *)
    destruct (resolved _) as [k|] eqn:Hr; [|discriminate].
    destruct (Dict.get k ls) as [v|] eqn:Hg; [|discriminate]. intros [= <-].
    repeat split.
    + now apply keys_del_nodup.
    + rewrite Forall_forall in *. intros x Hx. apply Hne.
      eapply keys_del_incl; eassumption.
    + now apply good_del.
Qed.

(** Every call keeps it. *)
Lemma call_invariant (c : Call) (st : State) :
  invariant rt (lists st) -> invariant rt (lists (snd (call rt cfg c st))).
Proof.
  intros Hinv. destruct (mutating c) eqn:Hm.
  - pose proof (Effect.call_effect rt cfg c st Hm) as H.
    destruct (effect rt cfg c (lists st)) as [ls'|] eqn:He.
    + destruct H as (-> & _). eapply effect_invariant; eassumption.
    + destruct H as (-> & _). exact Hinv.
  - destruct (Reads.read_only rt cfg c st Hm) as [-> _]. exact Hinv.
Qed.

Lemma step_invariant (ev : Event) (st : State) :
  invariant rt (lists st) -> invariant rt (lists (step rt cfg st ev)).
Proof.
  destruct ev as [c|env]; cbn [step]; [apply call_invariant|auto].
Qed.

(** It holds in every state reached from an empty collection. *)
Lemma run_invariant (evs : list Event) (st : State) :
  invariant rt (lists st) -> invariant rt (lists (run rt cfg evs st)).
Proof.
  unfold run. revert st. induction evs as [|ev evs IH]; intros st H; cbn; [exact H|].
  apply IH. now apply step_invariant.
Qed.

Lemma invariant_empty : invariant rt [].
Proof. repeat split; constructor. Qed.

Lemma reachable_invariant (evs : list Event) (st0 : State) :
  lists st0 = [] -> invariant rt (lists (run rt cfg evs st0)).
Proof.
  intros H. apply run_invariant. rewrite H. apply invariant_empty.
Qed.

End WithConfig.

End Invariant.


(** * What the writes leave alone, and what add_multiple_items adds *)

Module Writes.

#[local] Arguments Str.strip : simpl never.

Section WithConfig.
Variable rt : PyRuntime.
Variable cfg : BotConfig.

(** A write changes one key: the new name for [create_list], the resolved
    name for the others; all but [create_list] and [delete_list] keep the
    keys. *)
Lemma effect_frame (c : Call) (ls ls' : Dict.t PyVal) :
  effect rt cfg c ls = Some ls' ->
  match c with
  | CreateList n => forall k, k <> Str.strip n -> Dict.get k ls' = Dict.get k ls
  | AddItem n _ | RemoveItem n _ | AddMultipleItems n _ =>
      Dict.keys ls' = Dict.keys ls
      /\ forall k, resolved (_find_list_name rt ls n) <> Some k ->
                   Dict.get k ls' = Dict.get k ls
  | DeleteList n =>
      forall k, resolved (_find_list_name rt ls n) <> Some k ->
                Dict.get k ls' = Dict.get k ls
  | _ => True
  end.
Proof.
  destruct c; cbn [effect]; try (intros _; exact I).
  - destruct (_validate_list_name cfg list_name); [discriminate|].
    destruct (_check_list_limit cfg ls); [discriminate|].
    destruct (resolved _); [discriminate|]. intros [= <-] k Hk.
    now apply DictFacts.get_set_other.
  - destruct (_validate_item cfg item); [discriminate|].
    destruct (resolved _) as [k|]; [|discriminate].
    destruct (Dict.get k ls) as [v|] eqn:Hg; [|discriminate].
    destruct (Py.len v); [discriminate|].
    destruct (Py.contains _ v) as [?|[]]; try discriminate.
    destruct (Py.append _ v) as [?|v']; [discriminate|].
    destruct (_ >=? _)%Z; [discriminate|]. intros [= <-]. split.
    + apply DictFacts.keys_set_present. eapply DictFacts.get_some_in; eassumption.
    + intros k' Hk'. apply DictFacts.get_set_other. congruence.
  - destruct (resolved _) as [k|]; [|discriminate].
    destruct (split_items items_text) as [|i items]; [discriminate|].
    destruct (Dict.get k ls) as [v|] eqn:Hg; [|discriminate].
    destruct (Py.len v); [discriminate|].
    destruct (_ >? _)%Z; [discriminate|].
    destruct (add_all cfg (i :: items) v no_items) as [v' t].
    destruct (added_items t); [discriminate|]. intros [= <-]. split.
    + apply DictFacts.keys_set_present. eapply DictFacts.get_some_in; eassumption.
    + intros k' Hk'. apply DictFacts.get_set_other. congruence.
  - destruct (resolved _) as [k|]; [|discriminate].
    destruct (Dict.get k ls) as [v|] eqn:Hg; [|discriminate].
    destruct (Py.contains _ v) as [?|[]]; try discriminate.
    destruct (Py.remove _ v) as [?|v']; [discriminate|]. intros [= <-]. split.
    + apply DictFacts.keys_set_present. eapply DictFacts.get_some_in; eassumption.
    + intros k' Hk'. apply DictFacts.get_set_other. congruence.
  - destruct (resolved _) as [k|]; [|discriminate].
    destruct (Dict.get k ls) as [v|] eqn:Hg; [|discriminate]. intros [= <-] k' Hk'.
    apply DictFacts.get_del_other. congruence.
Qed.

(** The code's validation of a candidate is the specification's. *)
Lemma validate_item_spec (c : pystr) :
  if spec_valid cfg c then _validate_item cfg c = inr tt
  else exists e, _validate_item cfg c = inl e.
Proof.
  unfold spec_valid, _validate_item.
  destruct (Str.truthy (Str.strip c)) eqn:E; cbn.
  - assert (Hc : Str.truthy c = true).
    { destruct c; [discriminate E|reflexivity]. }
    rewrite Hc. cbn.
    destruct (Z.leb_spec (Str.len (Str.strip c)) (max_item_length cfg));
      destruct (Z.gtb_spec (Str.len (Str.strip c)) (max_item_length cfg));
      try lia; eauto.
  - rewrite orb_true_r. eauto.
Qed.

Lemma contains_typed (c : pystr) (content : list pystr) :
  Py.contains c (VList (map VStr content)) = inr (existsb (Str.eqb c) content).
Proof.
  cbn. f_equal. induction content as [|s content IH]; cbn; [reflexivity|].
  now rewrite IH, StrFacts.eqb_sym.
Qed.

(** On a list of strings, the loop of the method does what the
    specification says of add_many. *)
Lemma add_all_typed (items : list pystr) :
  forall (content : list pystr) (t : Tally),
    add_all cfg items (VList (map VStr content)) t =
    (VList (map VStr (fst (spec_add_many cfg content items t))),
     snd (spec_add_many cfg content items t)).
Proof.
  induction items as [|c rest IH]; intros content t; cbn [add_all spec_add_many];
    [reflexivity|].
  pose proof (validate_item_spec c) as Hv.
  destruct (spec_valid cfg c); cbn [negb].
  - rewrite Hv, contains_typed.
    destruct (existsb (Str.eqb c) content); [apply IH|].
    cbn [Py.append].
    replace (map VStr content ++ [VStr c]) with (map VStr (content ++ [c]))
      by now rewrite map_app.
    apply IH.
  - destruct Hv as [e ->]. apply IH.
Qed.

(** The code's candidates are the specification's. *)
Lemma split_items_spec (text : pystr) : split_items text = spec_candidates text.
Proof.
  unfold split_items, spec_candidates.
  induction (Str.split_comma text) as [|p ps IH]; cbn; [reflexivity|].
  destruct (Str.truthy (Str.strip p)); cbn; now rewrite IH.
Qed.

(** A string of spaces trims to nothing. *)
Lemma strip_spaces (s : pystr) : forallb Str.isspace s = true -> Str.strip s = [].
Proof.
  intros H. unfold Str.strip.
  assert (L : Str.lstrip s = []).
  { induction s as [|c s IH]; [reflexivity|]. cbn in *.
    apply andb_true_iff in H as [Hc Hs]. rewrite Hc. now apply IH. }
  now rewrite L.
Qed.

(** The empty string is in no list of good items. *)
Lemma contains_empty_good (v : PyVal) :
  good_list v = true -> Py.contains [] v = inr false.
Proof.
  destruct v; try discriminate. cbn. intros H. f_equal.
  induction l as [|x l IH]; [reflexivity|]. cbn in *.
  apply andb_true_iff in H as [Hx Hl]. rewrite (IH Hl).
  destruct x; try discriminate. cbn in *. now destruct s.
Qed.

(** With names that differ when lowercased, no name has two matches. *)
Lemma case_matches_le_1 (ls : Dict.t PyVal) (name : pystr) :
  NoDup (map (lower rt) (Dict.keys ls)) -> (case_matches rt ls name <= 1)%nat.
Proof.
  unfold case_matches. induction (Dict.keys ls) as [|k ks IH]; cbn; [lia|].
  intros H. inversion H as [|a l Hn Hd]; subst. specialize (IH Hd).
  destruct (StrFacts.eqb_spec (lower rt k) (lower rt name)) as [E|E]; [|lia].
  cbn. assert (Z0 : filter (fun k0 => Str.eqb (lower rt k0) (lower rt name)) ks = []).
  { destruct (filter _ ks) as [|y ys] eqn:F; [reflexivity|].
    exfalso. assert (HIn : In y (filter (fun k0 => Str.eqb (lower rt k0) (lower rt name)) ks))
      by (rewrite F; now left).
    apply filter_In in HIn as [HIn Hy]. apply StrFacts.eqb_eq in Hy.
    apply Hn. rewrite E, <- Hy. now apply in_map. }
  rewrite Z0. cbn. lia.
Qed.

End WithConfig.

End Writes.


(** * The clauses [except] of each method, against the boundary of the
      specification *)

Module Boundary.

#[local] Arguments Json.dumps : simpl never.
#[local] Arguments u : simpl never.
#[local] Arguments app : simpl never.
#[local] Arguments Str.strip : simpl never.
#[local] Arguments Str.of_Z : simpl never.
#[local] Arguments exn_str : simpl never.
#[local] Arguments generic_error : simpl never.

Section WithConfig.
Variable rt : PyRuntime.
Variable cfg : BotConfig.

(** A handler that logs and answers as the boundary does, on [e]. *)
Lemma caught (c : Call) (h : Exn -> M pystr) (e : Exn) (st : State) :
  quiet h ->
  fst (h e st) = Ret (if spec_expected e then exn_str e else generic_error c) ->
  at_boundary c (h e st) (raise e st).
Proof.
  intros Hq He. destruct (Effect.quiet_unchanged h e st Hq) as (H1 & H2 & _).
  split; [exact He|]. now split.
Qed.

(** The errors the handlers do not name are not expected ones. *)
Lemma caught_unexpected (c : Call) (h : Exn -> M pystr) (e : Exn) (st : State) :
  quiet h ->
  category e = Some StorageFailure \/ category e = None ->
  fst (h e st) = Ret (generic_error c) ->
  at_boundary c (h e st) (raise e st).
Proof.
  intros Hq Hc He. apply caught; [exact Hq|].
  unfold spec_expected. now destruct Hc as [-> | ->].
Qed.

(** The tail of a writing method. *)
Lemma then_save_boundary (c : Call) (done ok : pystr) (h : Exn -> M pystr) (st : State) :
  quiet h ->
  (forall e st', category e = Some StorageFailure \/ category e = None ->
                 fst (h e st') = Ret (generic_error c)) ->
  at_boundary c (then_save cfg done ok h st) (then_save cfg done ok raise st).
Proof.
  intros Hq Hg. rewrite !Cases.then_save_cases.
  pose proof (Effect.save_error cfg st) as He.
  destruct (_save_data cfg st) as [[[]|e] st1]; cbn [fst snd] in *.
  - now repeat split.
  - apply caught_unexpected; auto.
Qed.

Lemma validate_list_name_exn (n : pystr) (e : Exn) :
  _validate_list_name cfg n = inl e -> exists m, e = ValidationError m.
Proof.
  unfold _validate_list_name.
  destruct (_ || _); [intros [= <-]; eauto|].
  destruct (_ >? _)%Z; [intros [= <-]; eauto|discriminate].
Qed.

Lemma check_list_limit_exn (ls : Dict.t PyVal) (e : Exn) :
  _check_list_limit cfg ls = inl e -> exists m, e = LimitExceededError m.
Proof.
  unfold _check_list_limit. destruct (_ >=? _)%Z; [intros [= <-]; eauto|discriminate].
Qed.

(** What the operations on a value raise is outside the taxonomy. *)
Lemma len_exn (v : PyVal) (e : Exn) : Py.len v = inl e -> category e = None.
Proof. destruct v; cbn; intros [= <-]; reflexivity. Qed.

Lemma contains_exn (x : pystr) (v : PyVal) (e : Exn) :
  Py.contains x v = inl e -> category e = None.
Proof. destruct v; cbn; intros [= <-]; reflexivity. Qed.

Lemma append_exn (x : pystr) (v : PyVal) (e : Exn) :
  Py.append x v = inl e -> category e = None.
Proof. destruct v; cbn; intros [= <-]; reflexivity. Qed.

Lemma remove_exn (x : pystr) (v : PyVal) (e : Exn) :
  Py.remove x v = inl e -> category e = None.
Proof.
  destruct v; cbn; try (intros [= <-]; reflexivity).
  destruct (Py.remove_first x l); intros [= <-]; reflexivity.
Qed.

Lemma iter_exn (v : PyVal) (e : Exn) : Py.iter v = inl e -> category e = None.
Proof. destruct v; cbn; intros [= <-]; reflexivity. Qed.

Lemma check_item_limit_exn (k : pystr) (st : State) (e : Exn) :
  fst (_check_item_limit cfg k st) = Raise e ->
  (exists m, e = LimitExceededError m) \/ category e = None.
Proof.
  unfold _check_item_limit. munfold.
  destruct (Dict.get k (lists st)) as [v|]; cbn; [|intros [= <-]; now right].
  destruct (Py.len v) as [e'|len] eqn:E; cbn.
  - intros [= <-]. right. exact (len_exn _ _ E).
  - destruct (_ >=? _)%Z; cbn; [intros [= <-]; eauto|discriminate].
Qed.

Lemma search_in_exn (t n : pystr) (items : list PyVal) (e : Exn) :
  search_in rt t n items = inl e -> category e = None.
Proof.
  induction items as [|x r IH]; cbn; [discriminate|].
  destruct (py_lower rt x) as [e'|lo] eqn:E.
  - intros [= <-]. destruct x; cbn in E; try discriminate; injection E as <-; reflexivity.
  - destruct (search_in rt t n r); [intros [= <-]; now apply IH|discriminate].
Qed.

Lemma search_all_exn (t : pystr) (ls : list (pystr * PyVal)) (e : Exn) :
  search_all rt t ls = inl e -> category e = None.
Proof.
  induction ls as [|[n v] r IH]; cbn; [discriminate|].
  destruct (Py.iter v) as [e'|elems] eqn:E; [intros [= <-]; exact (iter_exn _ _ E)|].
  destruct (search_in rt t n elems) as [e'|here] eqn:E2;
    [intros [= <-]; exact (search_in_exn _ _ _ _ E2)|].
  destruct (search_all rt t r); [intros [= <-]; now apply IH|discriminate].
Qed.

(** *** The methods, one by one *)

Lemma create_list_boundary (n : pystr) (st : State) :
  at_boundary (CreateList n) (create_list rt cfg n st)
    (create_list_under rt cfg (fun _ => raise) n st).
Proof.
  unfold create_list. rewrite !Cases.create_list_under_cases.
  destruct (_validate_list_name cfg n) as [e|] eqn:Hv.
  { destruct (validate_list_name_exn _ _ Hv) as [m ->].
    apply caught; [apply Effect.create_list_except_quiet|reflexivity]. }
  destruct (_check_list_limit cfg (lists st)) as [e|] eqn:Hl.
  { destruct (check_list_limit_exn _ _ Hl) as [m ->].
    apply caught; [apply Effect.create_list_except_quiet|reflexivity]. }
  destruct (resolved _).
  { apply caught; [apply Effect.create_list_except_quiet|reflexivity]. }
  apply then_save_boundary;
    [apply Effect.create_list_except_quiet|apply Effect.create_list_except_generic].
Qed.

Lemma add_item_boundary (n x : pystr) (st : State) :
  at_boundary (AddItem n x) (add_item rt cfg n x st)
    (add_item_under rt cfg (fun _ _ => raise) n x st).
Proof.
  unfold add_item. rewrite !Cases.add_item_under_cases.
  pose proof (Effect.add_item_except_quiet) as Q.
  pose proof (fun n0 x0 => Effect.add_item_except_generic n0 x0 n x) as G.
  destruct (_validate_item cfg x) as [e|] eqn:Hv.
  { destruct (Cases.validate_item_exn _ _ _ Hv) as [m ->].
    apply caught; [apply Q|reflexivity]. }
  destruct (resolved _) as [k|]; [|apply caught; [apply Q|reflexivity]].
  destruct (fst (_check_item_limit cfg k st)) as [[]|e] eqn:Hc.
  2:{ destruct (check_item_limit_exn _ _ _ Hc) as [[m ->]|He].
      - apply caught; [apply Q|reflexivity].
      - apply caught_unexpected; [apply Q|auto|apply G; auto]. }
  destruct (Dict.get k (lists st)) as [v|];
    [|apply caught_unexpected; [apply Q|auto|apply G; auto]].
  destruct (Py.contains (strip x) v) as [e|[|]] eqn:Hd.
  - apply caught_unexpected; [apply Q|right; exact (contains_exn _ _ _ Hd)|].
    apply G. right. exact (contains_exn _ _ _ Hd).
  - apply caught; [apply Q|reflexivity].
  - destruct (Py.append (strip x) v) as [e|v'] eqn:Ha.
    + apply caught_unexpected; [apply Q|right; exact (append_exn _ _ _ Ha)|].
      apply G. right. exact (append_exn _ _ _ Ha).
    + apply then_save_boundary; [apply Q|apply G].
Qed.

Lemma remove_item_boundary (n x : pystr) (st : State) :
  at_boundary (RemoveItem n x) (remove_item rt cfg n x st)
    (remove_item_under rt cfg (fun _ _ => raise) n x st).
Proof.
  unfold remove_item. rewrite !Cases.remove_item_under_cases.
  pose proof (Effect.remove_item_except_quiet) as Q.
  pose proof (fun n0 x0 => Effect.remove_item_except_generic n0 x0 n x) as G.
  destruct (resolved _) as [k|]; [|apply caught; [apply Q|reflexivity]].
  destruct (Dict.get k (lists st)) as [v|];
    [|apply caught_unexpected; [apply Q|auto|apply G; auto]].
  destruct (Py.contains (strip x) v) as [e|[|]] eqn:Hd.
  - apply caught_unexpected; [apply Q|right; exact (contains_exn _ _ _ Hd)|].
    apply G. right. exact (contains_exn _ _ _ Hd).
  - destruct (Py.remove (strip x) v) as [e|v'] eqn:Ha.
    + apply caught_unexpected; [apply Q|right; exact (remove_exn _ _ _ Ha)|].
      apply G. right. exact (remove_exn _ _ _ Ha).
    + apply then_save_boundary; [apply Q|apply G].
  - apply caught; [apply Q|reflexivity].
Qed.

Lemma delete_list_boundary (n : pystr) (st : State) :
  at_boundary (DeleteList n) (delete_list rt cfg n st)
    (delete_list_under rt cfg (fun _ => raise) n st).
Proof.
  unfold delete_list. rewrite !Cases.delete_list_under_cases.
  pose proof (Effect.delete_list_except_quiet) as Q.
  pose proof (fun n0 => Effect.delete_list_except_generic n0 n) as G.
  destruct (resolved _) as [k|]; [|apply caught; [apply Q|reflexivity]].
  destruct (Dict.get k (lists st)) as [v|];
    [|apply caught_unexpected; [apply Q|auto|apply G; auto]].
  apply then_save_boundary; [apply Q|apply G].
Qed.

Lemma add_multiple_items_boundary (n t : pystr) (st : State) :
  at_boundary (AddMultipleItems n t) (add_multiple_items rt cfg n t st)
    (add_multiple_items_under rt cfg (fun _ => raise) n t st).
Proof.
  unfold add_multiple_items. rewrite !Cases.add_multiple_items_under_cases.
  pose proof (Effect.add_multiple_items_except_quiet) as Q.
  pose proof (fun n0 => Effect.add_multiple_items_except_generic n0 t) as G.
  destruct (resolved _) as [k|]; [|apply caught; [apply Q|reflexivity]].
  destruct (split_items t) as [|i items]; [apply caught; [apply Q|reflexivity]|].
  destruct (Dict.get k (lists st)) as [v|];
    [|apply caught_unexpected; [apply Q|auto|apply G; auto]].
  destruct (Py.len v) as [e|len] eqn:Hl.
  { apply caught_unexpected; [apply Q|right; exact (len_exn _ _ Hl)|].
    apply G. right. exact (len_exn _ _ Hl). }
  cbv zeta.
  destruct (_ >? _)%Z; [apply caught; [apply Q|reflexivity]|].
  destruct (add_candidates cfg k (i :: items) no_items st) as [[tl|e] st1] eqn:Ha.
  2:{ exfalso. revert Ha. generalize no_items. generalize st.
      induction (i :: items) as [|c r IH]; intros st0 t0; cbn [add_candidates];
        [discriminate|].
      unfold bind at 1. rewrite Cases.add_candidate_cases.
      destruct (_validate_item cfg c); [apply IH|].
      destruct (Dict.get k (lists st0)); [|apply IH].
      destruct (Py.contains c p) as [|[|]]; try apply IH.
      destruct (Py.append c p); apply IH. }
  destruct (added_items tl); [now repeat split|].
  apply then_save_boundary; [apply Q|apply G].
Qed.

Lemma show_list_under_cases (ex : pystr -> Exn -> M pystr) (n : pystr) (st : State) :
  show_list_under rt ex n st =
  match resolved (_find_list_name rt (lists st) n) with
  | None => ex n (ListNotFoundError (Messages.LIST_NOT_FOUND n)) st
  | Some k =>
      match Dict.get k (lists st) with
      | None => ex n (KeyError k) st
      | Some v =>
          if negb (Py.truth v) then (Ret (Messages.EMPTY_LIST k), st)
          else
            match Py.len v with
            | inl e => ex n e st
            | inr len =>
                match Py.iter v with
                | inl e => ex n e st
                | inr elems =>
                    (Ret (Str.strip
                            ([128203%N; 32%N] ++ u "**" ++ k ++ u "** ("
                             ++ Str.of_Z len ++ u " items):" ++ [10%N]
                             ++ numbered rt 1 elems)), st)
                end
            end
      end
  end.
Proof.
  unfold show_list_under. munfold.
  destruct (resolved _) as [k|]; cbn; [|reflexivity].
  destruct (Dict.get k (lists st)) as [v|]; cbn; [|reflexivity].
  destruct (Py.truth v); cbn; [|reflexivity].
  destruct (Py.len v); cbn; [reflexivity|].
  destruct (Py.iter v); reflexivity.
Qed.

Lemma show_list_boundary (n : pystr) (st : State) :
  at_boundary (ShowList n) (show_list rt n st) (show_list_under rt (fun _ => raise) n st).
Proof.
  pose proof (Effect.show_list_except_quiet) as Q.
  unfold show_list. rewrite !show_list_under_cases.
  destruct (resolved _) as [k|]; [|apply caught; [apply Q|reflexivity]].
  destruct (Dict.get k (lists st)) as [v|];
    [|apply caught_unexpected; [apply Q|auto|reflexivity]].
  destruct (negb (Py.truth v)); [now repeat split|].
  destruct (Py.len v) as [e|len] eqn:Hl.
  { pose proof (len_exn _ _ Hl) as He.
    apply caught_unexpected; [apply Q|auto|].
    destruct e; try discriminate He; reflexivity. }
  destruct (Py.iter v) as [e|elems] eqn:Hi; [|now repeat split].
  pose proof (iter_exn _ _ Hi) as He.
  apply caught_unexpected; [apply Q|auto|].
  destruct e; try discriminate He; reflexivity.
Qed.

Lemma search_item_under_cases (ex : pystr -> Exn -> M pystr) (t : pystr) (st : State) :
  search_item_under rt ex t st =
  if negb (Str.truthy t) || negb (Str.truthy (Str.strip t))
  then ex t (ValidationError (u "Search term cannot be empty")) st
  else
    match search_all rt (lower rt (Str.strip t)) (lists st) with
    | inl e => ex (Str.strip t) e st
    | inr [] => (Ret (Messages.NO_SEARCH_RESULTS (Str.strip t)), st)
    | inr (r :: rs) =>
        (Ret ([128269%N; 32%N] ++ u "**Search results for '" ++ Str.strip t ++ u "':**"
              ++ [10%N] ++ Str.join [10%N] (r :: rs)), st)
    end.
Proof.
  unfold search_item_under.
  destruct (_ || _); [reflexivity|]. munfold.
  destruct (search_all rt _ (lists st)) as [e|[|r rs]]; reflexivity.
Qed.

Lemma search_item_boundary (t : pystr) (st : State) :
  at_boundary (SearchItem t) (search_item rt t st)
    (search_item_under rt (fun _ => raise) t st).
Proof.
  pose proof (Effect.search_item_except_quiet) as Q.
  unfold search_item. rewrite !search_item_under_cases.
  destruct (_ || _); [apply caught; [apply Q|reflexivity]|].
  destruct (search_all rt _ (lists st)) as [e|[|r rs]] eqn:Hs;
    [|now repeat split|now repeat split].
  pose proof (search_all_exn _ _ _ Hs) as He.
  apply caught_unexpected; [apply Q|auto|].
  destruct e; try discriminate He; reflexivity.
Qed.

End WithConfig.

End Boundary.


(** * The properties of the list store *)

(** ** Writes and storage *)

(** C1, on a disk that cannot be written: [create_list("a")] answers with
    its generic error string, the new list stays in [self.lists], and no
    file holds it.  The call is neither flushed nor without effect in
    memory. *)
Lemma create_list_on_full_disk :
  fst (call ascii_runtime default_config (CreateList (u "a")) disk_full)
  = Ret (RStr (generic_error (CreateList (u "a"))))
  /\ lists (snd (call ascii_runtime default_config (CreateList (u "a")) disk_full))
     = [(u "a", VList [])]
  /\ lists (snd (call ascii_runtime default_config (CreateList (u "a")) disk_full))
     <> lists disk_full
  /\ files (snd (call ascii_runtime default_config (CreateList (u "a")) disk_full)) = [].
Proof. vm_compute. repeat split; discriminate. Qed.

(** C1, as amended.  A writing call (create_list, add_item,
    add_multiple_items, remove_item, delete_list) either is rejected, and
    then neither the collection in memory nor any file changes; or it
    writes its change to the collection in memory and then runs the save.
    When the save returns, the data file holds the new collection.  When
    the save fails, the call answers with its generic error string and the
    collection in memory keeps the change. *)
Theorem write_then_save (rt : PyRuntime) (cfg : BotConfig) (c : Call) (st : State) :
  mutating c = true ->
  match effect rt cfg c (lists st) with
  | None =>
      lists (snd (call rt cfg c st)) = lists st
      /\ files (snd (call rt cfg c st)) = files st
  | Some ls' =>
      lists (snd (call rt cfg c st)) = ls'
      /\ (fst (_save_data cfg (with_lists ls' st)) = Ret tt ->
          Dict.get (data_file cfg) (files (snd (call rt cfg c st)))
          = Some (Json.dumps (VDict ls')))
      /\ (fst (_save_data cfg (with_lists ls' st)) <> Ret tt ->
          fst (call rt cfg c st) = Ret (RStr (generic_error c)))
  end.
Proof.
  intros Hm. pose proof (Effect.call_effect rt cfg c st Hm) as H.
  destruct (effect rt cfg c (lists st)) as [ls'|]; [|exact H].
  destruct H as (Hl & Hf & Hg). split; [exact Hl|]. split; [|exact Hg].
  intros Hs. rewrite Hf. now rewrite (PersistFacts.save_ok_file cfg _ Hs).
Qed.

Lemma write_then_save_witness :
  mutating (CreateList (u "a")) = true
  /\ lists (snd (call ascii_runtime default_config (CreateList (u "a")) fresh))
     = [(u "a", VList [])]
  /\ (fst (_save_data default_config (with_lists [(u "a", VList [])] fresh)) = Ret tt ->
      Dict.get (data_file default_config)
        (files (snd (call ascii_runtime default_config (CreateList (u "a")) fresh)))
      = Some (Json.dumps (VDict [(u "a", VList [])])))
  /\ (fst (_save_data default_config (with_lists [(u "a", VList [])] fresh)) <> Ret tt ->
      fst (call ascii_runtime default_config (CreateList (u "a")) fresh)
      = Ret (RStr (generic_error (CreateList (u "a"))))).
Proof.
  split; [reflexivity|].
  exact (write_then_save ascii_runtime default_config (CreateList (u "a")) fresh eq_refl).
Defined.

(** ** Name resolution *)

(** C2, on the collection with the one list "groceries": the name
    " groceries " trims and lowers to the key, yet [_find_list_name] does
    not find it, and [add_item] answers that the list is not found. *)
Lemma padded_name_is_not_found :
  Dict.keys (lists groceries_only) = [u "groceries"]
  /\ lower ascii_runtime (u "groceries") = lower ascii_runtime (Str.strip (u " groceries "))
  /\ _find_list_name ascii_runtime (lists groceries_only) (u " groceries ") = None
  /\ fst (add_item ascii_runtime default_config (u " groceries ") (u "milk") groceries_only)
     = Ret (Messages.LIST_NOT_FOUND (u " groceries "))
  /\ lists (snd (add_item ascii_runtime default_config (u " groceries ") (u "milk")
                   groceries_only))
     = lists groceries_only.
Proof. vm_compute. repeat split. Qed.

(** C2, as amended.  [_find_list_name] returns the first stored key, in
    insertion order, whose lowercase form equals the lowercase form of the
    argument as it is given, without trimming it, and nothing when no key
    has that lowercase form.  add_item (with a valid item),
    add_multiple_items, remove_item, show_list and delete_list answer "not
    found" with the name as given when it returns nothing. *)
Theorem find_list_name_first_match (rt : PyRuntime) (cfg : BotConfig)
    (st : State) (n x : pystr) :
  match _find_list_name rt (lists st) n with
  | Some k =>
      exists before after,
        Dict.keys (lists st) = before ++ k :: after
        /\ lower rt k = lower rt n
        /\ Forall (fun k' => lower rt k' <> lower rt n) before
  | None =>
      Forall (fun k' => lower rt k' <> lower rt n) (Dict.keys (lists st))
      /\ let not_found := Ret (Messages.LIST_NOT_FOUND n) in
         fst (add_multiple_items rt cfg n x st) = not_found
         /\ fst (remove_item rt cfg n x st) = not_found
         /\ fst (show_list rt n st) = not_found
         /\ fst (delete_list rt cfg n st) = not_found
         /\ (_validate_item cfg x = inr tt -> fst (add_item rt cfg n x st) = not_found)
  end.
Proof.
  pose proof (Resolve.find_first_lower_spec rt (lower rt n) (Dict.keys (lists st))) as S.
  unfold _find_list_name in *.
  destruct (find_first_lower rt (lower rt n) (Dict.keys (lists st))) as [k|] eqn:E;
    [exact S|].
  split; [exact S|]. cbn zeta.
  assert (R : resolved (_find_list_name rt (lists st) n) = None)
    by (unfold _find_list_name; now rewrite E).
  repeat split.
  - rewrite Cases.add_multiple_items_cases, R. reflexivity.
  - rewrite Cases.remove_item_cases, R. reflexivity.
  - unfold show_list, show_list_under, catch, bind, get_lists. rewrite R. reflexivity.
  - rewrite Cases.delete_list_cases, R. reflexivity.
  - intros Hv. rewrite Cases.add_item_cases, Hv, R. reflexivity.
Qed.

Lemma find_list_name_first_match_witness :
  _validate_item default_config (u "milk") = inr tt
  /\ fst (add_item ascii_runtime default_config (u "chores") (u "milk") groceries_only)
     = Ret (Messages.LIST_NOT_FOUND (u "chores")).
Proof.
  split; [reflexivity|].
  exact (proj2 (proj2 (proj2 (proj2 (proj2
    (find_list_name_first_match ascii_runtime default_config
       groceries_only (u "chores") (u "milk"))))))
    eq_refl).
Defined.

(** ** Loading *)

(** C3, on the data file that holds a one-entry object from "a" to the
    number 1 (the eight characters brace, quote, a, quote, colon, space, 1,
    brace): the constructor adopts the mapping with its number, and logs no
    warning. *)
Lemma number_valued_mapping_is_adopted :
  Json.loads (int_max_str_digits ascii_runtime) (2 + nesting_room ascii_runtime) number_text
  = Json.Found (VDict [(u "a", VInt 1)])
  /\ fst (__init__ ascii_runtime default_config (world_with default_config number_text)) = Ret tt
  /\ lists adopted_number = [(u "a", VInt 1)]
  /\ lists adopted_number <> []
  /\ log adopted_number = [].
Proof. vm_compute. repeat split; discriminate. Qed.

(** What [json.load] does not return on, at two documents that are well
    formed as far as they go: an integer of 4301 digits, and 103 opening
    brackets.  The constructor raises [ValueError] on the first and
    [RecursionError] on the second, and makes no copy of the file. *)
Lemma limits_stop_the_constructor :
  (exists m,
     __init__ ascii_runtime default_config (world_with default_config long_integer)
     = (Raise (ValueError m), world_with default_config long_integer))
  /\ (exists m,
        __init__ ascii_runtime default_config (world_with default_config deep_array)
        = (Raise (RecursionError m), world_with default_config deep_array)).
Proof. split; eexists; vm_compute; reflexivity. Qed.

(** C3, as amended.  When the data file is present, can be opened and is
    UTF-8.  If [json.load] returns a value: a mapping is adopted as the
    collection as it is, whatever its values, without a warning; anything
    else (a list, a string, a number, true, false, null) makes the
    constructor log the warning and start from the empty collection; in
    both cases the constructor returns and no file changes.  If [json.load]
    stops at a limit of the interpreter (the digits of an integer, the depth
    of nesting), its [ValueError] or [RecursionError] leaves the
    constructor, and nothing is logged or copied. *)
Theorem load_parsed_document (rt : PyRuntime) (cfg : BotConfig) (env : State)
    (text : pystr) :
  read_fault env = None ->
  Dict.get (data_file cfg) (files env) = Some text ->
  Str.utf8 text = true ->
  match Json.loads (int_max_str_digits rt) (2 + nesting_room rt) text with
  | Json.Found v =>
      fst (__init__ rt cfg env) = Ret tt
      /\ files (snd (__init__ rt cfg env)) = files env
      /\ match v with
         | VDict d =>
             lists (snd (__init__ rt cfg env)) = d
             /\ log (snd (__init__ rt cfg env)) = log env
         | _ =>
             lists (snd (__init__ rt cfg env)) = []
             /\ log (snd (__init__ rt cfg env))
                = log env ++ [(WARNING, u "Invalid data format in " ++ data_file cfg)]
         end
  | Json.Over l =>
      fst (__init__ rt cfg env) = Raise (limit_error rt l)
      /\ (exists m, limit_error rt l = ValueError m \/ limit_error rt l = RecursionError m)
      /\ files (snd (__init__ rt cfg env)) = files env
      /\ log (snd (__init__ rt cfg env)) = log env
  | Json.Malformed => lists (snd (__init__ rt cfg env)) = []
  end.
Proof.
  intros Hr Hg Hu.
  destruct (Json.loads _ _ text) as [v| |l] eqn:Hl.
  - assert (N : (forall d, v <> VDict d) ->
                fst (__init__ rt cfg env) = Ret tt
                /\ files (snd (__init__ rt cfg env)) = files env
                /\ lists (snd (__init__ rt cfg env)) = []
                /\ log (snd (__init__ rt cfg env))
                   = log env ++ [(WARNING, u "Invalid data format in " ++ data_file cfg)]).
    { intros Hv.
      destruct (PersistFacts.init_not_dict rt cfg env text v Hr Hg Hu Hl Hv)
        as (H0 & H1 & H2 & H3). auto. }
    destruct v; try (destruct N as (H0 & H1 & H2 & H3); [discriminate|auto]).
    destruct (PersistFacts.init_dict rt cfg env text d Hr Hg Hu Hl) as (H0 & H1 & H2 & H3).
    auto.
  - apply (PersistFacts.init_malformed rt cfg env text Hr Hg Hu Hl).
  - rewrite (PersistFacts.init_limit rt cfg env text l Hr Hg Hu Hl). cbn [fst snd].
    split; [reflexivity|]. split; [|split; reflexivity].
    destruct l as [n|b]; cbn [limit_error]; eauto.
Qed.

Lemma load_parsed_document_witness :
  read_fault (world_with default_config (u "[1, 2]")) = None
  /\ Dict.get (data_file default_config) (files (world_with default_config (u "[1, 2]")))
     = Some (u "[1, 2]")
  /\ Str.utf8 (u "[1, 2]") = true
  /\ Json.loads (int_max_str_digits ascii_runtime) (2 + nesting_room ascii_runtime)
       (u "[1, 2]")
     = Json.Found (VList [VInt 1; VInt 2])
  /\ fst (__init__ ascii_runtime default_config (world_with default_config (u "[1, 2]")))
     = Ret tt
  /\ lists (snd (__init__ ascii_runtime default_config (world_with default_config (u "[1, 2]"))))
     = []
  /\ log (snd (__init__ ascii_runtime default_config (world_with default_config (u "[1, 2]"))))
     = log (world_with default_config (u "[1, 2]"))
       ++ [(WARNING, u "Invalid data format in " ++ data_file default_config)].
Proof.
  split; [reflexivity|]. split; [reflexivity|]. split; [reflexivity|].
  split; [reflexivity|].
  pose proof (load_parsed_document ascii_runtime default_config
                (world_with default_config (u "[1, 2]")) (u "[1, 2]")
                eq_refl eq_refl eq_refl) as H.
  change (Json.loads (int_max_str_digits ascii_runtime) (2 + nesting_room ascii_runtime)
            (u "[1, 2]"))
    with (Json.Found (VList [VInt 1; VInt 2])) in H.
  destruct H as (H0 & _ & H2 & H3). split; [exact H0|]. split; [exact H2|exact H3].
Defined.

(** The name of the timestamped copy is not the name of the data file. *)
Lemma backup_name_differs (path stamp : pystr) : path ++ u ".backup_" ++ stamp <> path.
Proof.
  intros H. apply (f_equal (@List.length N)) in H.
  rewrite !length_app in H. cbn in H. lia.
Qed.

(** C5.  On a data file that is present and can be opened, the constructor
    does what the claim says when the content is UTF-8 text that is not
    JSON: it returns, the collection is empty, the error is logged, the data
    file stays, and the file named data_file + ".backup_" + timestamp holds
    the text; when the copy fails that is logged, and the copy is missing
    or cut short.  On a content that is not UTF-8 it does not:
    [UnicodeDecodeError] leaves the constructor, no object is built, no
    copy is made and nothing is logged. *)
Theorem load_malformed_document (rt : PyRuntime) (cfg : BotConfig) (env : State)
    (content : pystr) :
  read_fault env = None ->
  Dict.get (data_file cfg) (files env) = Some content ->
  let st := snd (__init__ rt cfg env) in
  let backup_name := data_file cfg ++ u ".backup_" ++ clock env in
  if Str.utf8 content
  then
    Json.loads (int_max_str_digits rt) (2 + nesting_room rt) content = Json.Malformed ->
    fst (__init__ rt cfg env) = Ret tt
    /\ lists st = []
    /\ Dict.get (data_file cfg) (files st) = Some content
    /\ In (ERROR, u "Error loading data: " ++ decode_error rt content) (log st)
    /\ match copy_fault env with
       | None =>
           files st = Dict.set backup_name content (files env)
           /\ Dict.get backup_name (files st) = Some content
       | Some msg =>
           In (ERROR, u "Failed to backup corrupted file: " ++ msg) (log st)
           /\ files st = match copy_partial env with
                         | Some n => Dict.set backup_name (firstn n content) (files env)
                         | None => files env
                         end
       end
  else
    fst (__init__ rt cfg env) = Raise (UnicodeDecodeError (utf8_error rt content))
    /\ files st = files env
    /\ log st = log env.
Proof.
  intros Hr Hg st backup_name.
  destruct (Str.utf8 content) eqn:Hu.
  - intros Hl.
    destruct (PersistFacts.init_malformed rt cfg env content Hr Hg Hu Hl) as (H0 & H1 & H2).
    fold st in H1, H2. fold backup_name in H2.
    split; [exact H0|]. split; [exact H1|].
    assert (Hd : Dict.get (data_file cfg) (Dict.set backup_name content (files env))
                 = Some content).
    { rewrite DictFacts.get_set_other; [exact Hg|]. subst backup_name.
      intros E. symmetry in E. revert E. apply backup_name_differs. }
    destruct (copy_fault env) as [msg|]; destruct H2 as (Hf & Hlog); rewrite Hf, Hlog.
    + split.
      { destruct (copy_partial env); [|exact Hg].
        rewrite DictFacts.get_set_other; [exact Hg|]. subst backup_name.
        intros E. symmetry in E. revert E. apply backup_name_differs. }
      split; [apply in_or_app; right; cbn; auto|].
      split; [apply in_or_app; right; cbn; auto|reflexivity].
    + split; [exact Hd|].
      split; [apply in_or_app; right; cbn; auto|].
      split; [reflexivity|apply DictFacts.get_set_same].
  - subst st. rewrite (PersistFacts.init_undecodable rt cfg env content Hr Hg Hu).
    now repeat split.
Qed.

Lemma load_malformed_document_witness :
  read_fault (world_with default_config byte_ff) = None
  /\ Dict.get (data_file default_config) (files (world_with default_config byte_ff))
     = Some byte_ff
  /\ fst (__init__ ascii_runtime default_config (world_with default_config byte_ff))
     = Raise (UnicodeDecodeError (utf8_error ascii_runtime byte_ff))
  /\ files (snd (__init__ ascii_runtime default_config (world_with default_config byte_ff)))
     = [(data_file default_config, byte_ff)]
  /\ log (snd (__init__ ascii_runtime default_config (world_with default_config byte_ff)))
     = [].
Proof.
  split; [reflexivity|]. split; [reflexivity|].
  exact (load_malformed_document ascii_runtime default_config
           (world_with default_config byte_ff) byte_ff eq_refl eq_refl).
Defined.

(** ** What the public methods hand back *)

(** C4, at two inputs.  On a new store [get_stats] returns a dictionary of
    numbers, not a string.  On the collection adopted from the data file
    that maps "a" to the number 1, [show_all_lists] and [get_stats] raise
    [TypeError] to their caller. *)
Lemma get_stats_and_show_all_lists_escape :
  lists adopted_number = [(u "a", VInt 1)]
  /\ fst (call ascii_runtime default_config GetStats fresh)
  = Ret (RDict {| total_lists := 0; total_items := 0;
                  average_items_per_list := NInt 0; largest_list_size := 0 |})
  /\ fst (call ascii_runtime default_config ShowAllLists adopted_number)
     = Raise (TypeError (u "object of type 'int' has no len()"))
  /\ fst (call ascii_runtime default_config GetStats adopted_number)
     = Raise (TypeError (u "object of type 'int' has no len()")).
Proof. vm_compute. repeat split. Qed.

(** C4, as amended.  create_list, add_item, add_multiple_items,
    remove_item, show_list, delete_list and search_item return a string on
    every input and in every state, and never raise.  Whatever the body of
    the method raises, the method answers as the boundary of the
    specification says: with the message of the error when it is one of
    the expected kinds (validation, not found, already exists, limit
    exceeded), with the generic error string of the method for a storage
    failure and for any other exception; the clauses leave the collection
    and the files as the body left them.  show_all_lists and get_stats have
    no handler; on a collection whose values are all lists of strings they
    return too, show_all_lists a string and get_stats a dictionary of
    numbers. *)
Theorem public_calls_return (rt : PyRuntime) (cfg : BotConfig) (c : Call) (st : State) :
  guarded c = true \/ well_typed (lists st) = true ->
  match c with
  | GetStats => exists s, fst (call rt cfg c st) = Ret (RDict s)
  | _ => exists s, fst (call rt cfg c st) = Ret (RStr s)
  end
  /\ (guarded c = true ->
      fst (call rt cfg c st) = Ret (spec_boundary c (fst (try_block rt cfg c st)))
      /\ lists (snd (call rt cfg c st)) = lists (snd (try_block rt cfg c st))
      /\ files (snd (call rt cfg c st)) = files (snd (try_block rt cfg c st))).
Proof.
  intros H.
  assert (B : forall (a b : M pystr),
            at_boundary c (a st) (b st) ->
            (exists s, fst (fmap RStr a st) = Ret (RStr s))
            /\ (fst (fmap RStr a st) = Ret (spec_boundary c (fst (fmap RStr b st)))
                /\ lists (snd (fmap RStr a st)) = lists (snd (fmap RStr b st))
                /\ files (snd (fmap RStr a st)) = files (snd (fmap RStr b st)))).
  { intros a b (H1 & H2 & H3). rewrite !Effect.fmap_fst, !Effect.fmap_snd, H1.
    split; [eauto|]. split; [|now split].
    destruct (fst (b st)); reflexivity. }
  destruct c; cbn [call try_block].
  - destruct (B _ _ (Boundary.create_list_boundary rt cfg list_name st)); auto.
  - destruct (B _ _ (Boundary.add_item_boundary rt cfg list_name item st)); auto.
  - destruct (B _ _ (Boundary.add_multiple_items_boundary rt cfg list_name items_text st));
      auto.
  - destruct (B _ _ (Boundary.remove_item_boundary rt cfg list_name item st)); auto.
  - destruct (B _ _ (Boundary.show_list_boundary rt list_name st)); auto.
  - split; [|discriminate].
    destruct H as [H|H]; [discriminate|]. rewrite Effect.fmap_fst.
    destruct (Reads.show_all_lists_returns st H) as [s ->]. eauto.
  - destruct (B _ _ (Boundary.delete_list_boundary rt cfg list_name st)); auto.
  - destruct (B _ _ (Boundary.search_item_boundary rt search_term st)); auto.
  - split; [|discriminate].
    destruct H as [H|H]; [discriminate|]. rewrite Effect.fmap_fst.
    destruct (Reads.get_stats_returns st H) as [s ->]. eauto.
Qed.

(** [create_list] on a name of spaces answers with the message of the
    validation error; on a disk that cannot be written it answers with its
    generic error string, whatever [DataStorageError] says. *)
Lemma public_calls_return_witness :
  (guarded (CreateList (u "  ")) = true \/ well_typed (lists fresh) = true)
  /\ fst (try_block ascii_runtime default_config (CreateList (u "  ")) fresh)
     = Raise (ValidationError (u "List name cannot be empty"))
  /\ fst (call ascii_runtime default_config (CreateList (u "  ")) fresh)
     = Ret (RStr (u "List name cannot be empty"))
  /\ fst (try_block ascii_runtime default_config (CreateList (u "a")) disk_full)
     = Raise (DataStorageError
                (u "Failed to save data: [Errno 28] No space left on device"))
  /\ fst (call ascii_runtime default_config (CreateList (u "a")) disk_full)
     = Ret (RStr (generic_error (CreateList (u "a")))).
Proof.
  split; [left; reflexivity|]. split; [reflexivity|]. split.
  - exact (proj1 (proj2 (public_calls_return ascii_runtime default_config
                           (CreateList (u "  ")) fresh (or_introl eq_refl)) eq_refl)).
  - split; [reflexivity|].
    exact (proj1 (proj2 (public_calls_return ascii_runtime default_config
                           (CreateList (u "a")) disk_full (or_introl eq_refl)) eq_refl)).
Defined.

(** ** Names that differ only in case *)

(** C6, at capacity.  After 49 lists and then "milk" are created under the
    default configuration (50 lists at most), [create_list("Milk")] is
    rejected with the limit message, not with the already-exists message:
    the limit is checked before the name is looked up. *)
Lemma second_create_at_capacity :
  lists fresh = []
  /\ List.length (lists forty_nine) = 49%nat
  /\ fst (create_list ascii_runtime default_config (u "milk") forty_nine)
     = Ret (Messages.LIST_CREATED (u "milk"))
  /\ List.length (lists fifty) = 50%nat
  /\ fst (create_list ascii_runtime default_config (u "Milk") fifty)
     = Ret (Messages.TOO_MANY_LISTS 50)
  /\ fst (create_list ascii_runtime default_config (u "Milk") fifty)
     <> Ret (Messages.LIST_EXISTS (u "Milk")).
Proof. vm_compute. repeat split; discriminate. Qed.

Lemma length_set_le {V : Type} (k : pystr) (v : V) (d : Dict.t V) :
  (List.length (Dict.set k v d) <= S (List.length d))%nat.
Proof.
  induction d as [|[k0 v0] d IH]; cbn; [lia|].
  destruct (Str.eqb k0 k); cbn; lia.
Qed.

(** What [create_list] writes, when it writes. *)
Lemma create_effect_some (rt : PyRuntime) (cfg : BotConfig) (n : pystr)
    (ls ls' : Dict.t PyVal) :
  effect rt cfg (CreateList n) ls = Some ls' ->
  ls' = Dict.set (Str.strip n) (VList []) ls
  /\ _check_list_limit cfg ls = inr tt
  /\ resolved (_find_list_name rt ls (Str.strip n)) = None.
Proof.
  cbn [effect].
  destruct (_validate_list_name cfg n); [discriminate|].
  destruct (_check_list_limit cfg ls) as [|[]]; [discriminate|].
  destruct (resolved _); [discriminate|]. now intros [= <-].
Qed.

Lemma create_effect_none (rt : PyRuntime) (cfg : BotConfig) (n : pystr)
    (ls : Dict.t PyVal) :
  effect rt cfg (CreateList n) ls = None ->
  _validate_list_name cfg n = inr tt ->
  _check_list_limit cfg ls = inr tt ->
  exists k, resolved (_find_list_name rt ls (Str.strip n)) = Some k.
Proof.
  cbn [effect]. intros H Hv Hl. rewrite Hv, Hl in H.
  destruct (resolved _) as [k|]; [eauto|discriminate].
Qed.

(** Under the invariant, a name whose lowercase form is that of a key
    resolves. *)
Lemma resolves_by_case (rt : PyRuntime) (ls : Dict.t PyVal) (k n : pystr) :
  invariant rt ls -> In k (Dict.keys ls) -> lower rt k = lower rt n ->
  exists k', resolved (_find_list_name rt ls n) = Some k'.
Proof.
  intros (_ & Hne & _) HIn Hl.
  destruct (Resolve.find_exists rt ls n k HIn Hl) as [k' Hk'].
  rewrite Hk'. destruct (Resolve.find_some rt ls n k' Hk') as [HIn' _].
  rewrite Forall_forall in Hne. specialize (Hne k' HIn').
  destruct k'; [contradiction|cbn; eauto].
Qed.

Lemma create_list_lists (rt : PyRuntime) (cfg : BotConfig) (n : pystr) (st : State) :
  lists (snd (create_list rt cfg n st)) = lists (snd (call rt cfg (CreateList n) st)).
Proof. cbn [call]. now rewrite Effect.fmap_snd. Qed.

(** After [create_list(n1)], whatever it answered, a key with the lowercase
    form of the trimmed [n1] is there, if [n1] is valid and the limit was
    not reached. *)
Lemma create_list_leaves_key (rt : PyRuntime) (cfg : BotConfig) (n : pystr) (st : State) :
  _validate_list_name cfg n = inr tt ->
  _check_list_limit cfg (lists st) = inr tt ->
  exists k, In k (Dict.keys (lists (snd (create_list rt cfg n st))))
            /\ lower rt k = lower rt (Str.strip n).
Proof.
  intros Hv Hl. rewrite create_list_lists.
  pose proof (Effect.call_effect rt cfg (CreateList n) st eq_refl) as H.
  destruct (effect rt cfg (CreateList n) (lists st)) as [ls'|] eqn:He.
  - destruct H as (-> & _). apply create_effect_some in He as (-> & _).
    exists (Str.strip n). split; [|reflexivity].
    eapply DictFacts.get_some_in. apply DictFacts.get_set_same.
  - destruct H as (-> & _).
    destruct (create_effect_none rt cfg n (lists st) He Hv Hl) as [k Hk].
    apply Resolve.resolved_in in Hk as (HIn & Hlow & _). eauto.
Qed.

(** C6, as amended.  In every state reached from the empty collection
    through the public methods, whatever happens to the files in between,
    at most one key equals a given name up to letter case.  Calling
    create_list twice, with names whose trimmed forms are equal up to
    letter case, makes the collection grow by at most 1.  When both names
    are valid, the second call leaves the collection as the first left it,
    and it answers with the limit message when the collection holds
    max_lists_per_user lists by then (the limit is checked first), with the
    already-exists message otherwise. *)
Theorem create_twice (rt : PyRuntime) (cfg : BotConfig) (evs : list Event)
    (st0 : State) (n1 n2 name : pystr) :
  lists st0 = [] ->
  lower rt (Str.strip n1) = lower rt (Str.strip n2) ->
  let st := run rt cfg evs st0 in
  let st1 := snd (create_list rt cfg n1 st) in
  let r2 := create_list rt cfg n2 st1 in
  (case_matches rt (lists st) name <= 1)%nat
  /\ (List.length (lists (snd r2)) <= S (List.length (lists st)))%nat
  /\ (_validate_list_name cfg n1 = inr tt ->
      _validate_list_name cfg n2 = inr tt ->
      lists (snd r2) = lists st1
      /\ fst r2 =
         if (Z.of_nat (List.length (lists st1)) >=? max_lists_per_user cfg)%Z
         then Ret (Messages.TOO_MANY_LISTS (max_lists_per_user cfg))
         else Ret (Messages.LIST_EXISTS (Str.strip n2))).
Proof.
  intros H0 Hlow st st1 r2.
  assert (Hinv : invariant rt (lists st))
    by (apply Invariant.reachable_invariant; exact H0).
  assert (Hinv1 : invariant rt (lists st1)).
  { subst st1. rewrite create_list_lists. now apply Invariant.call_invariant. }
  pose proof (Effect.call_effect rt cfg (CreateList n1) st eq_refl) as E1.
  pose proof (Effect.call_effect rt cfg (CreateList n2) st1 eq_refl) as E2.
  rewrite <- !create_list_lists in E1, E2. fold st1 in E1. fold r2 in E2.
  split; [apply Writes.case_matches_le_1, Hinv|]. split.
  - (* the size *)
    destruct (effect rt cfg (CreateList n1) (lists st)) as [ls1|] eqn:He1.
    + destruct E1 as (E1 & _).
      apply create_effect_some in He1 as (-> & _ & _).
      destruct (effect rt cfg (CreateList n2) (lists st1)) as [ls2|] eqn:He2.
      * exfalso. apply create_effect_some in He2 as (_ & _ & Hr).
        destruct (resolves_by_case rt (lists st1) (Str.strip n1) (Str.strip n2) Hinv1)
          as [k' Hk']; [|exact Hlow|congruence].
        rewrite E1. eapply DictFacts.get_some_in. apply DictFacts.get_set_same.
      * destruct E2 as (-> & _). rewrite E1. apply length_set_le.
    + destruct E1 as (E1 & _).
      destruct (effect rt cfg (CreateList n2) (lists st1)) as [ls2|] eqn:He2.
      * destruct E2 as (-> & _). apply create_effect_some in He2 as (-> & _ & _).
        rewrite E1. apply length_set_le.
      * destruct E2 as (-> & _). rewrite E1. lia.
  - (* the answer *)
    intros Hv1 Hv2. subst r2. rewrite Cases.create_list_cases, Hv2.
    assert (Hc : _check_list_limit cfg (lists st1) =
                 if (Z.of_nat (List.length (lists st1)) >=? max_lists_per_user cfg)%Z
                 then inl (LimitExceededError
                             (Messages.TOO_MANY_LISTS (max_lists_per_user cfg)))
                 else inr tt) by reflexivity.
    rewrite Hc.
    destruct (Z.of_nat (List.length (lists st1)) >=? max_lists_per_user cfg)%Z eqn:Hcap.
    + split; reflexivity.
    + assert (Hl : _check_list_limit cfg (lists st) = inr tt).
      { unfold _check_list_limit.
        destruct (Z.geb_spec (Z.of_nat (List.length (lists st))) (max_lists_per_user cfg));
          [|reflexivity].
        exfalso.
        assert (Hsame : lists st1 = lists st).
        { destruct (effect rt cfg (CreateList n1) (lists st)) as [ls1|] eqn:He1;
            [|now destruct E1].
          apply create_effect_some in He1 as (_ & Hc1 & _).
          unfold _check_list_limit in Hc1.
          destruct (Z.geb_spec (Z.of_nat (List.length (lists st)))
                      (max_lists_per_user cfg)); [discriminate|lia]. }
        rewrite Hsame in Hcap.
        destruct (Z.geb_spec (Z.of_nat (List.length (lists st)))
                    (max_lists_per_user cfg)); [discriminate|lia]. }
      destruct (create_list_leaves_key rt cfg n1 st Hv1 Hl) as (k & HIn & Hk).
      fold st1 in HIn.
      destruct (resolves_by_case rt (lists st1) k (Str.strip n2) Hinv1 HIn)
        as [k' Hk']; [congruence|].
      rewrite Hk'. split; reflexivity.
Qed.

Lemma create_twice_witness :
  lists fresh = []
  /\ lower ascii_runtime (Str.strip (u "milk")) = lower ascii_runtime (Str.strip (u " Milk "))
  /\ _validate_list_name default_config (u "milk") = inr tt
  /\ _validate_list_name default_config (u " Milk ") = inr tt
  /\ lists (snd (create_list ascii_runtime default_config (u " Milk ") work_and_milk))
     = lists work_and_milk
  /\ fst (create_list ascii_runtime default_config (u " Milk ") work_and_milk)
     = Ret (Messages.LIST_EXISTS (u "Milk")).
Proof.
  split; [reflexivity|]. split; [reflexivity|].
  split; [reflexivity|]. split; [reflexivity|].
  exact (proj2 (proj2 (create_twice ascii_runtime default_config
                         [Invoke (CreateList (u "work"))] fresh
                         (u "milk") (u " Milk ") (u "milk") eq_refl eq_refl))
           eq_refl eq_refl).
Defined.

(** ** add_multiple_items *)

Lemma existsb_absent (c : pystr) (content : list pystr) :
  ~ In c content -> existsb (Str.eqb c) content = false.
Proof.
  intros H. destruct (existsb (Str.eqb c) content) eqn:E; [|reflexivity].
  apply existsb_exists in E as (x & HIn & Hx). apply StrFacts.eqb_eq in Hx.
  subst. contradiction.
Qed.

(** The loop of the wording with the three lists of the code, and the
    fates of the candidates. *)
Lemma add_many_fates (cfg : BotConfig) (cands : list pystr) :
  forall (content : list pystr) (t : Tally),
    let out := spec_add_many cfg content cands t in
    let fates := spec_fates cfg content cands in
    fst out = content ++ spec_appended fates
    /\ added_items (snd out) = added_items t ++ spec_appended fates
    /\ skipped_items (snd out) = skipped_items t ++ spec_skipped fates
    /\ failed_items (snd out)
       = failed_items t ++ map (fun item => item ++ u " (invalid)") (spec_invalid fates).
Proof.
  induction cands as [|c r IH]; intros content t; cbn [spec_add_many spec_fates].
  - cbn. now rewrite !app_nil_r.
  - destruct (negb (spec_valid cfg c)); [|destruct (existsb (Str.eqb c) content)].
    + destruct (IH content (tally t c Invalid)) as (H1 & H2 & H3 & H4).
      cbv zeta. rewrite H1, H2, H3, H4.
      unfold spec_appended, spec_skipped, spec_invalid.
      cbn [flat_map snd fst app map tally added_items skipped_items failed_items].
      now rewrite <- app_assoc.
    + destruct (IH content (tally t c Skipped)) as (H1 & H2 & H3 & H4).
      cbv zeta. rewrite H1, H2, H3, H4.
      unfold spec_appended, spec_skipped, spec_invalid.
      cbn [flat_map snd fst app map tally added_items skipped_items failed_items].
      now rewrite <- app_assoc.
    + destruct (IH (content ++ [c]) (tally t c Added)) as (H1 & H2 & H3 & H4).
      cbv zeta. rewrite H1, H2, H3, H4.
      unfold spec_appended, spec_skipped, spec_invalid.
      cbn [flat_map snd fst app map tally added_items skipped_items failed_items].
      now rewrite <- !app_assoc.
Qed.

(** The lines of the code's answer are the sections of the wording. *)
Lemma result_parts_sections (k : pystr) (t : Tally) :
  result_parts k t =
  spec_section (Messages.ok_mark ++ u "Added ") (u " items to '" ++ k ++ u "':")
    (added_items t)
  ++ spec_section (Messages.warn_mark ++ u "Skipped ") (u " duplicate items:")
       (skipped_items t)
  ++ spec_section (Messages.err_mark ++ u "Failed to add ") (u " items:")
       (failed_items t).
Proof.
  unfold result_parts, spec_section, count, bullet.
  destruct (added_items t), (skipped_items t), (failed_items t);
    rewrite <- ?app_assoc; reflexivity.
Qed.

(** C7.  The candidates of add_multiple_items are the pieces of the text
    between commas, trimmed, without the empty ones.  When the name
    resolves to a list of strings and the capacity check passes, each
    candidate meets the fate the specification words: an invalid one is
    reported as failed, one equal to an item of the current content (items
    added earlier in the call included) as skipped, every other one is
    appended, in the order of the text.  The list becomes its content with
    the appended candidates after it.  When the save works or nothing was
    appended, the answer is the report of the three groups: for each group
    that is not empty a headline with its size and a line for each item.
    In particular, with "a, b, a" on a list that holds neither "a" nor "b",
    "a" and "b" are appended once each, the second "a" is skipped, the list
    is 2 longer, and the answer names "a" and "b" as added and "a" as
    skipped. *)
Theorem add_multiple_items_adds (rt : PyRuntime) (cfg : BotConfig) (st : State)
    (n text k : pystr) (content : list pystr) :
  resolved (_find_list_name rt (lists st) n) = Some k ->
  Dict.get k (lists st) = Some (VList (map VStr content)) ->
  spec_candidates text <> [] ->
  (Z.of_nat (List.length content) + Z.of_nat (List.length (spec_candidates text))
   <= max_items_per_list cfg)%Z ->
  let r := add_multiple_items rt cfg n text st in
  let fates := spec_fates cfg content (spec_candidates text) in
  split_items text = spec_candidates text
  /\ lists (snd r)
     = Dict.set k (VList (map VStr (content ++ spec_appended fates))) (lists st)
  /\ (spec_appended fates = []
      \/ fst (_save_data cfg (with_lists (lists (snd r)) st)) = Ret tt ->
      fst r = Ret (spec_report k fates))
  /\ (text = u "a, b, a" -> ~ In (u "a") content -> ~ In (u "b") content ->
      (1 <= max_item_length cfg)%Z ->
      fates = [(u "a", Appended); (u "b", Appended); (u "a", Duplicate)]
      /\ lists (snd r)
         = Dict.set k (VList (map VStr (content ++ [u "a"; u "b"]))) (lists st)
      /\ List.length (content ++ [u "a"; u "b"]) = (List.length content + 2)%nat
      /\ (fst (_save_data cfg (with_lists (lists (snd r)) st)) = Ret tt ->
          fst r = Ret (Messages.ok_mark ++ u "Added 2 items to '" ++ k ++ u "':"
                       ++ [10%N] ++ u "  " ++ [8226%N; 32%N] ++ u "a"
                       ++ [10%N] ++ u "  " ++ [8226%N; 32%N] ++ u "b"
                       ++ [10%N] ++ Messages.warn_mark ++ u "Skipped 1 duplicate items:"
                       ++ [10%N] ++ u "  " ++ [8226%N; 32%N] ++ u "a"))).
Proof.
  intros Hr Hg Hne Hcap r fates.
  split; [apply Writes.split_items_spec|].
  assert (Hcases := Cases.add_multiple_items_cases rt cfg n text st).
  fold r in Hcases. rewrite Hr, Writes.split_items_spec in Hcases.
  destruct (add_many_fates cfg (spec_candidates text) content no_items)
    as (F1 & F2 & F3 & F4).
  fold fates in F1, F2, F3, F4. cbn [no_items added_items skipped_items failed_items app]
    in F2, F3, F4.
  set (outcome := spec_add_many cfg content (spec_candidates text) no_items) in *.
  assert (Hrep : match result_parts k (snd outcome) with
                 | [] => Messages.err_mark ++ u "No items were processed"
                 | parts => Str.join [10%N] parts
                 end = spec_report k fates).
  { rewrite result_parts_sections, F2, F3, F4. unfold spec_report.
    now destruct (_ ++ _). }
  destruct (spec_candidates text) as [|i items] eqn:Hc; [contradiction|].
  rewrite Hg in Hcases. cbn [Py.len] in Hcases. rewrite length_map in Hcases.
  destruct (Z.gtb_spec (Z.of_nat (List.length content) + Z.of_nat (List.length (i :: items)))
              (max_items_per_list cfg)) as [Hgt|_]; [lia|].
  rewrite (Effect.add_candidates_add_all cfg k (i :: items) _ no_items st Hg) in Hcases.
  rewrite (Writes.add_all_typed cfg) in Hcases. fold outcome in Hcases.
  cbn [fst snd] in Hcases. rewrite Hrep, F2 in Hcases.
  assert (Hsave : forall p l,
            spec_appended fates = p :: l ->
            lists (snd r) = Dict.set k (VList (map VStr (fst outcome))) (lists st)
            /\ (fst (_save_data cfg
                       (with_lists (Dict.set k (VList (map VStr (fst outcome))) (lists st))
                          st)) = Ret tt ->
                fst r = Ret (spec_report k fates))).
  { intros p l Ha. rewrite Ha in Hcases. rewrite Hcases.
    destruct (Effect.then_save_effect cfg
                (u "Added " ++ count (p :: l) ++ u " items to '" ++ k ++ u "': "
                 ++ repr rt (VList (map VStr (p :: l))))
                (spec_report k fates)
                (generic_error (AddMultipleItems n text))
                (add_multiple_items_except n)
                (with_lists (Dict.set k (VList (map VStr (fst outcome))) (lists st)) st)
                (Effect.add_multiple_items_except_quiet n)
                (Effect.add_multiple_items_except_generic n text))
      as (H1 & _ & H3 & _). split; [exact H1|exact H3]. }
  assert (Hlists : lists (snd r)
                   = Dict.set k (VList (map VStr (content ++ spec_appended fates)))
                       (lists st)).
  { rewrite <- F1. destruct (spec_appended fates) as [|p l] eqn:Ha.
    - rewrite Hcases. reflexivity.
    - exact (proj1 (Hsave p l eq_refl)). }
  assert (Hans : spec_appended fates = []
                 \/ fst (_save_data cfg (with_lists (lists (snd r)) st)) = Ret tt ->
                 fst r = Ret (spec_report k fates)).
  { intros Hok. destruct (spec_appended fates) as [|p l] eqn:Ha.
    - rewrite Hcases. reflexivity.
    - destruct Hok as [Hok|Hok]; [discriminate|].
      apply (proj2 (Hsave p l eq_refl)). rewrite Hlists, <- F1 in Hok. exact Hok. }
  split; [exact Hlists|]. split; [exact Hans|].
  intros -> Ha Hb Hlen.
  assert (Hcand : i :: items = [u "a"; u "b"; u "a"]).
  { rewrite <- Hc. reflexivity. }
  assert (Hva : spec_valid cfg (u "a") = true).
  { unfold spec_valid. cbn. apply Z.leb_le. exact Hlen. }
  assert (Hvb : spec_valid cfg (u "b") = true).
  { unfold spec_valid. cbn. apply Z.leb_le. exact Hlen. }
  assert (Hf : fates = [(u "a", Appended); (u "b", Appended); (u "a", Duplicate)]).
  { subst fates. rewrite Hcand. cbn [spec_fates].
    rewrite Hva, Hvb. cbn [negb].
    rewrite (existsb_absent _ _ Ha).
    rewrite existsb_app, (existsb_absent _ _ Hb).
    change (existsb (Str.eqb (u "b")) [u "a"]) with false. cbn [orb].
    rewrite !existsb_app, (existsb_absent _ _ Ha).
    change (existsb (Str.eqb (u "a")) [u "a"]) with true. cbn [orb].
    reflexivity. }
  split; [exact Hf|]. rewrite Hf in Hlists, Hans.
  split; [exact Hlists|]. split; [rewrite length_app; reflexivity|].
  intros Hok. rewrite (Hans (or_intror Hok)). f_equal.
  unfold spec_report, spec_section, spec_appended, spec_skipped, spec_invalid.
  cbn [flat_map map fst snd app List.length Str.join].
  change (Str.of_Z (Z.of_nat 2)) with (u "2"). change (Str.of_Z (Z.of_nat 1)) with (u "1").
  rewrite <- !app_assoc. reflexivity.
Qed.

Lemma add_multiple_items_adds_witness :
  resolved (_find_list_name ascii_runtime (lists milk_list) (u "groceries"))
  = Some (u "Groceries")
  /\ Dict.get (u "Groceries") (lists milk_list) = Some (VList (map VStr [u "milk"]))
  /\ spec_candidates (u "a, b, a") <> []
  /\ (Z.of_nat (List.length [u "milk"])
      + Z.of_nat (List.length (spec_candidates (u "a, b, a")))
      <= max_items_per_list default_config)%Z
  /\ lists (snd (add_multiple_items ascii_runtime default_config (u "groceries")
                   (u "a, b, a") milk_list))
     = [(u "Groceries", VList [VStr (u "milk"); VStr (u "a"); VStr (u "b")])].
Proof.
  split; [reflexivity|]. split; [reflexivity|].
  split; [discriminate|]. split; [vm_compute; discriminate|].
  refine (proj1 (proj2
            (add_multiple_items_adds ascii_runtime default_config
               milk_list
               (u "groceries") (u "a, b, a") (u "Groceries") [u "milk"]
               eq_refl eq_refl _ _))).
  - discriminate.
  - vm_compute. discriminate.
Defined.

(** ** Save, then load *)




(** ** What a write leaves alone *)

(** C9.  add_item and remove_item keep the keys, in their order, and the
    value of every key but the one the name resolves to; create_list keeps
    the value of every key but the new one; delete_list keeps the value of
    every key but the one the name resolves to.  This holds in every
    state, whatever the call answers. *)
Theorem writes_touch_one_list (rt : PyRuntime) (cfg : BotConfig) (st : State)
    (n x : pystr) :
  let target := resolved (_find_list_name rt (lists st) n) in
  (Dict.keys (lists (snd (add_item rt cfg n x st))) = Dict.keys (lists st)
   /\ forall k, target <> Some k ->
        Dict.get k (lists (snd (add_item rt cfg n x st))) = Dict.get k (lists st))
  /\ (Dict.keys (lists (snd (remove_item rt cfg n x st))) = Dict.keys (lists st)
      /\ forall k, target <> Some k ->
           Dict.get k (lists (snd (remove_item rt cfg n x st))) = Dict.get k (lists st))
  /\ (forall k, k <> Str.strip n ->
        Dict.get k (lists (snd (create_list rt cfg n st))) = Dict.get k (lists st))
  /\ (forall k, target <> Some k ->
        Dict.get k (lists (snd (delete_list rt cfg n st))) = Dict.get k (lists st)).
Proof.
  intros target.
  assert (F : forall c, mutating c = true ->
            match effect rt cfg c (lists st) with
            | Some ls' => lists (snd (call rt cfg c st)) = ls'
            | None => lists (snd (call rt cfg c st)) = lists st
            end).
  { intros c Hm. pose proof (Effect.call_effect rt cfg c st Hm) as H.
    destruct (effect rt cfg c (lists st)); now destruct H. }
  repeat split.
  - specialize (F (AddItem n x) eq_refl). cbn [call] in F. rewrite Effect.fmap_snd in F.
    destruct (effect rt cfg (AddItem n x) (lists st)) eqn:He; rewrite F; [|reflexivity].
    now apply (Writes.effect_frame rt cfg (AddItem n x)).
  - intros k Hk.
    specialize (F (AddItem n x) eq_refl). cbn [call] in F. rewrite Effect.fmap_snd in F.
    destruct (effect rt cfg (AddItem n x) (lists st)) eqn:He; rewrite F; [|reflexivity].
    now apply (Writes.effect_frame rt cfg (AddItem n x)).
  - specialize (F (RemoveItem n x) eq_refl). cbn [call] in F. rewrite Effect.fmap_snd in F.
    destruct (effect rt cfg (RemoveItem n x) (lists st)) eqn:He; rewrite F; [|reflexivity].
    now apply (Writes.effect_frame rt cfg (RemoveItem n x)).
  - intros k Hk.
    specialize (F (RemoveItem n x) eq_refl). cbn [call] in F. rewrite Effect.fmap_snd in F.
    destruct (effect rt cfg (RemoveItem n x) (lists st)) eqn:He; rewrite F; [|reflexivity].
    now apply (Writes.effect_frame rt cfg (RemoveItem n x)).
  - intros k Hk.
    specialize (F (CreateList n) eq_refl). cbn [call] in F. rewrite Effect.fmap_snd in F.
    destruct (effect rt cfg (CreateList n) (lists st)) eqn:He; rewrite F; [|reflexivity].
    now apply (Writes.effect_frame rt cfg (CreateList n)).
  - intros k Hk.
    specialize (F (DeleteList n) eq_refl). cbn [call] in F. rewrite Effect.fmap_snd in F.
    destruct (effect rt cfg (DeleteList n) (lists st)) eqn:He; rewrite F; [|reflexivity].
    now apply (Writes.effect_frame rt cfg (DeleteList n)).
Qed.

Lemma writes_touch_one_list_witness :
  resolved (_find_list_name ascii_runtime (lists two_lists) (u "a")) <> Some (u "B")
  /\ Dict.get (u "B")
       (lists (snd (add_item ascii_runtime default_config (u "a") (u "w") two_lists)))
     = Dict.get (u "B") (lists two_lists).
Proof.
  split; [discriminate|].
  refine (proj2 (proj1
            (writes_touch_one_list ascii_runtime default_config two_lists
               (u "a") (u "w"))) (u "B") _).
  discriminate.
Defined.

(** ** Removing a blank item *)

(** C10.  In every state reached from the empty collection through the
    public methods, every stored value is a list of strings that are not
    empty, also after trimming.  So remove_item, which does not validate
    its item, answers an empty or all-whitespace item on an existing list
    with the item-not-found message (for the trimmed, empty item), logged as
    a warning like every expected error, and changes neither the collection
    nor any file. *)
Theorem remove_blank_item (rt : PyRuntime) (cfg : BotConfig) (evs : list Event)
    (st0 : State) (n item k : pystr) :
  lists st0 = [] ->
  let st := run rt cfg evs st0 in
  resolved (_find_list_name rt (lists st) n) = Some k ->
  forallb Str.isspace item = true ->
  let r := remove_item rt cfg n item st in
  (forall k' v, Dict.get k' (lists st) = Some v -> good_list v = true)
  /\ fst r = Ret (Messages.ITEM_NOT_FOUND [] k)
  /\ category (ItemNotFoundError (Messages.ITEM_NOT_FOUND [] k)) = Some NotFound
  /\ lists (snd r) = lists st
  /\ files (snd r) = files st
  /\ log (snd r)
     = log st ++ [(WARNING, u "Failed to remove item '" ++ [] ++ u "' from '" ++ n
                            ++ u "': " ++ Messages.ITEM_NOT_FOUND [] k)].
Proof.
  intros H0 st Hr Hsp r.
  destruct (Invariant.reachable_invariant rt cfg evs st0 H0) as (_ & _ & Hgood).
  fold st in Hgood.
  assert (Hall : forall k' v, Dict.get k' (lists st) = Some v -> good_list v = true).
  { intros k' v Hg. eapply Invariant.good_get; eassumption. }
  split; [exact Hall|].
  destruct (Resolve.resolved_in rt (lists st) n k Hr) as (HIn & _ & _).
  destruct (DictFacts.in_get_some k (lists st) HIn) as [v Hg].
  subst r. rewrite Cases.remove_item_cases, Hr, Hg.
  rewrite (Writes.strip_spaces item Hsp).
  rewrite (Writes.contains_empty_good v (Hall k v Hg)).
  repeat split.
Qed.

Lemma remove_blank_item_witness :
  lists fresh = []
  /\ resolved (_find_list_name ascii_runtime (lists groceries_milk) (u "GROCERIES"))
     = Some (u "Groceries")
  /\ forallb Str.isspace (u "   ") = true
  /\ fst (remove_item ascii_runtime default_config (u "GROCERIES") (u "   ") groceries_milk)
     = Ret (Messages.ITEM_NOT_FOUND [] (u "Groceries")).
Proof.
  split; [reflexivity|]. split; [reflexivity|]. split; [reflexivity|].
  exact (proj1 (proj2
           (remove_blank_item ascii_runtime default_config
              [Invoke (CreateList (u "Groceries"));
               Invoke (AddItem (u "groceries") (u "milk"))]
              fresh (u "GROCERIES") (u "   ") (u "Groceries")
              eq_refl eq_refl eq_refl))).
Defined.


(** * What validation and the limits leave in the collection *)

Module Tidy.

#[local] Arguments Str.strip : simpl never.

(** *** Lists of strings *)

Lemma existsb_eqb_false (x : pystr) (items : list pystr) :
  existsb (Str.eqb x) items = false <-> ~ In x items.
Proof.
  split.
  - intros H HIn. assert (E : existsb (Str.eqb x) items = true).
    { apply existsb_exists. exists x. split; [exact HIn|apply StrFacts.eqb_refl]. }
    congruence.
  - intros H. destruct (existsb (Str.eqb x) items) eqn:E; [|reflexivity].
    apply existsb_exists in E as (y & HIn & Hy). apply StrFacts.eqb_eq in Hy.
    subst. contradiction.
Qed.

Lemma existsb_eqb_true (x : pystr) (items : list pystr) :
  existsb (Str.eqb x) items = true <-> In x items.
Proof.
  split.
  - intros E. apply existsb_exists in E as (y & HIn & Hy).
    apply StrFacts.eqb_eq in Hy. now subst.
  - intros HIn. apply existsb_exists. exists x.
    split; [exact HIn|apply StrFacts.eqb_refl].
Qed.

Lemma remove_first_typed (x : pystr) (items : list pystr) :
  Py.remove_first x (map VStr items) =
  if existsb (Str.eqb x) items then Some (map VStr (without x items)) else None.
Proof.
  induction items as [|y r IH]; cbn; [reflexivity|].
  rewrite (StrFacts.eqb_sym x y).
  destruct (Str.eqb y x); cbn; [reflexivity|].
  rewrite IH. now destruct (existsb (Str.eqb x) r).
Qed.

Lemma without_incl (x y : pystr) (items : list pystr) :
  In y (without x items) -> In y items.
Proof.
  induction items as [|z r IH]; cbn; [auto|].
  destruct (Str.eqb z x); cbn; [auto|]. intros [H|H]; auto.
Qed.

Lemma without_nodup (x : pystr) (items : list pystr) :
  NoDup items -> NoDup (without x items) /\ ~ In x (without x items).
Proof.
  induction items as [|z r IH]; cbn; intros H.
  - split; [constructor|auto].
  - inversion H as [|a l Hn Hd]; subst.
    destruct (StrFacts.eqb_spec z x) as [E|E].
    + subst. auto.
    + destruct (IH Hd) as [H1 H2]. split.
      * constructor; [|exact H1]. intros HIn. apply Hn.
        eapply without_incl; eassumption.
      * intros [H0|H0]; [congruence|contradiction].
Qed.

Lemma without_length (x : pystr) (items : list pystr) :
  In x items -> List.length items = S (List.length (without x items)).
Proof.
  induction items as [|z r IH]; cbn; [intros []|].
  destruct (StrFacts.eqb_spec z x) as [E|E]; [reflexivity|].
  intros [H|H]; [congruence|]. cbn. now rewrite (IH H).
Qed.

Lemma without_Forall (P : pystr -> Prop) (x : pystr) (items : list pystr) :
  Forall P items -> Forall P (without x items).
Proof.
  intros H. rewrite Forall_forall in *. intros y Hy. apply H.
  eapply without_incl; eassumption.
Qed.

(** Appending a string that is absent: the last occurrence is the only
    one. *)
Lemma without_app_last (x : pystr) (items : list pystr) :
  ~ In x items -> without x (items ++ [x]) = items.
Proof.
  induction items as [|z r IH]; cbn; intros H.
  - now rewrite StrFacts.eqb_refl.
  - destruct (StrFacts.eqb_spec z x) as [E|E].
    + exfalso. apply H. now left.
    + f_equal. apply IH. intros HIn. apply H. now right.
Qed.

(** *** Dictionaries *)

Lemma Forall_set {V : Type} (P : pystr * V -> Prop) (k : pystr) (v : V)
    (d : Dict.t V) :
  Forall P d -> P (k, v) -> Forall P (Dict.set k v d).
Proof.
  intros Hd Hk. induction Hd as [|[k0 v0] d H0 Hd IH]; cbn.
  - now repeat constructor.
  - destruct (StrFacts.eqb_spec k0 k) as [E|E].
    + subst. now constructor.
    + now constructor.
Qed.

Lemma Forall_del {V : Type} (P : pystr * V -> Prop) (k : pystr) (d : Dict.t V) :
  Forall P d -> Forall P (Dict.del k d).
Proof.
  intros Hd. rewrite Forall_forall in *. intros x Hx. apply Hd.
  eapply DictFacts.in_del; eassumption.
Qed.

Lemma Forall_get {V : Type} (P : pystr * V -> Prop) (k : pystr) (v : V)
    (d : Dict.t V) :
  Forall P d -> Dict.get k d = Some v -> P (k, v).
Proof.
  intros Hd. induction Hd as [|[k0 v0] d H0 Hd IH]; cbn; [discriminate|].
  destruct (StrFacts.eqb_spec k0 k) as [E|E]; [|exact IH].
  intros [= ->]. now subst.
Qed.

Lemma length_set {V : Type} (k : pystr) (v : V) (d : Dict.t V) :
  List.length (Dict.set k v d)
  = if existsb (Str.eqb k) (Dict.keys d) then List.length d else S (List.length d).
Proof.
  induction d as [|[k0 v0] d IH]; cbn; [reflexivity|].
  rewrite (StrFacts.eqb_sym k k0).
  destruct (Str.eqb k0 k); cbn; [reflexivity|].
  rewrite IH. unfold Dict.keys. now destruct (existsb (Str.eqb k) (map fst d)).
Qed.

Lemma length_del {V : Type} (k : pystr) (d : Dict.t V) :
  (List.length (Dict.del k d) <= List.length d)%nat.
Proof.
  induction d as [|[k0 v0] d IH]; cbn; [lia|].
  destruct (Str.eqb k0 k); cbn; lia.
Qed.

(** Deleting the key that was added last gives the dictionary back. *)
Lemma del_set_absent {V : Type} (k : pystr) (v : V) (d : Dict.t V) :
  ~ In k (Dict.keys d) -> Dict.del k (Dict.set k v d) = d.
Proof.
  induction d as [|[k0 v0] d IH]; cbn; intros H.
  - now rewrite StrFacts.eqb_refl.
  - destruct (StrFacts.eqb_spec k0 k) as [E|E].
    + exfalso. apply H. now left.
    + cbn. destruct (StrFacts.eqb_spec k0 k); [contradiction|].
      f_equal. apply IH. intros HIn. apply H. now right.
Qed.

Lemma keys_set_absent {V : Type} (k : pystr) (v : V) (d : Dict.t V) :
  ~ In k (Dict.keys d) -> Dict.keys (Dict.set k v d) = Dict.keys d ++ [k].
Proof.
  intros H. rewrite (DictFacts.set_absent k v d H).
  unfold Dict.keys. now rewrite map_app.
Qed.

Lemma get_del_same {V : Type} (k : pystr) (d : Dict.t V) :
  NoDup (Dict.keys d) -> Dict.get k (Dict.del k d) = None.
Proof.
  induction d as [|[k0 v0] d IH]; cbn; [reflexivity|].
  intros H. inversion H as [|a l Hn Hd]; subst.
  destruct (StrFacts.eqb_spec k0 k) as [E|E].
  - subst. now apply DictFacts.get_none_notin.
  - cbn. destruct (StrFacts.eqb_spec k0 k); [contradiction|]. now apply IH.
Qed.

Section WithConfig.
Variable rt : PyRuntime.
Variable cfg : BotConfig.

(** *** Tidy texts *)

Lemma tidy_name_strip (n : pystr) (x : unit) :
  _validate_list_name cfg n = inr x ->
  tidy_text (max_list_name_length cfg) (Str.strip n).
Proof.
  intros H. apply Invariant.validate_list_name_ok in H as [H1 H2].
  repeat split; [exact H1|apply StrFacts.strip_idem|exact H2].
Qed.

Lemma tidy_item_strip (s : pystr) (x : unit) :
  _validate_item cfg s = inr x -> tidy_text (max_item_length cfg) (Str.strip s).
Proof.
  intros H. apply Invariant.validate_item_ok in H as (_ & H1 & H2).
  repeat split; [exact H1|apply StrFacts.strip_idem|exact H2].
Qed.

Lemma tidy_item_valid (s : pystr) (x : unit) :
  Str.strip s = s -> _validate_item cfg s = inr x ->
  tidy_text (max_item_length cfg) s.
Proof. intros E H. rewrite <- E. eapply tidy_item_strip. eassumption. Qed.

(** The loop of add_multiple_items keeps a list tidy, when its candidates
    are trimmed, and makes it longer by the number of candidates at most. *)
Lemma spec_add_many_tidy (cands : list pystr) :
  forall (content : list pystr) (t : Tally),
    Forall (fun c => Str.strip c = c) cands ->
    NoDup content ->
    Forall (tidy_text (max_item_length cfg)) content ->
    NoDup (fst (spec_add_many cfg content cands t))
    /\ Forall (tidy_text (max_item_length cfg)) (fst (spec_add_many cfg content cands t))
    /\ (List.length (fst (spec_add_many cfg content cands t))
        <= List.length content + List.length cands)%nat.
Proof.
  induction cands as [|c r IH]; intros content t Hc Hnd Hall; cbn [spec_add_many].
  - cbn [fst List.length]. repeat split; [assumption|assumption|lia].
  - inversion Hc as [|a l Hs Hr]; subst.
    pose proof (Writes.validate_item_spec cfg c) as Hv.
    destruct (spec_valid cfg c); cbn [negb].
    + destruct (existsb (Str.eqb c) content) eqn:E.
      * destruct (IH content (tally t c Skipped) Hr Hnd Hall) as (H1 & H2 & H3).
        repeat split; [assumption|assumption|cbn [List.length]; lia].
      * apply existsb_eqb_false in E.
        destruct (IH (content ++ [c]) (tally t c Added) Hr) as (H1 & H2 & H3).
        { apply NoDup_app; [exact Hnd|repeat constructor; intros []|].
          intros a Ha [<-|[]]. contradiction. }
        { apply Forall_app. split; [exact Hall|]. constructor; [|constructor].
          eapply tidy_item_valid; eassumption. }
        repeat split; [assumption|assumption|].
        rewrite length_app in H3. cbn [List.length] in *. lia.
    + destruct (IH content (tally t c Invalid) Hr Hnd Hall) as (H1 & H2 & H3).
      repeat split; [assumption|assumption|cbn [List.length]; lia].
Qed.

Lemma split_items_trimmed (text : pystr) :
  Forall (fun c => Str.strip c = c) (split_items text).
Proof.
  unfold split_items. apply Forall_map. apply Forall_forall. intros x _.
  apply StrFacts.strip_idem.
Qed.

(** *** Every write keeps the collection tidy *)

Lemma tidy_get (ls : Dict.t PyVal) (k : pystr) (v : PyVal) :
  tidy cfg ls -> Dict.get k ls = Some v ->
  tidy_text (max_list_name_length cfg) k /\ tidy_list cfg v.
Proof.
  intros [H _] Hg.
  exact (Forall_get (fun kv => tidy_text (max_list_name_length cfg) (fst kv)
                               /\ tidy_list cfg (snd kv)) k v ls H Hg).
Qed.

Lemma tidy_update (ls : Dict.t PyVal) (k : pystr) (v v' : PyVal) :
  tidy cfg ls -> Dict.get k ls = Some v -> tidy_list cfg v' ->
  tidy cfg (Dict.set k v' ls).
Proof.
  intros Ht Hg Hv'. destruct (tidy_get ls k v Ht Hg) as [Hk _].
  destruct Ht as [Hall Hlen]. split.
  - apply Forall_set; [exact Hall|]. now split.
  - rewrite length_set.
    assert (E : existsb (Str.eqb k) (Dict.keys ls) = true).
    { apply existsb_eqb_true. eapply DictFacts.get_some_in; eassumption. }
    now rewrite E.
Qed.

Lemma effect_tidy (c : Call) (ls ls' : Dict.t PyVal) :
  tidy cfg ls -> effect rt cfg c ls = Some ls' -> tidy cfg ls'.
Proof.
  intros Ht. destruct c; cbn [effect]; try discriminate.
  - (* create_list *)
    destruct (_validate_list_name cfg list_name) as [e|[]] eqn:Hv; [discriminate|].
    unfold _check_list_limit.
    destruct (Z.geb_spec (Z.of_nat (List.length ls)) (max_lists_per_user cfg));
      [discriminate|].
    destruct (resolved _); [discriminate|]. intros [= <-].
    destruct Ht as [Hall Hlen]. split.
    + apply Forall_set; [exact Hall|]. split; [eapply tidy_name_strip; eassumption|].
      exists []. repeat split; [constructor|constructor|cbn; lia].
    + rewrite length_set. destruct (existsb _ _); lia.
  - (* add_item *)
    destruct (_validate_item cfg item) as [e|[]] eqn:Hv; [discriminate|].
    destruct (resolved _) as [k|]; [|discriminate].
    destruct (Dict.get k ls) as [v|] eqn:Hg; [|discriminate].
    destruct (tidy_get ls k v Ht Hg) as [_ (items & -> & Hnd & Hall & Hlen)].
    cbn [Py.len]. rewrite Writes.contains_typed. rewrite length_map.
    destruct (existsb (Str.eqb (Str.strip item)) items) eqn:E; [discriminate|].
    cbn [Py.append].
    destruct (Z.geb_spec (Z.of_nat (List.length items)) (max_items_per_list cfg));
      [discriminate|].
    intros [= <-]. eapply tidy_update; [exact Ht|exact Hg|].
    exists (items ++ [Str.strip item]). apply existsb_eqb_false in E.
    repeat split.
    + now rewrite map_app.
    + apply NoDup_app; [exact Hnd|repeat constructor; intros []|].
      intros a Ha [<-|[]]. contradiction.
    + apply Forall_app. split; [exact Hall|]. constructor; [|constructor].
      eapply tidy_item_strip; eassumption.
    + rewrite length_app. cbn. lia.
  - (* add_multiple_items *)
    destruct (resolved _) as [k|]; [|discriminate].
    pose proof (split_items_trimmed items_text) as Htrim.
    destruct (split_items items_text) as [|i cands]; [discriminate|].
    destruct (Dict.get k ls) as [v|] eqn:Hg; [|discriminate].
    destruct (tidy_get ls k v Ht Hg) as [_ (items & -> & Hnd & Hall & Hlen)].
    cbn [Py.len]. rewrite length_map.
    destruct (Z.gtb_spec (Z.of_nat (List.length items)
                          + Z.of_nat (List.length (i :: cands)))
                (max_items_per_list cfg)); [discriminate|].
    rewrite (Writes.add_all_typed cfg).
    destruct (spec_add_many_tidy (i :: cands) items no_items Htrim Hnd Hall)
      as (H1 & H2 & H3).
    set (out := spec_add_many cfg items (i :: cands) no_items) in *.
    clearbody out.
    destruct (added_items _); [discriminate|]. intros [= <-].
    eapply tidy_update; [exact Ht|exact Hg|].
    exists (fst out). repeat split; [assumption|assumption|lia].
  - (* remove_item *)
    destruct (resolved _) as [k|]; [|discriminate].
    destruct (Dict.get k ls) as [v|] eqn:Hg; [|discriminate].
    destruct (tidy_get ls k v Ht Hg) as [_ (items & -> & Hnd & Hall & Hlen)].
    rewrite Writes.contains_typed. cbn [Py.remove]. rewrite remove_first_typed.
    destruct (existsb (Str.eqb (Str.strip item)) items) eqn:E; [|discriminate].
    intros [= <-]. eapply tidy_update; [exact Ht|exact Hg|].
    exists (without (Str.strip item) items). apply existsb_eqb_true in E.
    pose proof (without_length _ _ E).
    repeat split; [now apply without_nodup|now apply without_Forall|lia].
  - (* delete_list *)
    destruct (resolved _) as [k|]; [|discriminate].
    destruct (Dict.get k ls) as [v|]; [|discriminate]. intros [= <-].
    destruct Ht as [Hall Hlen]. split; [now apply Forall_del|].
    pose proof (length_del k ls). lia.
Qed.

Lemma call_sound (c : Call) (st : State) :
  sound rt cfg (lists st) -> sound rt cfg (lists (snd (call rt cfg c st))).
Proof.
  intros [Hinv Ht]. split; [now apply Invariant.call_invariant|].
  destruct (mutating c) eqn:Hm.
  - pose proof (Effect.call_effect rt cfg c st Hm) as H.
    destruct (effect rt cfg c (lists st)) as [ls'|] eqn:He.
    + destruct H as (-> & _). eapply effect_tidy; eassumption.
    + destruct H as (-> & _). exact Ht.
  - destruct (Reads.read_only rt cfg c st Hm) as [-> _]. exact Ht.
Qed.

Lemma run_sound (evs : list Event) (st : State) :
  sound rt cfg (lists st) -> sound rt cfg (lists (run rt cfg evs st)).
Proof.
  unfold run. revert st. induction evs as [|ev evs IH]; intros st H; cbn; [exact H|].
  apply IH. destruct ev as [c|env]; cbn [step]; [now apply call_sound|exact H].
Qed.

Lemma reachable_sound (evs : list Event) (st0 : State) :
  lists st0 = [] -> sound rt cfg (lists (run rt cfg evs st0)).
Proof.
  intros H. apply run_sound. rewrite H. split.
  - apply Invariant.invariant_empty.
  - split; [constructor|cbn; lia].
Qed.

(** A tidy list is a list of strings. *)
Lemma tidy_well_typed (ls : Dict.t PyVal) : tidy cfg ls -> well_typed ls = true.
Proof.
  intros [H _]. unfold well_typed. apply forallb_forall. intros kv HIn.
  rewrite Forall_forall in H. destruct (H kv HIn) as [_ (items & -> & _)].
  cbn. apply forallb_forall. intros x Hx. apply in_map_iff in Hx as (s & <- & _).
  reflexivity.
Qed.

Lemma invariant_keys_nodup (ls : Dict.t PyVal) :
  invariant rt ls -> NoDup (Dict.keys ls).
Proof. intros (H & _). eapply NoDup_map_inv. exact H. Qed.

End WithConfig.

End Tidy.


(** * One call after another *)

Module Steps.

#[local] Arguments Str.strip : simpl never.
#[local] Arguments Json.dumps : simpl never.
#[local] Arguments u : simpl never.

Section WithConfig.
Variable rt : PyRuntime.
Variable cfg : BotConfig.

(** *** Name resolution looks at the keys only *)

Lemma find_keys (ls ls' : Dict.t PyVal) (n : pystr) :
  Dict.keys ls' = Dict.keys ls ->
  _find_list_name rt ls' n = _find_list_name rt ls n.
Proof. unfold _find_list_name. now intros ->. Qed.

Lemma find_first_app (t k : pystr) (ks : list pystr) :
  Forall (fun k' => lower rt k' <> t) ks -> lower rt k = t ->
  find_first_lower rt t (ks ++ [k]) = Some k.
Proof.
  intros H Hk. induction H as [|k0 ks H0 H IH]; cbn.
  - rewrite Hk. now rewrite StrFacts.eqb_refl.
  - destruct (StrFacts.eqb_spec (lower rt k0) t); [contradiction|exact IH].
Qed.

Lemma find_first_absent (t : pystr) (ks : list pystr) :
  Forall (fun k' => lower rt k' <> t) ks -> find_first_lower rt t ks = None.
Proof.
  intros H. induction H as [|k0 ks H0 H IH]; cbn; [reflexivity|].
  destruct (StrFacts.eqb_spec (lower rt k0) t); [contradiction|exact IH].
Qed.

(** With names that differ when lowercased, a name resolves to at most one
    key. *)
Lemma NoDup_map_inj {A B : Type} (f : A -> B) (l : list A) (a b : A) :
  NoDup (map f l) -> In a l -> In b l -> f a = f b -> a = b.
Proof.
  induction l as [|x l IH]; cbn; [intros _ []|].
  intros H Ha Hb E. inversion H as [|y m Hn Hd]; subst.
  destruct Ha as [<-|Ha], Hb as [<-|Hb]; [reflexivity| | |now apply IH].
  - exfalso. apply Hn. rewrite E. now apply in_map.
  - exfalso. apply Hn. rewrite <- E. now apply in_map.
Qed.

(** *** What the state holds after a writing method *)

Lemma wts_lists (g : pystr) (o : option (Dict.t PyVal)) (st : State)
    (r : Outcome pystr * State) :
  writes_then_saves cfg g o st r ->
  lists (snd r) = match o with Some ls' => ls' | None => lists st end.
Proof. intros [_ H]. destruct o; now destruct H. Qed.

Lemma create_list_state (n : pystr) (st : State) :
  lists (snd (create_list rt cfg n st))
  = match effect rt cfg (CreateList n) (lists st) with
    | Some ls' => ls'
    | None => lists st
    end.
Proof. eapply wts_lists. apply Effect.create_list_effect. Qed.

Lemma add_item_state (n x : pystr) (st : State) :
  lists (snd (add_item rt cfg n x st))
  = match effect rt cfg (AddItem n x) (lists st) with
    | Some ls' => ls'
    | None => lists st
    end.
Proof. eapply wts_lists. apply Effect.add_item_effect. Qed.

Lemma remove_item_state (n x : pystr) (st : State) :
  lists (snd (remove_item rt cfg n x st))
  = match effect rt cfg (RemoveItem n x) (lists st) with
    | Some ls' => ls'
    | None => lists st
    end.
Proof. eapply wts_lists. apply Effect.remove_item_effect. Qed.

Lemma delete_list_state (n : pystr) (st : State) :
  lists (snd (delete_list rt cfg n st))
  = match effect rt cfg (DeleteList n) (lists st) with
    | Some ls' => ls'
    | None => lists st
    end.
Proof. eapply wts_lists. apply Effect.delete_list_effect. Qed.

Lemma add_multiple_items_state (n text : pystr) (st : State) :
  lists (snd (add_multiple_items rt cfg n text st))
  = match effect rt cfg (AddMultipleItems n text) (lists st) with
    | Some ls' => ls'
    | None => lists st
    end.
Proof. eapply wts_lists. apply Effect.add_multiple_items_effect. Qed.

(** *** What a write was, when there was one *)

Lemma create_effect_inv (n : pystr) (ls ls' : Dict.t PyVal) :
  effect rt cfg (CreateList n) ls = Some ls' ->
  _validate_list_name cfg n = inr tt
  /\ (Z.of_nat (List.length ls) < max_lists_per_user cfg)%Z
  /\ resolved (_find_list_name rt ls (Str.strip n)) = None
  /\ ls' = Dict.set (Str.strip n) (VList []) ls.
Proof.
  cbn [effect].
  destruct (_validate_list_name cfg n) as [|[]]; [discriminate|].
  unfold _check_list_limit.
  destruct (Z.geb_spec (Z.of_nat (List.length ls)) (max_lists_per_user cfg));
    [discriminate|].
  destruct (resolved _); [discriminate|]. intros [= <-]. repeat split. lia.
Qed.

Lemma add_effect_inv (n x : pystr) (ls ls' : Dict.t PyVal) :
  effect rt cfg (AddItem n x) ls = Some ls' ->
  exists k l,
    _validate_item cfg x = inr tt
    /\ resolved (_find_list_name rt ls n) = Some k
    /\ Dict.get k ls = Some (VList l)
    /\ existsb (Py.is_str (Str.strip x)) l = false
    /\ (Z.of_nat (List.length l) < max_items_per_list cfg)%Z
    /\ ls' = Dict.set k (VList (l ++ [VStr (Str.strip x)])) ls.
Proof.
  cbn [effect].
  destruct (_validate_item cfg x) as [|[]]; [discriminate|].
  destruct (resolved _) as [k|]; [|discriminate].
  destruct (Dict.get k ls) as [v|] eqn:Hg; [|discriminate].
  destruct (Py.len v) as [|len] eqn:Hlen; [discriminate|].
  destruct (Py.contains _ v) as [|[]] eqn:Hc; try discriminate.
  destruct (Py.append _ v) as [|v'] eqn:Ha; [discriminate|].
  destruct (Z.geb_spec len (max_items_per_list cfg)); [discriminate|].
  intros [= <-]. destruct v; try discriminate.
  cbn in Hlen, Hc, Ha. injection Hlen as <-. injection Hc as Hc. injection Ha as <-.
  exists k, l. repeat split; [exact Hg|exact Hc|lia].
Qed.

Lemma remove_effect_inv (n x : pystr) (ls ls' : Dict.t PyVal) :
  effect rt cfg (RemoveItem n x) ls = Some ls' ->
  exists k l l',
    resolved (_find_list_name rt ls n) = Some k
    /\ Dict.get k ls = Some (VList l)
    /\ Py.remove_first (Str.strip x) l = Some l'
    /\ ls' = Dict.set k (VList l') ls.
Proof.
  cbn [effect].
  destruct (resolved _) as [k|]; [|discriminate].
  destruct (Dict.get k ls) as [v|] eqn:Hg; [|discriminate].
  destruct (Py.contains _ v) as [|[]] eqn:Hc; try discriminate.
  destruct (Py.remove _ v) as [|v'] eqn:Hr; [discriminate|].
  intros [= <-]. destruct v; try discriminate. cbn in Hr.
  destruct (Py.remove_first (Str.strip x) l) as [l'|] eqn:E; [|discriminate].
  injection Hr as <-. exists k, l, l'. repeat split; [exact Hg|exact E].
Qed.

Lemma delete_effect_inv (n : pystr) (ls ls' : Dict.t PyVal) :
  effect rt cfg (DeleteList n) ls = Some ls' ->
  exists k v,
    resolved (_find_list_name rt ls n) = Some k
    /\ Dict.get k ls = Some v
    /\ ls' = Dict.del k ls.
Proof.
  cbn [effect].
  destruct (resolved _) as [k|]; [|discriminate].
  destruct (Dict.get k ls) as [v|] eqn:Hg; [|discriminate].
  intros [= <-]. exists k, v. now repeat split.
Qed.

(** A method that changed the collection made the write [effect] gives. *)
Lemma changed (o : option (Dict.t PyVal)) (ls now : Dict.t PyVal) :
  now = match o with Some ls' => ls' | None => ls end ->
  now <> ls -> o = Some now.
Proof. destruct o; intros -> H; [reflexivity|contradiction]. Qed.

(** *** Lists *)

Lemma remove_first_app_last (x : pystr) (l : list PyVal) :
  existsb (Py.is_str x) l = false ->
  Py.remove_first x (l ++ [VStr x]) = Some l.
Proof.
  induction l as [|y l IH]; cbn.
  - now rewrite StrFacts.eqb_refl.
  - intros H. apply orb_false_iff in H as [Hy Hl]. rewrite Hy.
    now rewrite (IH Hl).
Qed.

Lemma existsb_app_last (x : pystr) (l : list PyVal) :
  existsb (Py.is_str x) (l ++ [VStr x]) = true.
Proof.
  rewrite existsb_app. cbn. rewrite StrFacts.eqb_refl. now rewrite orb_true_r.
Qed.

(** *** The tail of a writing method, on a state whose save is known *)

Lemma then_save_ok (done ok : pystr) (h : Exn -> M pystr) (st : State) :
  fst (_save_data cfg st) = Ret tt ->
  fst (then_save cfg done ok h st) = Ret ok.
Proof.
  intros H. rewrite Cases.then_save_cases.
  destruct (_save_data cfg st) as [[[]|e] st']; cbn in *; [reflexivity|discriminate].
Qed.

Lemma then_save_lists (done ok : pystr) (h : Exn -> M pystr) (st : State) :
  quiet h -> lists (snd (then_save cfg done ok h st)) = lists st.
Proof.
  intros Hq. rewrite Cases.then_save_cases.
  pose proof (PersistFacts.save_lists cfg st) as Hl.
  destruct (_save_data cfg st) as [[[]|e] st']; cbn in *; [exact Hl|].
  destruct (Hq e st') as (s & entry & ->). exact Hl.
Qed.

(** *** A list that was just created

    It sits last, with no item, under a name that was not there, and
    every spelling of its name finds it. *)
Lemma created (st : State) (n : pystr) :
  ~ In [] (Dict.keys (lists st)) ->
  let st1 := snd (create_list rt cfg n st) in
  lists st1 <> lists st ->
  let name := Str.strip n in
  ~ In name (Dict.keys (lists st))
  /\ lists st1 = Dict.set name (VList []) (lists st)
  /\ lists st1 = lists st ++ [(name, VList [])]
  /\ Dict.get name (lists st1) = Some (VList [])
  /\ (forall n', lower rt n' = lower rt name ->
        resolved (_find_list_name rt (lists st1) n') = Some name).
Proof.
  intros Hne st1 Hch name.
  pose proof (changed _ _ _ (create_list_state n st) Hch) as He.
  fold st1 in He. apply create_effect_inv in He as (Hv & _ & Hr & E1).
  fold name in Hr, E1.
  apply Invariant.validate_list_name_ok in Hv as [Hname _]. fold name in Hname.
  assert (Hfind : _find_list_name rt (lists st) name = None).
  { apply Resolve.resolved_none in Hr as [Hr|Hr]; [exact Hr|].
    apply Resolve.find_some in Hr as [HIn _]. contradiction. }
  assert (Hnew : Forall (fun k => lower rt k <> lower rt name) (Dict.keys (lists st))).
  { apply Forall_forall. apply Resolve.find_none. exact Hfind. }
  assert (Habs : ~ In name (Dict.keys (lists st))).
  { intros HIn. rewrite Forall_forall in Hnew. now apply (Hnew _ HIn). }
  split; [exact Habs|]. split; [exact E1|].
  split; [rewrite E1; now apply DictFacts.set_absent|].
  split; [rewrite E1; apply DictFacts.get_set_same|].
  intros n' Hn'. unfold _find_list_name. rewrite E1, Tidy.keys_set_absent by exact Habs.
  rewrite Hn', find_first_app by (exact Hnew || reflexivity).
  destruct name; [contradiction|reflexivity].
Qed.

End WithConfig.

End Steps.


(** * More properties of the list store *)

#[local] Arguments Str.strip : simpl never.

(** ** What every reachable collection looks like *)

(** X1.  The limits hold in every state an object reaches from its empty
    start through the public methods, whatever happens to the files in
    between: the collection never holds more than max_lists_per_user
    lists, and no list more than max_items_per_list items (no list and no
    item at all when the limit is zero or negative). *)
Theorem limits_are_kept (rt : PyRuntime) (cfg : BotConfig) (evs : list Event)
    (env : State) :
  let st := run rt cfg evs (with_lists [] env) in
  (Z.of_nat (List.length (lists st)) <= Z.max 0 (max_lists_per_user cfg))%Z
  /\ Forall (fun kv =>
               exists items,
                 snd kv = VList (map VStr items)
                 /\ (Z.of_nat (List.length items)
                     <= Z.max 0 (max_items_per_list cfg))%Z)
       (lists st).
Proof.
  intros st.
  destruct (Tidy.reachable_sound rt cfg evs (with_lists [] env) eq_refl)
    as [_ [Hall Hlen]].
  fold st in Hall, Hlen. split; [exact Hlen|].
  eapply Forall_impl; [|exact Hall].
  intros kv [_ (items & E & _ & _ & H)]. eauto.
Qed.

(** X2.  In every reachable state, every list holds strings that are
    pairwise different, not empty, free of spaces at either end, and no
    longer than max_item_length: what add_item and add_multiple_items store
    is the validated, trimmed item, and neither stores an item twice. *)
Theorem stored_items_are_clean (rt : PyRuntime) (cfg : BotConfig)
    (evs : list Event) (env : State) :
  let st := run rt cfg evs (with_lists [] env) in
  Forall (fun kv =>
            exists items,
              snd kv = VList (map VStr items)
              /\ NoDup items
              /\ Forall (fun x => x <> [] /\ Str.strip x = x
                                  /\ (Str.len x <= max_item_length cfg)%Z) items)
    (lists st).
Proof.
  intros st.
  destruct (Tidy.reachable_sound rt cfg evs (with_lists [] env) eq_refl)
    as [_ [Hall _]].
  fold st in Hall. eapply Forall_impl; [|exact Hall].
  intros kv [_ (items & E & Hnd & Hi & _)]. exists items. auto.
Qed.

(** X3.  In every reachable state, every list name is not empty, free of
    spaces at either end, and no longer than max_list_name_length, and no
    name occurs twice: create_list stores the validated, trimmed name. *)
Theorem stored_names_are_clean (rt : PyRuntime) (cfg : BotConfig)
    (evs : list Event) (env : State) :
  let st := run rt cfg evs (with_lists [] env) in
  Forall (fun k => k <> [] /\ Str.strip k = k
                   /\ (Str.len k <= max_list_name_length cfg)%Z)
    (Dict.keys (lists st))
  /\ NoDup (Dict.keys (lists st)).
Proof.
  intros st.
  destruct (Tidy.reachable_sound rt cfg evs (with_lists [] env) eq_refl)
    as [Hinv [Hall _]].
  fold st in Hall, Hinv. split.
  - unfold Dict.keys. apply Forall_map. eapply Forall_impl; [|exact Hall].
    intros kv [H _]. exact H.
  - eapply Tidy.invariant_keys_nodup. exact Hinv.
Qed.

(** ** One call after another *)

(** X4.  remove_item undoes add_item.  When add_item(n, x) changed the
    collection, remove_item(n, x) right after it puts the collection back
    as it was before the two calls, and answers with the removed message
    for the trimmed item when its save works. *)
Theorem add_then_remove (rt : PyRuntime) (cfg : BotConfig) (st : State)
    (n x : pystr) :
  let st1 := snd (add_item rt cfg n x st) in
  lists st1 <> lists st ->
  let r := remove_item rt cfg n x st1 in
  lists (snd r) = lists st
  /\ exists k,
       resolved (_find_list_name rt (lists st) n) = Some k
       /\ (fst (_save_data cfg (with_lists (lists st) st1)) = Ret tt ->
           fst r = Ret (Messages.ITEM_REMOVED (Str.strip x) k)).
Proof.
  intros st1 Hch r.
  pose proof (Steps.changed _ _ _ (Steps.add_item_state rt cfg n x st) Hch) as He.
  fold st1 in He.
  apply Steps.add_effect_inv in He as (k & l & Hv & Hr & Hg & Habs & Hlen & E1).
  assert (Hk : Dict.keys (lists st1) = Dict.keys (lists st)).
  { rewrite E1. apply DictFacts.keys_set_present.
    eapply DictFacts.get_some_in. exact Hg. }
  assert (Hback : Dict.set k (VList l) (lists st1) = lists st).
  { rewrite E1, DictFacts.set_set. now apply DictFacts.set_get_same. }
  assert (Hcases := Cases.remove_item_cases rt cfg n x st1). fold r in Hcases.
  rewrite (Steps.find_keys rt _ _ n Hk), Hr in Hcases.
  rewrite E1 in Hcases at 1. rewrite DictFacts.get_set_same in Hcases.
  cbn [Py.contains Py.remove] in Hcases.
  rewrite Steps.existsb_app_last, (Steps.remove_first_app_last _ _ Habs) in Hcases.
  rewrite Hback in Hcases. rewrite Hcases. split.
  - rewrite Steps.then_save_lists; [reflexivity|apply Effect.remove_item_except_quiet].
  - exists k. split; [exact Hr|]. intros Hs. now apply Steps.then_save_ok.
Qed.

Lemma add_then_remove_witness :
  lists (snd (add_item ascii_runtime default_config (u "groceries") (u " milk ")
                groceries_only))
  <> lists groceries_only
  /\ lists (snd (remove_item ascii_runtime default_config (u "groceries") (u " milk ")
                   (snd (add_item ascii_runtime default_config (u "groceries")
                           (u " milk ") groceries_only))))
     = lists groceries_only.
Proof.
  assert (H : lists (snd (add_item ascii_runtime default_config (u "groceries")
                            (u " milk ") groceries_only))
              <> lists groceries_only) by (vm_compute; discriminate).
  split; [exact H|].
  exact (proj1 (add_then_remove ascii_runtime default_config groceries_only
                  (u "groceries") (u " milk ") H)).
Defined.

(** X5.  A list that was just created is there, empty, and can be deleted
    again.  When create_list(n) changed a collection that has no list with
    the empty name, the new list sits last under the trimmed name with no
    item; show_list finds it under every spelling with the same lowercase
    form and says it is empty; and delete_list with the trimmed name puts
    the collection back as it was, answering with the deleted message when
    its save works. *)
Theorem create_then_delete (rt : PyRuntime) (cfg : BotConfig) (st : State)
    (n : pystr) :
  ~ In [] (Dict.keys (lists st)) ->
  let st1 := snd (create_list rt cfg n st) in
  lists st1 <> lists st ->
  let name := Str.strip n in
  lists st1 = lists st ++ [(name, VList [])]
  /\ (forall n', lower rt n' = lower rt name ->
        fst (show_list rt n' st1) = Ret (Messages.EMPTY_LIST name))
  /\ lists (snd (delete_list rt cfg name st1)) = lists st
  /\ (fst (_save_data cfg (with_lists (lists st) st1)) = Ret tt ->
      fst (delete_list rt cfg name st1) = Ret (Messages.LIST_DELETED name)).
Proof.
  intros Hne st1 Hch name.
  destruct (Steps.created rt cfg st n Hne Hch) as (Habs & E1 & E2 & Hget & Hres).
  fold st1 name in Habs, E1, E2, Hget, Hres.
  assert (Hdel : Dict.del name (lists st1) = lists st).
  { rewrite E1. now apply Tidy.del_set_absent. }
  split; [exact E2|]. split; [|split].
  - intros n' Hn'. unfold show_list, show_list_under, catch, bind, get_lists, getitem.
    rewrite (Hres n' Hn'), Hget. reflexivity.
  - rewrite Steps.delete_list_state. cbn [effect].
    now rewrite (Hres name eq_refl), Hget.
  - intros Hs. rewrite Cases.delete_list_cases, (Hres name eq_refl), Hget, Hdel.
    now apply Steps.then_save_ok.
Qed.

Lemma create_then_delete_witness :
  ~ In [] (Dict.keys (lists groceries_only))
  /\ lists (snd (create_list ascii_runtime default_config (u " Work ") groceries_only))
     <> lists groceries_only
  /\ fst (show_list ascii_runtime (u "WORK")
            (snd (create_list ascii_runtime default_config (u " Work ") groceries_only)))
     = Ret (Messages.EMPTY_LIST (Str.strip (u " Work ")))
  /\ lists (snd (delete_list ascii_runtime default_config (Str.strip (u " Work "))
                   (snd (create_list ascii_runtime default_config (u " Work ")
                           groceries_only))))
     = lists groceries_only.
Proof.
  assert (H0 : ~ In [] (Dict.keys (lists groceries_only))).
  { cbn. intros [H|[]]. discriminate H. }
  assert (H : lists (snd (create_list ascii_runtime default_config (u " Work ")
                            groceries_only))
              <> lists groceries_only) by (vm_compute; discriminate).
  split; [exact H0|]. split; [exact H|].
  pose proof (create_then_delete ascii_runtime default_config groceries_only
                (u " Work ") H0 H) as (_ & Hshow & Hdel & _).
  split; [apply Hshow; reflexivity|exact Hdel].
Defined.

(** X6.  Adding the same item twice.  For a valid item and a name that
    resolves to a list, the second of two equal add_item calls never
    changes the collection; it answers with the limit message when the
    list holds max_items_per_list items by then, since the limit is
    checked before the duplicate, and with the already-in-list message
    otherwise. *)
Theorem add_item_twice (rt : PyRuntime) (cfg : BotConfig) (st : State)
    (n x k : pystr) (l : list PyVal) :
  _validate_item cfg x = inr tt ->
  resolved (_find_list_name rt (lists st) n) = Some k ->
  Dict.get k (lists st) = Some (VList l) ->
  let st1 := snd (add_item rt cfg n x st) in
  let r2 := add_item rt cfg n x st1 in
  exists l1,
    Dict.get k (lists st1) = Some (VList l1)
    /\ lists (snd r2) = lists st1
    /\ fst r2 =
       if (Z.of_nat (List.length l1) >=? max_items_per_list cfg)%Z
       then Ret (Messages.TOO_MANY_ITEMS (max_items_per_list cfg))
       else Ret (Messages.ITEM_EXISTS (Str.strip x) k).
Proof.
  intros Hv Hr Hg st1 r2.
  assert (Hst1 : exists l1,
            Dict.get k (lists st1) = Some (VList l1)
            /\ Dict.keys (lists st1) = Dict.keys (lists st)
            /\ ((Z.of_nat (List.length l1) >=? max_items_per_list cfg)%Z = true
                \/ existsb (Py.is_str (Str.strip x)) l1 = true)).
  { subst st1. rewrite Steps.add_item_state.
    destruct (effect rt cfg (AddItem n x) (lists st)) as [ls'|] eqn:He.
    - apply Steps.add_effect_inv in He as (k' & l' & _ & Hr' & Hg' & _ & _ & ->).
      assert (k' = k) by congruence. subst k'.
      assert (l' = l) by congruence. subst l'.
      exists (l ++ [VStr (Str.strip x)]). split; [apply DictFacts.get_set_same|].
      split; [|right; apply Steps.existsb_app_last].
      apply DictFacts.keys_set_present. eapply DictFacts.get_some_in. exact Hg.
    - exists l. split; [exact Hg|]. split; [reflexivity|].
      cbn [effect] in He. rewrite Hv, Hr, Hg in He. cbn [Py.len Py.contains Py.append] in He.
      destruct (existsb (Py.is_str (Str.strip x)) l); [now right|].
      destruct (Z.of_nat (List.length l) >=? max_items_per_list cfg)%Z;
        [now left|discriminate]. }
  destruct Hst1 as (l1 & Hg1 & Hk1 & Hwhy). exists l1. split; [exact Hg1|].
  assert (Hr1 : resolved (_find_list_name rt (lists st1) n) = Some k)
    by now rewrite (Steps.find_keys rt _ _ n Hk1).
  split.
  - subst r2. rewrite Steps.add_item_state. cbn [effect].
    rewrite Hv, Hr1, Hg1. cbn [Py.len Py.contains Py.append].
    destruct (existsb (Py.is_str (Str.strip x)) l1) eqn:Ex; [reflexivity|].
    destruct Hwhy as [Hfull|Hdup]; [now rewrite Hfull|discriminate].
  - subst r2. rewrite Cases.add_item_cases, Hv, Hr1, Effect.check_item_limit_cases, Hg1.
    cbn [Py.len Py.contains].
    destruct (Z.of_nat (List.length l1) >=? max_items_per_list cfg)%Z eqn:Hfull;
      [reflexivity|].
    destruct Hwhy as [Hf|Hdup]; [discriminate|]. now rewrite Hdup.
Qed.

Lemma add_item_twice_witness :
  _validate_item default_config (u "milk") = inr tt
  /\ resolved (_find_list_name ascii_runtime (lists groceries_only) (u "Groceries"))
     = Some (u "groceries")
  /\ Dict.get (u "groceries") (lists groceries_only) = Some (VList [])
  /\ exists l1,
       Dict.get (u "groceries")
         (lists (snd (add_item ascii_runtime default_config (u "Groceries") (u "milk")
                        groceries_only)))
       = Some (VList l1)
       /\ lists (snd (add_item ascii_runtime default_config (u "Groceries") (u "milk")
                        (snd (add_item ascii_runtime default_config (u "Groceries")
                                (u "milk") groceries_only))))
          = lists (snd (add_item ascii_runtime default_config (u "Groceries") (u "milk")
                          groceries_only))
       /\ fst (add_item ascii_runtime default_config (u "Groceries") (u "milk")
                 (snd (add_item ascii_runtime default_config (u "Groceries")
                         (u "milk") groceries_only)))
          = if (Z.of_nat (List.length l1) >=? max_items_per_list default_config)%Z
            then Ret (Messages.TOO_MANY_ITEMS (max_items_per_list default_config))
            else Ret (Messages.ITEM_EXISTS (Str.strip (u "milk")) (u "groceries")).
Proof.
  split; [reflexivity|]. split; [reflexivity|]. split; [reflexivity|].
  exact (add_item_twice ascii_runtime default_config groceries_only
           (u "Groceries") (u "milk") (u "groceries") [] eq_refl eq_refl eq_refl).
Defined.

(** X7.  A deleted list is gone.  In every reachable state, when a name
    resolves, delete_list takes exactly that key out of the collection
    (also when its save fails), and afterwards the same name is not found
    any more: show_list and a second delete_list answer with the not-found
    message. *)
Theorem delete_then_gone (rt : PyRuntime) (cfg : BotConfig) (evs : list Event)
    (env : State) (n k : pystr) :
  let st := run rt cfg evs (with_lists [] env) in
  resolved (_find_list_name rt (lists st) n) = Some k ->
  let st1 := snd (delete_list rt cfg n st) in
  lists st1 = Dict.del k (lists st)
  /\ Dict.get k (lists st1) = None
  /\ S (List.length (lists st1)) = List.length (lists st)
  /\ fst (show_list rt n st1) = Ret (Messages.LIST_NOT_FOUND n)
  /\ fst (delete_list rt cfg n st1) = Ret (Messages.LIST_NOT_FOUND n).
Proof.
  intros st Hr st1.
  destruct (Tidy.reachable_sound rt cfg evs (with_lists [] env) eq_refl)
    as [Hinv _].
  fold st in Hinv. pose proof (Tidy.invariant_keys_nodup rt _ Hinv) as Hnd.
  destruct (Resolve.resolved_in rt _ _ _ Hr) as (HIn & Hlow & _).
  destruct (DictFacts.in_get_some k (lists st) HIn) as [v Hg].
  assert (E1 : lists st1 = Dict.del k (lists st)).
  { subst st1. rewrite Steps.delete_list_state. cbn [effect]. now rewrite Hr, Hg. }
  assert (Hgone : resolved (_find_list_name rt (lists st1) n) = None).
  { unfold _find_list_name. rewrite Steps.find_first_absent; [reflexivity|].
    apply Forall_forall. intros k' Hk' Hl'. rewrite E1 in Hk'.
    assert (HIn' : In k' (Dict.keys (lists st)))
      by (eapply Invariant.keys_del_incl; exact Hk').
    destruct Hinv as (Hndl & _).
    assert (k' = k).
    { eapply (Steps.NoDup_map_inj (lower rt)); try eassumption. congruence. }
    subst k'. apply DictFacts.in_get_some in Hk' as [v' Hv'].
    rewrite (Tidy.get_del_same k (lists st) Hnd) in Hv'. discriminate. }
  split; [exact E1|]. split; [|split; [|split]].
  - rewrite E1. now apply Tidy.get_del_same.
  - rewrite E1. clear - Hg. revert Hg.
    induction (lists st) as [|[k0 v0] d IH]; cbn; [discriminate|].
    destruct (Str.eqb k0 k); [reflexivity|]. intros H. cbn. now rewrite (IH H).
  - unfold show_list, show_list_under, catch, bind, get_lists. now rewrite Hgone.
  - rewrite Cases.delete_list_cases. now rewrite Hgone.
Qed.

Lemma delete_then_gone_witness :
  resolved (_find_list_name ascii_runtime
              (lists (run ascii_runtime default_config
                        [Invoke (CreateList (u "Groceries"))] (with_lists [] fresh)))
              (u "groceries"))
  = Some (u "Groceries")
  /\ fst (show_list ascii_runtime (u "groceries")
            (snd (delete_list ascii_runtime default_config (u "groceries")
                    (run ascii_runtime default_config
                       [Invoke (CreateList (u "Groceries"))] (with_lists [] fresh)))))
     = Ret (Messages.LIST_NOT_FOUND (u "groceries")).
Proof.
  split; [reflexivity|].
  exact (proj1 (proj2 (proj2 (proj2
           (delete_then_gone ascii_runtime default_config
              [Invoke (CreateList (u "Groceries"))] fresh
              (u "groceries") (u "Groceries") eq_refl))))).
Defined.

(** X8.  A removed item is gone.  In every reachable state, when
    remove_item(n, x) changed the collection, the list is one item
    shorter and no longer holds the trimmed item, so the same call again
    answers with the item-not-found message and changes nothing. *)
Theorem remove_item_twice (rt : PyRuntime) (cfg : BotConfig) (evs : list Event)
    (env : State) (n x : pystr) :
  let st := run rt cfg evs (with_lists [] env) in
  let st1 := snd (remove_item rt cfg n x st) in
  lists st1 <> lists st ->
  exists k items,
    resolved (_find_list_name rt (lists st) n) = Some k
    /\ Dict.get k (lists st) = Some (VList (map VStr items))
    /\ In (Str.strip x) items
    /\ Dict.get k (lists st1) = Some (VList (map VStr (without (Str.strip x) items)))
    /\ ~ In (Str.strip x) (without (Str.strip x) items)
    /\ List.length items = S (List.length (without (Str.strip x) items))
    /\ fst (remove_item rt cfg n x st1) = Ret (Messages.ITEM_NOT_FOUND (Str.strip x) k)
    /\ lists (snd (remove_item rt cfg n x st1)) = lists st1.
Proof.
  intros st st1 Hch.
  destruct (Tidy.reachable_sound rt cfg evs (with_lists [] env) eq_refl)
    as [_ Ht].
  fold st in Ht.
  pose proof (Steps.changed _ _ _ (Steps.remove_item_state rt cfg n x st) Hch) as He.
  fold st1 in He.
  apply Steps.remove_effect_inv in He as (k & l & l' & Hr & Hg & Hrem & E1).
  destruct (Tidy.tidy_get cfg _ _ _ Ht Hg) as [_ (items & Hl & Hnd & _)].
  injection Hl as ->. rewrite Tidy.remove_first_typed in Hrem.
  destruct (existsb (Str.eqb (Str.strip x)) items) eqn:Ex; [|discriminate].
  injection Hrem as <-. apply Tidy.existsb_eqb_true in Ex.
  destruct (Tidy.without_nodup (Str.strip x) items Hnd) as [_ Hgone].
  assert (Hk : Dict.keys (lists st1) = Dict.keys (lists st)).
  { rewrite E1. apply DictFacts.keys_set_present.
    eapply DictFacts.get_some_in. exact Hg. }
  assert (Hr1 : resolved (_find_list_name rt (lists st1) n) = Some k)
    by now rewrite (Steps.find_keys rt _ _ n Hk).
  assert (Hg1 : Dict.get k (lists st1)
                = Some (VList (map VStr (without (Str.strip x) items)))).
  { rewrite E1. apply DictFacts.get_set_same. }
  exists k, items. split; [exact Hr|]. split; [exact Hg|]. split; [exact Ex|].
  split; [exact Hg1|]. split; [exact Hgone|].
  split; [now apply Tidy.without_length|].
  apply Tidy.existsb_eqb_false in Hgone. split.
  - rewrite Cases.remove_item_cases, Hr1, Hg1, Writes.contains_typed, Hgone.
    reflexivity.
  - rewrite Steps.remove_item_state. cbn [effect].
    now rewrite Hr1, Hg1, Writes.contains_typed, Hgone.
Qed.

Lemma remove_item_twice_witness :
  lists (snd (remove_item ascii_runtime default_config (u "groceries") (u "milk")
                (run ascii_runtime default_config
                   [Invoke (CreateList (u "Groceries"));
                    Invoke (AddItem (u "groceries") (u "milk"))]
                   (with_lists [] fresh))))
  <> lists (run ascii_runtime default_config
              [Invoke (CreateList (u "Groceries"));
               Invoke (AddItem (u "groceries") (u "milk"))]
              (with_lists [] fresh))
  /\ exists k items,
       resolved (_find_list_name ascii_runtime
                   (lists (run ascii_runtime default_config
                             [Invoke (CreateList (u "Groceries"));
                              Invoke (AddItem (u "groceries") (u "milk"))]
                             (with_lists [] fresh)))
                   (u "groceries"))
       = Some k
       /\ Dict.get k (lists (run ascii_runtime default_config
                               [Invoke (CreateList (u "Groceries"));
                                Invoke (AddItem (u "groceries") (u "milk"))]
                               (with_lists [] fresh)))
          = Some (VList (map VStr items))
       /\ In (Str.strip (u "milk")) items.
Proof.
  assert (H : lists (snd (remove_item ascii_runtime default_config (u "groceries")
                            (u "milk")
                            (run ascii_runtime default_config
                               [Invoke (CreateList (u "Groceries"));
                                Invoke (AddItem (u "groceries") (u "milk"))]
                               (with_lists [] fresh))))
              <> lists (run ascii_runtime default_config
                          [Invoke (CreateList (u "Groceries"));
                           Invoke (AddItem (u "groceries") (u "milk"))]
                          (with_lists [] fresh))) by (vm_compute; discriminate).
  split; [exact H|].
  destruct (remove_item_twice ascii_runtime default_config
              [Invoke (CreateList (u "Groceries"));
               Invoke (AddItem (u "groceries") (u "milk"))]
              fresh (u "groceries") (u "milk") H)
    as (k & items & H1 & H2 & H3 & _).
  exists k, items. auto.
Defined.

(** X25.  add_multiple_items with one item is add_item.  For a text that
    holds no comma, add_multiple_items changes the collection exactly as
    add_item does for the same name and text, in every state: the same
    trimmed item is appended to the same list, or nothing changes. *)
Theorem one_item_text_is_add_item (rt : PyRuntime) (cfg : BotConfig) (st : State)
    (n x : pystr) :
  existsb (fun c => N.eqb c 44) x = false ->
  lists (snd (add_multiple_items rt cfg n x st)) = lists (snd (add_item rt cfg n x st)).
Proof.
  intros Hx. rewrite Steps.add_multiple_items_state, Steps.add_item_state. f_equal.
  assert (Hsp : Str.split_comma x = [x]).
  { induction x as [|c r IH]; [reflexivity|]. cbn [existsb] in Hx.
    apply orb_false_iff in Hx as [Hc Hr]. cbn [Str.split_comma].
    now rewrite Hc, (IH Hr). }
  cbn [effect]. unfold split_items. rewrite Hsp. cbn [filter].
  unfold _validate_item at 1.
  destruct (Str.truthy (Str.strip x)) eqn:Hts.
  - assert (Ht : Str.truthy x = true) by (destruct x; [discriminate Hts|reflexivity]).
    rewrite Ht. cbn [negb orb map].
    destruct (resolved (_find_list_name rt (lists st) n)) as [k|];
      [|now destruct (_ >? _)%Z].
    destruct (Dict.get k (lists st)) as [v|]; [|now destruct (_ >? _)%Z].
    destruct (Py.len v) as [e|len]; [now destruct (_ >? _)%Z|].
    cbn [List.length add_all]. unfold _validate_item.
    rewrite StrFacts.strip_idem, Hts. cbn [negb orb].
    destruct (Str.len (Str.strip x) >? max_item_length cfg)%Z.
    + now destruct (_ >? _)%Z.
    + destruct (Py.contains (Str.strip x) v) as [e|[|]];
        [now destruct (_ >? _)%Z|now destruct (_ >? _)%Z|].
      destruct (Py.append (Str.strip x) v) as [e|v'];
        [now destruct (_ >? _)%Z|].
      cbn [tally added_items no_items app].
      destruct (Z.gtb_spec (len + Z.of_nat 1) (max_items_per_list cfg));
        destruct (Z.geb_spec len (max_items_per_list cfg)); try lia; reflexivity.
  - rewrite orb_true_r. cbn [map].
    now destruct (resolved (_find_list_name rt (lists st) n)).
Qed.

Lemma one_item_text_is_add_item_witness :
  existsb (fun c => N.eqb c 44) (u " milk ") = false
  /\ lists (snd (add_multiple_items ascii_runtime default_config (u "groceries")
                   (u " milk ") groceries_only))
     = lists (snd (add_item ascii_runtime default_config (u "groceries") (u " milk ")
                     groceries_only)).
Proof.
  split; [reflexivity|].
  exact (one_item_text_is_add_item ascii_runtime default_config groceries_only
           (u "groceries") (u " milk ") eq_refl).
Defined.


(** * Storage: what is on disk after a call and after a restart *)

Module Storage.

#[local] Arguments Json.dumps : simpl never.
#[local] Arguments u : simpl never.
#[local] Arguments app : simpl never.
#[local] Arguments Str.utf8 : simpl never.
#[local] Arguments firstn : simpl never.
#[local] Arguments flushed : simpl never.

Lemma app_neq {A : Type} (s t : list A) : t <> [] -> s ++ t <> s.
Proof.
  intros Ht E. apply (f_equal (@List.length A)) in E. rewrite length_app in E.
  destruct t; [contradiction|]. cbn in E. lia.
Qed.

Lemma backup_differs (path : pystr) : path ++ u ".backup" <> path.
Proof. apply app_neq. discriminate. Qed.

Lemma stamped_differs (path stamp : pystr) : path ++ u ".backup_" ++ stamp <> path.
Proof. apply app_neq. discriminate. Qed.

Section WithConfig.
Variable rt : PyRuntime.
Variable cfg : BotConfig.

(** The save returns or not; there is no third way. *)
Lemma save_returns_or_not (st : State) :
  fst (_save_data cfg st) = Ret tt \/ fst (_save_data cfg st) <> Ret tt.
Proof.
  destruct (PersistFacts.save_outcome cfg st) as [H|[[m H]|(c & p & H)]];
    [now left|right|right]; rewrite H; discriminate.
Qed.

(** [_save_data] writes to the data file and to its [.backup] only. *)
Lemma save_paths (st : State) (path : pystr) :
  path <> data_file cfg -> path <> data_file cfg ++ u ".backup" ->
  Dict.get path (files (snd (_save_data cfg st))) = Dict.get path (files st).
Proof.
  intros H1 H2. unfold _save_data. munfold.
  destruct (Dict.get (data_file cfg) (files st)) eqn:Hg; cbn;
    destruct (backup_enabled cfg) eqn:Hb; cbn;
    destruct (copy_fault st) eqn:Hc; cbn;
    try (destruct (read_fault st) eqn:Hr; cbn);
    try (destruct (copy_partial st) eqn:Hp; cbn);
    rewrite ?Hg; cbn;
    destruct (write_fault st) as [[?|? ?]|] eqn:Hw; cbn;
    repeat match goal with
           | |- context [if Str.utf8 ?t then _ else _] => destruct (Str.utf8 t); cbn
           end;
    rewrite ?DictFacts.get_set_other by assumption; reflexivity.
Qed.

(** Once the copy is made, the write leaves it alone, however it ends. *)
Lemma write_keeps_copy (st : State) (old : pystr) :
  backup_enabled cfg = true ->
  Dict.get (data_file cfg) (files st) = Some old ->
  copy_fault st = None ->
  Dict.get (data_file cfg ++ u ".backup") (files (snd (_save_data cfg st))) = Some old.
Proof.
  intros Hb Hg Hc. unfold _save_data. munfold. rewrite Hg, Hb. cbn. rewrite Hc. cbn.
  rewrite Hg. cbn.
  destruct (write_fault st) as [[?|? ?]|] eqn:Hw; cbn;
    repeat match goal with
           | |- context [if Str.utf8 ?t then _ else _] => destruct (Str.utf8 t); cbn
           end;
    rewrite ?(DictFacts.get_set_other _ _ _ _ (backup_differs (data_file cfg)));
    apply DictFacts.get_set_same.
Qed.

(** [__init__] writes to the timestamped backup only. *)
Lemma init_paths (env : State) (path : pystr) :
  path <> data_file cfg ++ u ".backup_" ++ clock env ->
  Dict.get path (files (snd (__init__ rt cfg env))) = Dict.get path (files env).
Proof.
  intros H. unfold __init__, _load_data, json_load, _backup_corrupted_file. munfold. cbn.
  destruct (Dict.get (data_file cfg) (files env)) as [txt|] eqn:Hg; cbn; [|reflexivity].
  destruct (read_fault env) eqn:Hr; cbn; rewrite ?Hg; cbn.
  - destruct (copy_fault env) eqn:Hc; cbn; rewrite ?Hr, ?Hg; cbn; [reflexivity|].
    now apply DictFacts.get_set_other.
  - destruct (Str.utf8 txt); cbn; [|reflexivity].
    destruct (Json.loads _ _ txt) as [[| | | | | |]| |[?|[|]]] eqn:Hl; cbn;
      try reflexivity.
    rewrite Hg. cbn.
    destruct (copy_fault env) eqn:Hc; cbn; rewrite ?Hr, ?Hg; cbn.
    + destruct (copy_partial env); cbn; [|reflexivity].
      now apply DictFacts.get_set_other.
    + now apply DictFacts.get_set_other.
Qed.

(** A file that is there and cannot be read. *)
Lemma init_unreadable (env : State) (text msg : pystr) :
  read_fault env = Some msg ->
  Dict.get (data_file cfg) (files env) = Some text ->
  let backup_name := data_file cfg ++ u ".backup_" ++ clock env in
  let err := (ERROR, u "Error loading data: " ++ msg) in
  fst (__init__ rt cfg env) = Ret tt
  /\ lists (snd (__init__ rt cfg env)) = []
  /\ match copy_fault env with
     | None =>
         files (snd (__init__ rt cfg env)) = Dict.set backup_name text (files env)
         /\ log (snd (__init__ rt cfg env))
            = log env ++ [err; (INFO, u "Corrupted file backed up to " ++ backup_name)]
     | Some msg' =>
         files (snd (__init__ rt cfg env)) = files env
         /\ log (snd (__init__ rt cfg env))
            = log env ++ [err; (ERROR, u "Failed to backup corrupted file: " ++ msg')]
     end.
Proof.
  intros Hr Hg. unfold __init__, _load_data, json_load, _backup_corrupted_file.
  munfold. cbn. rewrite Hg. cbn. rewrite Hr. cbn. rewrite Hg. cbn.
  destruct (copy_fault env) eqn:Hc; cbn; rewrite ?Hr, ?Hg; cbn;
    (split; [reflexivity|]); (split; [reflexivity|]);
    rewrite <- ?app_assoc; split; reflexivity.
Qed.

End WithConfig.

End Storage.

(** X9.  What a writing call changed survives a restart.  For an object
    that started empty: when a writing call changed the collection and
    did not answer with its generic error string, a new object built on
    the files the call left (readable) holds exactly the collection the
    old object has in memory. *)
Theorem restart_keeps_changes (rt : PyRuntime) (cfg : BotConfig) (evs : list Event)
    (env : State) (c : Call) (env' : State) :
  let st := run rt cfg evs (with_lists [] env) in
  let r := call rt cfg c st in
  mutating c = true ->
  lists (snd r) <> lists st ->
  fst r <> Ret (RStr (generic_error c)) ->
  files env' = files (snd r) ->
  read_fault env' = None ->
  fst (__init__ rt cfg env') = Ret tt
  /\ lists (snd (__init__ rt cfg env')) = lists (snd r).
Proof.
  intros st r Hm Hch Hok Hf Hrf.
  assert (Hs : sound rt cfg (lists (snd r))).
  { apply Tidy.call_sound.
    exact (Tidy.reachable_sound rt cfg evs (with_lists [] env) eq_refl). }
  pose proof (Effect.call_effect rt cfg c st Hm) as H. fold r in H.
  destruct (effect rt cfg c (lists st)) as [ls'|]; [|destruct H; contradiction].
  destruct H as (Hl & Hfiles & Hgen).
  destruct (Storage.save_returns_or_not cfg (with_lists ls' st)) as [Hsave|Hsave];
    [|now apply Hgen in Hsave].
  destruct Hs as [Hinv Ht].
  destruct (PersistFacts.init_dict rt cfg env' (Json.dumps (VDict (lists (snd r))))
              (lists (snd r))) as (H0 & H1 & _); [| | | |now split].
  - exact Hrf.
  - rewrite Hf, Hfiles, Hl. now apply PersistFacts.save_ok_file.
  - rewrite Hl. exact (PersistFacts.save_ok_utf8 cfg (with_lists ls' st) Hsave).
  - apply JsonFacts.loads_dumps.
    + eapply Tidy.tidy_well_typed. exact Ht.
    + eapply Tidy.invariant_keys_nodup. exact Hinv.
Qed.

Lemma restart_keeps_changes_witness :
  mutating (AddItem (u "groceries") (u "milk")) = true
  /\ lists (snd (__init__ ascii_runtime default_config
                   (snd (call ascii_runtime default_config
                           (AddItem (u "groceries") (u "milk"))
                           (run ascii_runtime default_config
                              [Invoke (CreateList (u "groceries"))]
                              (with_lists [] fresh))))))
     = lists (snd (call ascii_runtime default_config
                     (AddItem (u "groceries") (u "milk"))
                     (run ascii_runtime default_config
                        [Invoke (CreateList (u "groceries"))]
                        (with_lists [] fresh)))).
Proof.
  split; [reflexivity|].
  refine (proj2 (restart_keeps_changes ascii_runtime default_config
                   [Invoke (CreateList (u "groceries"))] fresh
                   (AddItem (u "groceries") (u "milk")) _ eq_refl _ _ eq_refl eq_refl)).
  - vm_compute. discriminate.
  - vm_compute. discriminate.
Defined.

(** X10.  The save and the previous file.  With backups enabled and a
    data file in place, _save_data first copies the file to
    <data_file>.backup.  When the copy fails it raises DataStorageError
    and does not write: the data file keeps its content, and so does every
    file but <data_file>.backup, which a copy that broke off with its
    destination open leaves cut short.  When the copy works, the backup
    holds the previous content of the data file, also when the write that
    follows fails. *)
Theorem save_keeps_previous_file (cfg : BotConfig) (st : State) (old : pystr) :
  backup_enabled cfg = true ->
  Dict.get (data_file cfg) (files st) = Some old ->
  match copy_fault st with
  | Some msg =>
      fst (_save_data cfg st) = Raise (DataStorageError (u "Failed to save data: " ++ msg))
      /\ Dict.get (data_file cfg) (files (snd (_save_data cfg st))) = Some old
      /\ (forall path, path <> data_file cfg ++ u ".backup" ->
            Dict.get path (files (snd (_save_data cfg st))) = Dict.get path (files st))
      /\ match read_fault st, copy_partial st with
         | None, Some n =>
             Dict.get (data_file cfg ++ u ".backup") (files (snd (_save_data cfg st)))
             = Some (firstn n old)
         | _, _ => files (snd (_save_data cfg st)) = files st
         end
  | None =>
      Dict.get (data_file cfg ++ u ".backup") (files (snd (_save_data cfg st))) = Some old
  end.
Proof.
  intros Hb Hg. destruct (copy_fault st) eqn:Hc;
    [unfold _save_data; munfold; rewrite Hg, Hb; cbn; rewrite Hc; cbn|].
  - destruct (read_fault st) eqn:Hr; cbn; [now repeat split|].
    destruct (copy_partial st) eqn:Hp; cbn; rewrite ?Hg; cbn; [|now repeat split].
    split; [reflexivity|]. split.
    { rewrite DictFacts.get_set_other; [exact Hg|].
      intros E. symmetry in E. revert E. apply Storage.backup_differs. }
    split; [|apply DictFacts.get_set_same].
    intros path Hp'. now apply DictFacts.get_set_other.
  - exact (Storage.write_keeps_copy cfg st old Hb Hg Hc).
Qed.

(** On the world in which the copy breaks off: the earlier backup is gone,
    the data file is as it was. *)
Lemma save_keeps_previous_file_witness :
  backup_enabled default_config = true
  /\ Dict.get (data_file default_config) (files copy_breaks) = Some (u "{}")
  /\ Dict.get (data_file default_config ++ u ".backup") (files copy_breaks)
     = Some (u "{OLD}")
  /\ Dict.get (data_file default_config) (files (snd (_save_data default_config copy_breaks)))
     = Some (u "{}")
  /\ Dict.get (data_file default_config ++ u ".backup")
       (files (snd (_save_data default_config copy_breaks)))
     = Some [].
Proof.
  split; [reflexivity|]. split; [reflexivity|]. split; [reflexivity|].
  pose proof (save_keeps_previous_file default_config copy_breaks (u "{}")
                eq_refl eq_refl) as H.
  change (copy_fault copy_breaks)
    with (Some (u "[Errno 28] No space left on device")) in H.
  change (read_fault copy_breaks) with (@None pystr) in H.
  change (copy_partial copy_breaks) with (Some 0%nat) in H.
  destruct H as (_ & H1 & _ & H3). split; [exact H1|exact H3].
Defined.

(** X11.  The files the store touches.  _save_data changes no file but the
    data file and <data_file>.backup.  The constructor changes no file but
    <data_file>.backup_<timestamp>; in particular it never changes the
    data file, whatever the file holds. *)
Theorem storage_touches_its_files_only (rt : PyRuntime) (cfg : BotConfig)
    (st env : State) :
  (forall path,
      path <> data_file cfg -> path <> data_file cfg ++ u ".backup" ->
      Dict.get path (files (snd (_save_data cfg st))) = Dict.get path (files st))
  /\ (forall path,
        path <> data_file cfg ++ u ".backup_" ++ clock env ->
        Dict.get path (files (snd (__init__ rt cfg env))) = Dict.get path (files env))
  /\ Dict.get (data_file cfg) (files (snd (__init__ rt cfg env)))
     = Dict.get (data_file cfg) (files env).
Proof.
  split; [intros path; apply Storage.save_paths|].
  split; [intros path; apply Storage.init_paths|].
  apply Storage.init_paths. intros E. symmetry in E. revert E.
  apply Storage.stamped_differs.
Qed.

(** X12.  A data file that exists and cannot be opened for reading is
    handled like a corrupted one: the constructor returns, logs the error,
    copies the file to <data_file>.backup_<timestamp> (or logs that the
    copy failed, and then changes no file), and the collection starts
    empty. *)
Theorem load_unreadable_file (rt : PyRuntime) (cfg : BotConfig) (env : State)
    (text msg : pystr) :
  read_fault env = Some msg ->
  Dict.get (data_file cfg) (files env) = Some text ->
  let backup_name := data_file cfg ++ u ".backup_" ++ clock env in
  let err := (ERROR, u "Error loading data: " ++ msg) in
  fst (__init__ rt cfg env) = Ret tt
  /\ lists (snd (__init__ rt cfg env)) = []
  /\ match copy_fault env with
     | None =>
         files (snd (__init__ rt cfg env)) = Dict.set backup_name text (files env)
         /\ log (snd (__init__ rt cfg env))
            = log env ++ [err; (INFO, u "Corrupted file backed up to " ++ backup_name)]
     | Some msg' =>
         files (snd (__init__ rt cfg env)) = files env
         /\ log (snd (__init__ rt cfg env))
            = log env ++ [err; (ERROR, u "Failed to backup corrupted file: " ++ msg')]
     end.
Proof.
  intros Hr Hg backup_name err.
  exact (Storage.init_unreadable rt cfg env text msg Hr Hg).
Qed.

Lemma load_unreadable_file_witness :
  read_fault {| lists := []; files := [(data_file default_config, u "{}")]; log := [];
                clock := u "20240101_120000";
                read_fault := Some (u "[Errno 13] Permission denied");
                copy_fault := None; copy_partial := None; write_fault := None;
                encode_flushed := 0 |}
  = Some (u "[Errno 13] Permission denied")
  /\ lists (snd (__init__ ascii_runtime default_config
                   {| lists := []; files := [(data_file default_config, u "{}")];
                      log := []; clock := u "20240101_120000";
                      read_fault := Some (u "[Errno 13] Permission denied");
                      copy_fault := None; copy_partial := None; write_fault := None;
                encode_flushed := 0 |}))
     = [].
Proof.
  split; [reflexivity|].
  exact (proj1 (proj2
           (load_unreadable_file ascii_runtime default_config
              {| lists := []; files := [(data_file default_config, u "{}")];
                 log := []; clock := u "20240101_120000";
                 read_fault := Some (u "[Errno 13] Permission denied");
                 copy_fault := None; copy_partial := None; write_fault := None;
                encode_flushed := 0 |}
              (u "{}") (u "[Errno 13] Permission denied") eq_refl eq_refl))).
Defined.


From Stdlib Require Import Permutation Sorted.

(** * What the reading methods answer *)

(** ** Text that is trimmed at its end *)

Module Text.

Lemma rstrip_app_space (s : pystr) (c : N) :
  isspace c = true -> rstrip (s ++ [c]) = rstrip s.
Proof.
  intros H. unfold rstrip. rewrite rev_app_distr. cbn [rev app lstrip].
  now rewrite H.
Qed.

(** A text that is not empty and does not end in a space stays so when
    something is put before it. *)
Lemma clean_app (a s : pystr) :
  s <> [] /\ rstrip s = s -> a ++ s <> [] /\ rstrip (a ++ s) = a ++ s.
Proof.
  intros [Hs H]. split; [destruct a; [exact Hs|discriminate]|].
  unfold rstrip in *. rewrite rev_app_distr.
  assert (Hl : lstrip (rev s) = rev s).
  { apply (f_equal (@rev N)) in H. now rewrite rev_involutive in H. }
  pose proof (StrFacts.lstrip_head (rev s)) as Hh. rewrite Hl in Hh.
  destruct (rev s) as [|c r] eqn:E.
  - apply (f_equal (@rev N)) in E. rewrite rev_involutive in E. contradiction.
  - cbn [app lstrip]. rewrite Hh.
    change (c :: r ++ rev a) with ((c :: r) ++ rev a).
    rewrite <- E, <- rev_app_distr. apply rev_involutive.
Qed.

Lemma strip_rstrip (s : pystr) : strip s = s -> rstrip s = s.
Proof.
  unfold strip. intros H.
  transitivity (rstrip (rstrip (lstrip s))); [now rewrite H|].
  rewrite StrFacts.rstrip_idem. exact H.
Qed.

Lemma clean_trimmed (s : pystr) :
  s <> [] -> strip s = s -> s <> [] /\ rstrip s = s.
Proof. intros H E. split; [exact H|now apply strip_rstrip]. Qed.

Lemma join_cons_head (sep : pystr) (c : N) (h : pystr) (L : list pystr) :
  join sep ((c :: h) :: L) = c :: join sep (h :: L).
Proof. destruct L; reflexivity. Qed.

Lemma join_clean (sep h : pystr) (L : list pystr) :
  Forall (fun p => p <> [] /\ rstrip p = p) (h :: L) ->
  join sep (h :: L) <> [] /\ rstrip (join sep (h :: L)) = join sep (h :: L).
Proof.
  revert h. induction L as [|q r IH]; intros h H.
  - inversion H; subst. assumption.
  - inversion H; subst. cbn [join]. apply clean_app, clean_app, IH. assumption.
Qed.

(** Lines that each end in a newline are the lines joined by newlines,
    and one more newline. *)
Lemma lines_join (h : pystr) (L : list pystr) :
  List.concat (map (fun l => l ++ [10%N]) (h :: L)) = join [10%N] (h :: L) ++ [10%N].
Proof.
  revert h. induction L as [|q r IH]; intros h.
  - cbn. now rewrite app_nil_r.
  - cbn [map List.concat join] in *. rewrite IH. now rewrite <- !app_assoc.
Qed.

(** [strip] on such lines takes the last newline away and nothing else,
    when the first line starts with a character that is no space and no
    line ends in one. *)
Lemma strip_lines (c : N) (h : pystr) (L : list pystr) :
  isspace c = false ->
  Forall (fun p => p <> [] /\ rstrip p = p) ((c :: h) :: L) ->
  strip (List.concat (map (fun l => l ++ [10%N]) ((c :: h) :: L)))
  = join [10%N] ((c :: h) :: L).
Proof.
  intros Hc H. rewrite lines_join. destruct (join_clean [10%N] _ _ H) as [_ Hr].
  rewrite join_cons_head in *. unfold strip. cbn [app lstrip]. rewrite Hc.
  change (c :: join [10%N] (h :: L) ++ [10%N])
    with ((c :: join [10%N] (h :: L)) ++ [10%N]).
  rewrite rstrip_app_space by reflexivity. rewrite Hr.
  now rewrite ?join_cons_head.
Qed.

Lemma strings_of_typed (items : list pystr) :
  strings_of (VList (map VStr items)) = items.
Proof. cbn. induction items as [|x r IH]; cbn; [reflexivity|now rewrite IH]. Qed.

(** *** Sorting by name *)

Lemma str_leb_total (a b : pystr) : str_leb a b = false -> str_leb b a = true.
Proof.
  revert b. induction a as [|x a IH]; intros [|y b]; cbn; try discriminate; auto.
  destruct (N.ltb_spec x y) as [Hlt|Hge]; [discriminate|]. cbn.
  destruct (N.eqb_spec x y) as [->|Hne]; cbn.
  - intros Hab. rewrite N.ltb_irrefl, N.eqb_refl. cbn. now apply IH.
  - intros _. destruct (N.ltb_spec y x); [reflexivity|lia].
Qed.

Section Sorting.
Variable V : Type.

Local Abbreviation by_name := (fun a b : pystr * V => str_leb (fst a) (fst b) = true).

Lemma insert_sorted_perm (kv : pystr * V) (l : list (pystr * V)) :
  Permutation (insert_sorted kv l) (kv :: l).
Proof.
  induction l as [|x l IH]; cbn; [reflexivity|].
  destruct (str_leb (fst x) (fst kv)); [|reflexivity].
  rewrite IH. apply perm_swap.
Qed.

Lemma insert_sorted_hd (a kv : pystr * V) (l : list (pystr * V)) :
  by_name a kv -> HdRel by_name a l -> HdRel by_name a (insert_sorted kv l).
Proof.
  intros Ha H. destruct l as [|x l]; cbn; [now constructor|].
  inversion H; subst. destruct (str_leb (fst x) (fst kv)); now constructor.
Qed.

Lemma insert_sorted_sorted (kv : pystr * V) (l : list (pystr * V)) :
  Sorted by_name l -> Sorted by_name (insert_sorted kv l).
Proof.
  induction 1 as [|x l Hl IH Hx]; cbn; [repeat constructor|].
  destruct (str_leb (fst x) (fst kv)) eqn:E.
  - constructor; [exact IH|]. now apply insert_sorted_hd.
  - constructor; [now constructor|]. constructor. now apply str_leb_total.
Qed.

Lemma sorted_items_perm (d : list (pystr * V)) : Permutation (sorted_items d) d.
Proof.
  unfold sorted_items.
  assert (G : forall d acc,
             Permutation (fold_left (fun acc (kv : pystr * V) => insert_sorted kv acc) d acc)
               (acc ++ d)).
  { clear d. induction d as [|kv d IH]; intros acc; cbn; [now rewrite app_nil_r|].
    rewrite IH, insert_sorted_perm. apply Permutation_middle. }
  apply (G d []).
Qed.

Lemma sorted_items_sorted (d : list (pystr * V)) : Sorted by_name (sorted_items d).
Proof.
  unfold sorted_items.
  assert (G : forall d acc, Sorted by_name acc ->
             Sorted by_name (fold_left (fun acc (kv : pystr * V) => insert_sorted kv acc) d acc)).
  { clear d. induction d as [|kv d IH]; intros acc H; cbn; [exact H|].
    apply IH. now apply insert_sorted_sorted. }
  apply G. constructor.
Qed.

End Sorting.

(** *** Sums and maxima of sizes *)

Lemma fold_add (ns : list Z) (a : Z) :
  fold_left Z.add ns a = (a + fold_right Z.add 0 ns)%Z.
Proof.
  revert a. induction ns as [|n ns IH]; intros a; cbn; [lia|]. rewrite IH. lia.
Qed.

Lemma fold_max_ge (ns : list Z) (a : Z) :
  (a <= fold_left Z.max ns a)%Z /\ Forall (fun n => (n <= fold_left Z.max ns a)%Z) ns.
Proof.
  revert a. induction ns as [|n ns IH]; intros a; cbn; [split; [lia|constructor]|].
  destruct (IH (Z.max a n)) as [H1 H2]. split; [lia|]. constructor; [lia|exact H2].
Qed.

Lemma fold_max_in (ns : list Z) (a : Z) :
  fold_left Z.max ns a = a \/ In (fold_left Z.max ns a) ns.
Proof.
  revert a. induction ns as [|n ns IH]; intros a; cbn; [now left|].
  destruct (IH (Z.max a n)) as [H|H]; [|now right; right].
  rewrite H. destruct (Z.max_spec a n) as [[_ ->]|[_ ->]]; [right|]; now left.
Qed.

Lemma sum_bounds (ns : list Z) (m : Z) :
  Forall (fun n => (0 <= n <= m)%Z) ns ->
  (0 <= fold_right Z.add 0 ns <= Z.of_nat (List.length ns) * m)%Z
  /\ Forall (fun n => (n <= fold_right Z.add 0 ns)%Z) ns.
Proof.
  induction 1 as [|n ns Hn H [IH1 IH2]]; cbn [fold_right List.length]; [split; [lia|constructor]|].
  split; [nia|]. constructor; [lia|].
  eapply Forall_impl; [|exact IH2]. cbn. intros. lia.
Qed.

End Text.

Section ReadLoops.

#[local] Arguments Str.strip : simpl never.
#[local] Arguments u : simpl never.
#[local] Arguments Str.of_Z : simpl never.

Variable rt : PyRuntime.
Variable cfg : BotConfig.

(** The loop of [show_list] on a list of strings. *)
Lemma numbered_lines (a : nat) (items : list pystr) :
  numbered rt (Z.of_nat a) (map VStr items)
  = List.concat (map (fun l => l ++ [10%N])
              (map (fun p => Str.of_Z (Z.of_nat (fst p)) ++ u ". " ++ snd p)
                 (combine (seq a (List.length items)) items))).
Proof.
  revert a. induction items as [|x r IH]; intros a; [reflexivity|].
  cbn [map numbered List.length seq combine List.concat fst snd py_str].
  replace (Z.of_nat a + 1)%Z with (Z.of_nat (S a)) by lia. rewrite IH.
  now rewrite <- !app_assoc.
Qed.

(** The loop of [show_all_lists] on lists of strings. *)
Lemma all_lines_typed (rows : list (pystr * PyVal)) :
  Forall (fun kv => exists items, snd kv = VList (map VStr items)) rows ->
  all_lines rows
  = inr (List.concat (map (fun l => l ++ [10%N])
                   (map (fun kv => [8226%N; 32%N] ++ fst kv ++ u " ("
                                   ++ Str.of_Z (Z.of_nat (List.length (strings_of (snd kv))))
                                   ++ u " items)") rows))).
Proof.
  induction 1 as [|[k v] rows [items Hv] H IH]; [reflexivity|].
  cbn [snd] in Hv. subst v. cbn [all_lines Py.len]. rewrite IH.
  cbn [map List.concat fst snd]. rewrite Text.strings_of_typed, length_map.
  now rewrite <- !app_assoc.
Qed.

(** The loops of [search_item] on lists of strings. *)
Lemma search_in_typed (t k : pystr) (items : list pystr) :
  search_in rt t k (map VStr items)
  = inr (map (fun x => [128203%N; 32%N] ++ k ++ u ": " ++ x)
           (filter (fun x => Str.contains t (lower rt x)) items)).
Proof.
  induction items as [|x r IH]; [reflexivity|].
  cbn [map search_in py_lower py_str filter]. rewrite IH.
  now destruct (Str.contains t (lower rt x)).
Qed.

Lemma search_all_typed (t : pystr) (ls : Dict.t PyVal) :
  Forall (fun kv => exists items, snd kv = VList (map VStr items)) ls ->
  search_all rt t ls
  = inr (flat_map
           (fun kv => map (fun x => [128203%N; 32%N] ++ fst kv ++ u ": " ++ x)
                        (filter (fun x => Str.contains t (lower rt x))
                           (strings_of (snd kv)))) ls).
Proof.
  induction 1 as [|[k v] ls [items Hv] H IH]; [reflexivity|].
  cbn [snd] in Hv. subst v. cbn [search_all Py.iter flat_map fst snd].
  now rewrite search_in_typed, IH, Text.strings_of_typed.
Qed.

(** The comprehension of [get_stats] on lists of strings. *)
Lemma lens_typed (ls : Dict.t PyVal) :
  Forall (fun kv => exists items, snd kv = VList (map VStr items)) ls ->
  lens (Dict.values ls)
  = inr (map (fun kv => Z.of_nat (List.length (strings_of (snd kv)))) ls).
Proof.
  induction 1 as [|[k v] ls [items Hv] H IH]; [reflexivity|].
  cbn [snd] in Hv. subst v. unfold Dict.values in *. cbn [map lens Py.len snd].
  now rewrite IH, Text.strings_of_typed, length_map.
Qed.

Lemma tidy_typed (ls : Dict.t PyVal) :
  tidy cfg ls -> Forall (fun kv => exists items, snd kv = VList (map VStr items)) ls.
Proof.
  intros [H _]. eapply Forall_impl; [|exact H].
  intros kv [_ (items & E & _)]. eauto.
Qed.

End ReadLoops.

#[local] Arguments Str.strip : simpl never.
#[local] Arguments u : simpl never.
#[local] Arguments Str.of_Z : simpl never.

(** X13.  What show_list answers in a reachable state, for a name that
    resolves to the stored name k: the empty-list message when the list
    has no item; otherwise the header with the number of items and one
    line "i. item" for each item, in the order of the list, numbered from
    1 and joined by newlines, with nothing after the last item. *)
Theorem show_list_output (rt : PyRuntime) (cfg : BotConfig) (evs : list Event)
    (env : State) (n k : pystr) :
  let st := run rt cfg evs (with_lists [] env) in
  resolved (_find_list_name rt (lists st) n) = Some k ->
  exists items,
    Dict.get k (lists st) = Some (VList (map VStr items))
    /\ fst (show_list rt n st)
       = Ret match items with
             | [] => Messages.EMPTY_LIST k
             | _ :: _ =>
                 Str.join [10%N]
                   (([128203%N; 32%N] ++ u "**" ++ k ++ u "** ("
                     ++ Str.of_Z (Z.of_nat (List.length items)) ++ u " items):")
                    :: map (fun p => Str.of_Z (Z.of_nat (fst p)) ++ u ". " ++ snd p)
                         (combine (seq 1 (List.length items)) items))
             end.
Proof.
  intros st Hr.
  destruct (Tidy.reachable_sound rt cfg evs (with_lists [] env) eq_refl) as [_ Ht].
  fold st in Ht.
  destruct (Resolve.resolved_in rt _ _ _ Hr) as (HIn & _).
  destruct (DictFacts.in_get_some k (lists st) HIn) as [v Hg].
  destruct (Tidy.tidy_get cfg _ _ _ Ht Hg) as [_ (items & -> & _ & Hi & _)].
  exists items. split; [exact Hg|].
  unfold show_list, show_list_under, catch, bind, get_lists, getitem. rewrite Hr, Hg.
  destruct items as [|x r]; [reflexivity|].
  replace (negb (Py.truth (VList (map VStr (x :: r))))) with false by reflexivity.
  unfold lift, Py.len, Py.iter, ret. cbv beta iota. cbn [fst]. rewrite length_map.
  f_equal. change 1%Z with (Z.of_nat 1).
  rewrite numbered_lines.
  set (hdr := u "**" ++ k ++ u "** (" ++ Str.of_Z (Z.of_nat (List.length (x :: r)))
              ++ u " items):").
  set (lines := map _ (combine _ _)).
  transitivity (Str.strip (List.concat (map (fun l => l ++ [10%N])
                                     ((128203%N :: 32%N :: hdr) :: lines)))).
  { f_equal. cbn [map List.concat app]. unfold hdr. now rewrite <- !app_assoc. }
  apply Text.strip_lines; [reflexivity|]. constructor.
  - change (128203%N :: 32%N :: hdr) with ([128203%N; 32%N] ++ hdr). unfold hdr.
    repeat apply Text.clean_app. split; [discriminate|reflexivity].
  - unfold lines. apply Forall_map. apply Forall_forall. intros [i y] Hy.
    apply in_combine_r in Hy. rewrite Forall_forall in Hi.
    destruct (Hi y Hy) as (Hne & Hs & _). cbn [fst snd].
    repeat apply Text.clean_app. now apply Text.clean_trimmed.
Qed.

Lemma show_list_output_witness :
  resolved (_find_list_name ascii_runtime
              (lists (run ascii_runtime default_config
                        [Invoke (CreateList (u "Groceries"));
                         Invoke (AddMultipleItems (u "groceries") (u "milk, bread"))]
                        (with_lists [] fresh)))
              (u "GROCERIES"))
  = Some (u "Groceries")
  /\ exists items,
       Dict.get (u "Groceries")
         (lists (run ascii_runtime default_config
                   [Invoke (CreateList (u "Groceries"));
                    Invoke (AddMultipleItems (u "groceries") (u "milk, bread"))]
                   (with_lists [] fresh)))
       = Some (VList (map VStr items))
       /\ fst (show_list ascii_runtime (u "GROCERIES")
                 (run ascii_runtime default_config
                    [Invoke (CreateList (u "Groceries"));
                     Invoke (AddMultipleItems (u "groceries") (u "milk, bread"))]
                    (with_lists [] fresh)))
          = Ret match items with
                | [] => Messages.EMPTY_LIST (u "Groceries")
                | _ :: _ =>
                    Str.join [10%N]
                      (([128203%N; 32%N] ++ u "**" ++ u "Groceries" ++ u "** ("
                        ++ Str.of_Z (Z.of_nat (List.length items)) ++ u " items):")
                       :: map (fun p => Str.of_Z (Z.of_nat (fst p)) ++ u ". " ++ snd p)
                            (combine (seq 1 (List.length items)) items))
                end.
Proof.
  split; [reflexivity|].
  exact (show_list_output ascii_runtime default_config
           [Invoke (CreateList (u "Groceries"));
            Invoke (AddMultipleItems (u "groceries") (u "milk, bread"))]
           fresh (u "GROCERIES") (u "Groceries") eq_refl).
Defined.

(** X14.  What show_all_lists answers in a reachable state: the no-lists
    message for the empty collection; otherwise its header and one line
    for each list, with the name and the number of items, joined by
    newlines.  The lines show every list once, in the order of the names
    by code points. *)
Theorem show_all_lists_output (rt : PyRuntime) (cfg : BotConfig) (evs : list Event)
    (env : State) :
  let st := run rt cfg evs (with_lists [] env) in
  let rows := sorted_items (lists st) in
  Permutation rows (lists st)
  /\ Sorted (fun a b => str_leb (fst a) (fst b) = true) rows
  /\ fst (show_all_lists st)
     = Ret match lists st with
           | [] => Messages.NO_LISTS
           | _ :: _ =>
               Str.join [10%N]
                 (([128218%N; 32%N] ++ u "**All Lists:**")
                  :: map (fun kv => [8226%N; 32%N] ++ fst kv ++ u " ("
                                    ++ Str.of_Z (Z.of_nat
                                                   (List.length (strings_of (snd kv))))
                                    ++ u " items)") rows)
           end.
Proof.
  intros st rows.
  split; [apply Text.sorted_items_perm|]. split; [apply Text.sorted_items_sorted|].
  destruct (Tidy.reachable_sound rt cfg evs (with_lists [] env) eq_refl) as [_ Ht].
  fold st in Ht. apply (tidy_typed cfg) in Ht.
  unfold show_all_lists, bind, get_lists.
  destruct (lists st) as [|kv l] eqn:E; [reflexivity|].
  fold rows. rewrite all_lines_typed by now apply Reads.sorted_items_Forall.
  cbn [lift ret fst]. f_equal.
  match goal with |- context [map ?f rows] => set (lines := map f rows) end.
  transitivity (Str.strip (List.concat (map (fun l => l ++ [10%N])
                                     ((128218%N :: 32%N :: u "**All Lists:**") :: lines)))).
  { f_equal; cbn [map List.concat app]; now rewrite <- ?app_assoc. }
  apply Text.strip_lines; [reflexivity|]. constructor.
  - split; [discriminate|reflexivity].
  - unfold lines. apply Forall_map. apply Forall_forall. intros [k v] _. cbn [fst snd].
    repeat apply Text.clean_app. split; [discriminate|reflexivity].
Qed.

(** X15.  What search_item answers in a reachable state.  A term that is
    empty or only spaces gives the validation message.  Otherwise the term
    is trimmed, and an item is a hit when its lowercase form contains the
    lowercase form of the term; the answer lists the hits as "list: item"
    lines, the lists in the order of the collection and the items in the
    order of their list, and it is the no-results message when there is no
    hit. *)
Theorem search_item_output (rt : PyRuntime) (cfg : BotConfig) (evs : list Event)
    (env : State) (t : pystr) :
  let st := run rt cfg evs (with_lists [] env) in
  let term := Str.strip t in
  let hits :=
    flat_map (fun kv =>
                map (fun x => [128203%N; 32%N] ++ fst kv ++ u ": " ++ x)
                  (filter (fun x => Str.contains (lower rt term) (lower rt x))
                     (strings_of (snd kv))))
      (lists st) in
  fst (search_item rt t st)
  = Ret match term, hits with
        | [], _ => u "Search term cannot be empty"
        | _ :: _, [] => Messages.NO_SEARCH_RESULTS term
        | _ :: _, _ :: _ =>
            [128269%N; 32%N] ++ u "**Search results for '" ++ term ++ u "':**"
            ++ [10%N] ++ Str.join [10%N] hits
        end.
Proof.
  intros st term hits.
  destruct (Tidy.reachable_sound rt cfg evs (with_lists [] env) eq_refl) as [_ Ht].
  fold st in Ht. apply (tidy_typed cfg) in Ht.
  unfold search_item, search_item_under. fold term.
  destruct term as [|c r] eqn:E.
  - rewrite orb_true_r. reflexivity.
  - assert (Hne : Str.truthy t = true).
    { destruct t; [|reflexivity]. discriminate E. }
    rewrite Hne. cbn [negb orb Str.truthy].
    unfold catch, bind, get_lists. rewrite (search_all_typed rt _ _ Ht).
    cbn [lift ret]. fold hits. now destruct hits.
Qed.

(** X16.  What get_stats answers in a reachable state: it returns; the
    number of lists is within max_lists_per_user; the total is the sum of
    the sizes of the lists; no list is larger than the largest size, which
    is within max_items_per_list; and the largest size is at most the
    total, which is at most the number of lists times the largest size. *)
Theorem get_stats_output (rt : PyRuntime) (cfg : BotConfig) (evs : list Event)
    (env : State) :
  let st := run rt cfg evs (with_lists [] env) in
  let sizes := map (fun kv => Z.of_nat (List.length (strings_of (snd kv)))) (lists st) in
  exists s,
    get_stats st = (Ret s, st)
    /\ total_lists s = Z.of_nat (List.length (lists st))
    /\ (total_lists s <= Z.max 0 (max_lists_per_user cfg))%Z
    /\ total_items s = fold_right Z.add 0%Z sizes
    /\ Forall (fun n => (n <= largest_list_size s)%Z) sizes
    /\ (0 <= largest_list_size s <= Z.max 0 (max_items_per_list cfg))%Z
    /\ (largest_list_size s <= total_items s
        <= total_lists s * largest_list_size s)%Z.
Proof.
  intros st sizes.
  destruct (Tidy.reachable_sound rt cfg evs (with_lists [] env) eq_refl) as [_ Ht].
  fold st in Ht. pose proof (tidy_typed cfg _ Ht) as Hty.
  assert (Hsz : Forall (fun n => (0 <= n <= Z.max 0 (max_items_per_list cfg))%Z) sizes).
  { unfold sizes. apply Forall_map. destruct Ht as [Hall _].
    eapply Forall_impl; [|exact Hall]. intros kv [_ (items & -> & _ & _ & H)].
    rewrite Text.strings_of_typed. lia. }
  unfold get_stats, bind, get_lists. rewrite (lens_typed _ Hty). fold sizes.
  cbn [lift ret]. eexists. split; [reflexivity|]. cbn [total_lists total_items largest_list_size].
  unfold sum. rewrite Text.fold_add, Z.add_0_l.
  assert (Hlen : List.length sizes = List.length (lists st))
    by (unfold sizes; apply length_map).
  split; [reflexivity|]. split; [apply Ht|]. split; [reflexivity|].
  clearbody sizes. destruct (lists st) as [|kv l] eqn:E.
  - destruct sizes; [|discriminate]. cbn. repeat split; try constructor; lia.
  - destruct sizes as [|n ns]; [discriminate|]. unfold maximum.
    destruct (Text.fold_max_ge ns n) as [Hge Hall].
    set (m := fold_left Z.max ns n) in *.
    assert (Hm : In m (n :: ns)).
    { destruct (Text.fold_max_in ns n) as [H|H]; [left; now rewrite <- H|now right]. }
    assert (Hmb : (0 <= m <= Z.max 0 (max_items_per_list cfg))%Z).
    { rewrite Forall_forall in Hsz. now apply Hsz. }
    assert (Hbig : Forall (fun k => (0 <= k <= m)%Z) (n :: ns)).
    { constructor; [inversion Hsz; subst; lia|].
      inversion Hsz; subst. rewrite Forall_forall in *. intros k Hk.
      specialize (Hall k Hk). specialize (H2 k Hk). lia. }
    destruct (Text.sum_bounds _ _ Hbig) as [[_ Hup] Hel].
    rewrite Forall_forall in Hel. specialize (Hel m Hm).
    split; [constructor; [exact Hge|exact Hall]|]. split; [exact Hmb|].
    rewrite Hlen in Hup. split; [exact Hel|exact Hup].
Qed.


(** * The front ends: messages, words and commands *)

(** ** Splitting a message into words *)

Module SplitFacts.

Import Split.

Lemma split_cons (c : N) (r : pystr) :
  split (c :: r)
  = if isspace c then split r
    else match r with
         | [] => [[c]]
         | c' :: _ =>
             if isspace c' then [c] :: split r
             else match split r with
                  | w :: ws => (c :: w) :: ws
                  | [] => [[c]]
                  end
         end.
Proof. reflexivity. Qed.

Lemma split_space (c : N) (r : pystr) : isspace c = true -> split (c :: r) = split r.
Proof. intros H. rewrite split_cons. now rewrite H. Qed.

Lemma word_cons (a : N) (w : pystr) :
  is_word (a :: w) = true <-> isspace a = false /\ existsb isspace w = false.
Proof.
  unfold is_word. cbn [truthy existsb andb]. rewrite negb_true_iff, orb_false_iff.
  tauto.
Qed.

Lemma word_tail (a b : N) (w : pystr) :
  is_word (a :: b :: w) = true -> is_word (b :: w) = true.
Proof.
  rewrite !word_cons. cbn [existsb]. rewrite orb_false_iff. tauto.
Qed.

(** A word, and then a space: the word is the first piece. *)
Lemma split_word_app (w : pystr) (c : N) (r : pystr) :
  is_word w = true -> isspace c = true -> split (w ++ c :: r) = w :: split r.
Proof.
  intros Hw Hc. induction w as [|a w IH]; [discriminate|].
  pose proof (proj1 (word_cons a w) Hw) as [Ha Hrest].
  destruct w as [|b w'].
  - cbn [app]. rewrite (split_cons a), Ha, Hc. now rewrite (split_space c r Hc).
  - specialize (IH (word_tail _ _ _ Hw)).
    cbn [existsb] in Hrest. apply orb_false_iff in Hrest as [Hb _].
    cbn [app] in *. rewrite (split_cons a), Ha, Hb. now rewrite IH.
Qed.

Lemma split_word (w : pystr) : is_word w = true -> split w = [w].
Proof.
  intros Hw. induction w as [|a w IH]; [discriminate|].
  pose proof (proj1 (word_cons a w) Hw) as [Ha Hrest].
  destruct w as [|b w'].
  - rewrite split_cons. now rewrite Ha.
  - specialize (IH (word_tail _ _ _ Hw)).
    cbn [existsb] in Hrest. apply orb_false_iff in Hrest as [Hb _].
    rewrite (split_cons a), Ha, Hb. now rewrite IH.
Qed.

(** Words joined by single spaces split into the same words. *)
Lemma split_join (ws : list pystr) :
  Forall (fun w => is_word w = true) ws -> split (join [32%N] ws) = ws.
Proof.
  induction 1 as [|w ws Hw H IH]; [reflexivity|].
  destruct ws as [|w2 r]; [now apply split_word|].
  change (join [32%N] (w :: w2 :: r)) with (w ++ 32%N :: join [32%N] (w2 :: r)).
  rewrite split_word_app by (exact Hw || reflexivity). now rewrite IH.
Qed.

(** Every piece is a word. *)
Lemma split_words (s : pystr) : Forall (fun w => is_word w = true) (split s).
Proof.
  induction s as [|c r IH]; [constructor|]. rewrite split_cons.
  destruct (isspace c) eqn:Hc; [exact IH|].
  assert (H1 : is_word [c] = true) by (apply word_cons; now split).
  destruct r as [|c' r']; [now repeat constructor|].
  destruct (isspace c') eqn:Hc'; [now constructor|].
  destruct (split (c' :: r')) as [|w ws]; [now repeat constructor|].
  inversion IH as [|? ? Hw Hws]; subst. constructor; [|exact Hws].
  apply word_cons. split; [exact Hc|].
  unfold is_word in Hw. apply andb_true_iff in Hw as [_ Hw].
  now apply negb_true_iff in Hw.
Qed.

Lemma split_app_space (s : pystr) (c : N) :
  isspace c = true -> split (s ++ [c]) = split s.
Proof.
  intros Hc. induction s as [|a r IH].
  - cbn [app]. now apply split_space.
  - destruct r as [|b r'].
    + cbn [app]. rewrite (split_cons a [c]), (split_cons a []), Hc.
      rewrite (split_space c [] Hc). now destruct (isspace a).
    + cbn [app] in *. rewrite (split_cons a (b :: r' ++ [c])), (split_cons a (b :: r')).
      now rewrite IH.
Qed.

(** Spaces at either end change nothing. *)
Lemma split_app_spaces (s t : pystr) :
  forallb isspace t = true -> split (s ++ t) = split s.
Proof.
  revert s. induction t as [|c t IH]; intros s H; [now rewrite app_nil_r|].
  cbn [forallb] in H. apply andb_true_iff in H as [Hc Ht].
  replace (s ++ c :: t) with ((s ++ [c]) ++ t) by now rewrite <- app_assoc.
  rewrite IH by exact Ht. now apply split_app_space.
Qed.

Lemma split_spaces_app (t s : pystr) :
  forallb isspace t = true -> split (t ++ s) = split s.
Proof.
  induction t as [|c t IH]; intros H; [reflexivity|].
  cbn [forallb] in H. apply andb_true_iff in H as [Hc Ht].
  cbn [app]. rewrite split_space by exact Hc. now apply IH.
Qed.

Lemma lstrip_decomp (s : pystr) :
  exists t, s = t ++ lstrip s /\ forallb isspace t = true.
Proof.
  induction s as [|c s (t & E & Ht)]; [now exists []|]. cbn [lstrip].
  destruct (isspace c) eqn:Hc; [|now exists []].
  exists (c :: t). cbn [app forallb]. rewrite Hc, Ht. split; [now f_equal|reflexivity].
Qed.

Lemma rstrip_decomp (s : pystr) :
  exists t, s = rstrip s ++ t /\ forallb isspace t = true.
Proof.
  destruct (lstrip_decomp (rev s)) as (t & E & Ht). exists (rev t). split.
  - unfold rstrip. rewrite <- rev_app_distr, <- E. now rewrite rev_involutive.
  - rewrite forallb_forall in *. intros x Hx. apply Ht. now apply in_rev.
Qed.

Lemma strip_decomp (s : pystr) :
  exists a b, s = a ++ strip s ++ b
              /\ forallb isspace a = true /\ forallb isspace b = true.
Proof.
  destruct (lstrip_decomp s) as (a & Ea & Ha).
  destruct (rstrip_decomp (lstrip s)) as (b & Eb & Hb).
  exists a, b. unfold strip. now rewrite <- Eb.
Qed.

Lemma split_strip (s : pystr) : split (strip s) = split s.
Proof.
  destruct (strip_decomp s) as (a & b & E & Ha & Hb).
  rewrite E at 2. rewrite split_spaces_app by exact Ha.
  now rewrite split_app_spaces.
Qed.

(** No piece at all: the text is empty or all spaces. *)
Lemma split_nil (s : pystr) : split s = [] <-> forallb isspace s = true.
Proof.
  split.
  - induction s as [|c r IH]; [reflexivity|]. rewrite split_cons. cbn [forallb].
    destruct (isspace c) eqn:Hc; [exact IH|].
    destruct r as [|c' r']; [discriminate|].
    destruct (isspace c'); [discriminate|].
    destruct (split (c' :: r')); discriminate.
  - intros H. exact (split_app_spaces [] s H).
Qed.

(** A word has no space at either end, and neither have words joined by
    single spaces. *)
Lemma word_clean (w : pystr) : is_word w = true -> w <> [] /\ rstrip w = w.
Proof.
  intros Hw. split; [destruct w; [discriminate|discriminate]|].
  unfold is_word in Hw. apply andb_true_iff in Hw as [Hne Hw].
  apply negb_true_iff in Hw. unfold rstrip.
  destruct (rev w) as [|c r] eqn:E.
  - apply (f_equal (@rev N)) in E. rewrite rev_involutive in E. now subst.
  - assert (Hc : isspace c = false).
    { destruct (isspace c) eqn:Hc; [|reflexivity].
      assert (Hin : In c w) by (apply in_rev; rewrite E; now left).
      assert (Hex : existsb isspace w = true)
        by (apply existsb_exists; now exists c).
      congruence. }
    rewrite StrFacts.lstrip_fixed by exact Hc. rewrite <- E. apply rev_involutive.
Qed.

Lemma join_words_trimmed (w : pystr) (ws : list pystr) :
  Forall (fun w => is_word w = true) (w :: ws) ->
  join [32%N] (w :: ws) <> [] /\ strip (join [32%N] (w :: ws)) = join [32%N] (w :: ws).
Proof.
  intros H.
  assert (Hc : Forall (fun p => p <> [] /\ rstrip p = p) (w :: ws)).
  { eapply Forall_impl; [|exact H]. intros p. apply word_clean. }
  destruct (Text.join_clean [32%N] _ _ Hc) as [Hne Hr]. split; [exact Hne|].
  inversion H as [|? ? Hw _]; subst. destruct w as [|a w]; [discriminate|].
  apply word_cons in Hw as [Ha _].
  rewrite Text.join_cons_head in *. unfold strip.
  rewrite StrFacts.lstrip_fixed by exact Ha. exact Hr.
Qed.

(** *** The first word and the rest *)

Lemma span_word_app (w : pystr) (c : N) (r : pystr) :
  existsb isspace w = false -> isspace c = true ->
  span_word (w ++ c :: r) = (w, c :: r).
Proof.
  intros Hw Hc. induction w as [|a w IH]; cbn [app span_word].
  - now rewrite Hc.
  - cbn [existsb] in Hw. apply orb_false_iff in Hw as [Ha Hw].
    rewrite Ha, (IH Hw). reflexivity.
Qed.

Lemma span_word_all (w : pystr) :
  existsb isspace w = false -> span_word w = (w, []).
Proof.
  intros Hw. induction w as [|a w IH]; cbn [span_word]; [reflexivity|].
  cbn [existsb] in Hw. apply orb_false_iff in Hw as [Ha Hw].
  now rewrite Ha, (IH Hw).
Qed.

(** What [span_word] cuts off is free of spaces, and the rest is empty or
    starts with one. *)
Lemma span_word_spec (s : pystr) :
  s = fst (span_word s) ++ snd (span_word s)
  /\ existsb isspace (fst (span_word s)) = false
  /\ match snd (span_word s) with
     | [] => True
     | c :: _ => isspace c = true
     end.
Proof.
  induction s as [|a s (E & Hw & Hr)]; cbn [span_word]; [now repeat split|].
  destruct (isspace a) eqn:Ha; [now repeat split|].
  destruct (span_word s) as [w rest]. cbn [fst snd app existsb] in *.
  rewrite Ha, Hw. split; [now f_equal|]. now split.
Qed.

Lemma lstrip_spaces_app (t s : pystr) :
  forallb isspace t = true -> lstrip (t ++ s) = lstrip s.
Proof.
  induction t as [|c t IH]; intros H; [reflexivity|].
  cbn [forallb] in H. apply andb_true_iff in H as [Hc Ht].
  cbn [app lstrip]. rewrite Hc. now apply IH.
Qed.

Lemma rstrip_app_spaces (s t : pystr) :
  forallb isspace t = true -> rstrip (s ++ t) = rstrip s.
Proof.
  revert s. induction t as [|c t IH]; intros s H; [now rewrite app_nil_r|].
  cbn [forallb] in H. apply andb_true_iff in H as [Hc Ht].
  replace (s ++ c :: t) with ((s ++ [c]) ++ t) by now rewrite <- app_assoc.
  rewrite IH by exact Ht. now apply Text.rstrip_app_space.
Qed.

(** Text that is trimmed and not empty starts with a character that is
    no space. *)
Lemma trimmed_head (s : pystr) :
  s <> [] -> strip s = s -> exists c r, s = c :: r /\ isspace c = false.
Proof.
  intros Hne E. unfold strip in E. pose proof (StrFacts.lstrip_head s) as Hh.
  destruct (lstrip s) as [|c r] eqn:El.
  - cbn in E. now subst.
  - destruct (StrFacts.rstrip_keeps_head c r Hh) as [t Ht].
    rewrite Ht in E. exists c, t. now split.
Qed.

(** Lowering, on the ASCII letters, turns no character into a space and
    no space into something else. *)
Lemma ascii_lower_spaces (s : pystr) :
  existsb isspace (ascii_lower s) = existsb isspace s.
Proof.
  unfold ascii_lower. induction s as [|c r IH]; [reflexivity|].
  cbn [map existsb]. rewrite IH. f_equal.
  destruct ((65 <=? c) && (c <=? 90))%N eqn:E; [|reflexivity].
  apply andb_true_iff in E as [H1 H2]. apply N.leb_le in H1, H2.
  assert (G : forall d, (65 <= d <= 122)%N -> isspace d = false).
  { intros d Hd. unfold isspace.
    replace (d <=? 13)%N with false by (symmetry; apply N.leb_gt; lia).
    replace (d <=? 32)%N with false by (symmetry; apply N.leb_gt; lia).
    replace (8192 <=? d)%N with false by (symmetry; apply N.leb_gt; lia).
    replace (d =? 133)%N with false by (symmetry; apply N.eqb_neq; lia).
    replace (d =? 160)%N with false by (symmetry; apply N.eqb_neq; lia).
    replace (d =? 5760)%N with false by (symmetry; apply N.eqb_neq; lia).
    replace (d =? 8232)%N with false by (symmetry; apply N.eqb_neq; lia).
    replace (d =? 8233)%N with false by (symmetry; apply N.eqb_neq; lia).
    replace (d =? 8239)%N with false by (symmetry; apply N.eqb_neq; lia).
    replace (d =? 8287)%N with false by (symmetry; apply N.eqb_neq; lia).
    replace (d =? 12288)%N with false by (symmetry; apply N.eqb_neq; lia).
    now rewrite !andb_false_r. }
  rewrite !G by lia. reflexivity.
Qed.

End SplitFacts.

#[local] Arguments Str.strip : simpl never.

(** Evaluates the comparisons of closed command names. *)
Ltac command_eqb :=
  repeat match goal with
         | |- context [Str.eqb ?a ?b] =>
             first [ change (Str.eqb a b) with true
                   | change (Str.eqb a b) with false ]
         end;
  cbv iota.

(** ** Parsing *)

(** X17.  What the two parsers give, which are the same function: nothing
    for a message that is empty or all spaces; otherwise the lowercase
    form of the first word and the list of the other words, in order.
    Every argument is a word: not empty and free of spaces. *)
Theorem parse_command_shape (rt : PyRuntime) (text : pystr) :
  Cli.parse_command rt text = Bot._parse_command rt text
  /\ match Bot._parse_command rt text with
     | (None, args) => args = [] /\ forallb Str.isspace text = true
     | (Some command, args) =>
         exists first,
           Split.split text = first :: args
           /\ command = lower rt first
           /\ Forall (fun w => Split.is_word w = true) (first :: args)
     end.
Proof.
  split; [reflexivity|]. unfold Bot._parse_command.
  rewrite SplitFacts.split_strip. pose proof (SplitFacts.split_words text) as Hw.
  destruct (Split.split text) as [|first args] eqn:E.
  - split; [reflexivity|]. now apply SplitFacts.split_nil.
  - exists first. now repeat split.
Qed.

(** X18.  Parsing undoes joining.  For words cmd, a1, ..., an (strings
    that are not empty and hold no space), the message made of the words
    joined by single spaces, with any spaces before and after it, parses
    to the lowercase form of cmd and the arguments a1, ..., an. *)
Theorem parse_command_of_words (rt : PyRuntime) (cmd : pystr) (args : list pystr)
    (before after : pystr) :
  Forall (fun w => Split.is_word w = true) (cmd :: args) ->
  forallb Str.isspace before = true ->
  forallb Str.isspace after = true ->
  Bot._parse_command rt (before ++ Str.join [32%N] (cmd :: args) ++ after)
  = (Some (lower rt cmd), args).
Proof.
  intros Hw Hb Ha. unfold Bot._parse_command.
  rewrite SplitFacts.split_strip, SplitFacts.split_spaces_app by exact Hb.
  rewrite SplitFacts.split_app_spaces by exact Ha.
  now rewrite SplitFacts.split_join.
Qed.

Lemma parse_command_of_words_witness :
  Forall (fun w => Split.is_word w = true) [u "Add"; u "groceries"; u "milk"]
  /\ Bot._parse_command ascii_runtime
       (u "  " ++ Str.join [32%N] [u "Add"; u "groceries"; u "milk"] ++ u " ")
     = (Some (u "add"), [u "groceries"; u "milk"]).
Proof.
  assert (H : Forall (fun w => Split.is_word w = true)
                [u "Add"; u "groceries"; u "milk"]) by (repeat constructor).
  split; [exact H|].
  exact (parse_command_of_words ascii_runtime (u "Add") [u "groceries"; u "milk"]
           (u "  ") (u " ") H eq_refl eq_refl).
Defined.

(** ** Commands *)

(** What [_handle_command] does for the words it knows. *)
Module Dispatch.

Section WithManager.
Variable rt : PyRuntime.
Variable cfg : BotConfig.
Variable format_1f : Number -> pystr.

Lemma bot_create (args : list pystr) :
  Bot._handle_command rt cfg format_1f Commands.CREATE args
  = match args with
    | [] => ret (Some Usage.USAGE_CREATE)
    | _ :: _ => fmap Some (create_list rt cfg (Str.join [32%N] args))
    end.
Proof. unfold Bot._handle_command. command_eqb. reflexivity. Qed.

Lemma bot_show (args : list pystr) :
  Bot._handle_command rt cfg format_1f Commands.SHOW args
  = match args with
    | [] => ret (Some Usage.USAGE_SHOW)
    | _ :: _ => fmap Some (show_list rt (Str.join [32%N] args))
    end.
Proof. unfold Bot._handle_command. command_eqb. reflexivity. Qed.

Lemma bot_add (args : list pystr) :
  Bot._handle_command rt cfg format_1f Commands.ADD args
  = match args with
    | list_name :: (_ :: _) as rest =>
        fmap Some (add_item rt cfg list_name (Str.join [32%N] rest))
    | _ => ret (Some Usage.USAGE_ADD)
    end.
Proof. unfold Bot._handle_command. command_eqb. reflexivity. Qed.

Lemma bot_remove (args : list pystr) :
  Bot._handle_command rt cfg format_1f Commands.REMOVE args
  = match args with
    | list_name :: (_ :: _) as rest =>
        fmap Some (remove_item rt cfg list_name (Str.join [32%N] rest))
    | _ => ret (Some Usage.USAGE_REMOVE)
    end.
Proof. unfold Bot._handle_command. command_eqb. reflexivity. Qed.

Lemma fmap_state {A B : Type} (g : A -> B) (m : M A) (st : State) :
  snd (fmap g m st) = snd (m st).
Proof. unfold fmap. now destruct (m st) as [[?|?] ?]. Qed.

Lemma fmap_ret {A B : Type} (g : A -> B) (m : M A) (st : State) (a : A) :
  fst (m st) = Ret a -> fst (fmap g m st) = Ret (g a).
Proof. unfold fmap. destruct (m st) as [[?|?] ?]; cbn; congruence. Qed.

End WithManager.

End Dispatch.

(** X19.  A list made by the create command is found by the show command.
    In a reachable state, when the create command with the words args
    changed the collection, the new list is stored last under the words
    joined by single spaces, with no item, and the show command with words
    that give the same lowercase name answers that this list is empty. *)
Theorem bot_create_then_show (rt : PyRuntime) (cfg : BotConfig)
    (format_1f : Number -> pystr) (evs : list Event) (env : State)
    (args : list pystr) (first : pystr) (rest : list pystr) :
  let st := run rt cfg evs (with_lists [] env) in
  let st1 := snd (Bot._handle_command rt cfg format_1f Commands.CREATE args st) in
  Forall (fun w => Split.is_word w = true) args ->
  lists st1 <> lists st ->
  lower rt (Str.join [32%N] (first :: rest)) = lower rt (Str.join [32%N] args) ->
  lists st1 = lists st ++ [(Str.join [32%N] args, VList [])]
  /\ fst (Bot._handle_command rt cfg format_1f Commands.SHOW (first :: rest) st1)
     = Ret (Some (Messages.EMPTY_LIST (Str.join [32%N] args))).
Proof.
  intros st st1 Hw Hch Hlow.
  destruct (Tidy.reachable_sound rt cfg evs (with_lists [] env) eq_refl)
    as [(_ & Hne & _) _].
  fold st in Hne.
  assert (Hno : ~ In [] (Dict.keys (lists st))).
  { intros HIn. rewrite Forall_forall in Hne. now apply (Hne _ HIn). }
  subst st1. rewrite Dispatch.bot_create, Dispatch.bot_show in *.
  destruct args as [|a args]; [now contradiction Hch|].
  rewrite Dispatch.fmap_state in *.
  destruct (SplitFacts.join_words_trimmed a args Hw) as [_ Hs].
  destruct (Steps.created rt cfg st (Str.join [32%N] (a :: args)) Hno Hch)
    as (_ & _ & E & Hget & Hres).
  rewrite Hs in E, Hget, Hres. split; [exact E|].
  apply Dispatch.fmap_ret. unfold show_list, show_list_under, catch, bind, get_lists, getitem.
  rewrite (Hres _ Hlow), Hget. reflexivity.
Qed.

Lemma bot_create_then_show_witness :
  Forall (fun w => Split.is_word w = true) [u "my"; u "list"]
  /\ lists (snd (Bot._handle_command ascii_runtime default_config no_average
                   Commands.CREATE [u "my"; u "list"]
                   (run ascii_runtime default_config [] (with_lists [] fresh))))
     <> lists (run ascii_runtime default_config [] (with_lists [] fresh))
  /\ fst (Bot._handle_command ascii_runtime default_config no_average
            Commands.SHOW [u "MY"; u "List"]
            (snd (Bot._handle_command ascii_runtime default_config no_average
                    Commands.CREATE [u "my"; u "list"]
                    (run ascii_runtime default_config [] (with_lists [] fresh)))))
     = Ret (Some (Messages.EMPTY_LIST (Str.join [32%N] [u "my"; u "list"]))).
Proof.
  assert (H : Forall (fun w => Split.is_word w = true) [u "my"; u "list"])
    by (repeat constructor).
  assert (Hch : lists (snd (Bot._handle_command ascii_runtime default_config no_average
                              Commands.CREATE [u "my"; u "list"]
                              (run ascii_runtime default_config []
                                 (with_lists [] fresh))))
                <> lists (run ascii_runtime default_config [] (with_lists [] fresh)))
    by (vm_compute; discriminate).
  split; [exact H|]. split; [exact Hch|].
  exact (proj2 (bot_create_then_show ascii_runtime default_config no_average []
                  fresh [u "my"; u "list"] (u "MY") [u "List"] H Hch eq_refl)).
Defined.

(** ** Names that hold a space *)

Module Spaced.

Section WithManager.
Variable rt : PyRuntime.
Variable cfg : BotConfig.

Hypothesis lower_spaces :
  forall s, existsb Str.isspace (lower rt s) = existsb Str.isspace s.

(** A name without a space does not resolve to a key with one. *)
Lemma not_resolved (ls : Dict.t PyVal) (n k : pystr) :
  existsb Str.isspace k = true -> existsb Str.isspace n = false ->
  resolved (_find_list_name rt ls n) <> Some k.
Proof.
  intros Hk Hn H. apply Resolve.resolved_in in H as (_ & Hl & _).
  apply (f_equal (existsb Str.isspace)) in Hl. rewrite !lower_spaces in Hl.
  congruence.
Qed.

Lemma after (c : Call) (n : pystr) (k : pystr) (ls out : Dict.t PyVal) :
  existsb Str.isspace k = true -> existsb Str.isspace n = false ->
  (exists x, c = AddItem n x \/ c = RemoveItem n x \/ c = AddMultipleItems n x) ->
  out = match effect rt cfg c ls with Some ls' => ls' | None => ls end ->
  Dict.get k out = Dict.get k ls.
Proof.
  intros Hk Hn [x Hc] ->. destruct (effect rt cfg c ls) as [ls'|] eqn:He; [|reflexivity].
  pose proof (Writes.effect_frame rt cfg c ls ls' He) as Hf.
  destruct Hc as [-> | [-> | ->]]; destruct Hf as [_ Hf]; apply Hf;
    now apply not_resolved.
Qed.

End WithManager.

End Spaced.

(** ** Mentions *)

Module Mention.

Lemma startswith_app (p s : pystr) : Str.startswith p (p ++ s) = true.
Proof.
  induction p as [|c p IH]; [reflexivity|]. cbn [app Str.startswith].
  now rewrite N.eqb_refl, IH.
Qed.

Lemma skipn_prefix {A : Type} (p s : list A) : skipn (List.length p) (p ++ s) = s.
Proof. induction p as [|c p IH]; [reflexivity|exact IH]. Qed.

(** The end of a text that does not end in a space does not end in
    one. *)
Lemma clean_tail (a t : pystr) :
  t <> [] -> Str.rstrip (a ++ t) = a ++ t -> Str.rstrip t = t.
Proof.
  intros Ht H. unfold Str.rstrip in *.
  apply (f_equal (@rev N)) in H. rewrite rev_involutive, rev_app_distr in H.
  destruct (rev t) as [|c r] eqn:E.
  - apply (f_equal (@rev N)) in E. rewrite rev_involutive in E. contradiction.
  - pose proof (StrFacts.lstrip_head ((c :: r) ++ rev a)) as Hh. rewrite H in Hh.
    cbn [app] in Hh. rewrite (StrFacts.lstrip_fixed c r Hh), <- E.
    apply rev_involutive.
Qed.

(** The first word and the rest, of a text that is trimmed. *)
Lemma split1_two (s n t : pystr) (more : list pystr) :
  Str.strip s = s ->
  Split.split1 s = n :: t :: more ->
  Split.is_word n = true
  /\ t <> [] /\ Str.strip t = t
  /\ exists gap, gap <> [] /\ forallb Str.isspace gap = true /\ s = n ++ gap ++ t.
Proof.
  intros Hs. destruct s as [|c r]; [discriminate|].
  destruct (SplitFacts.trimmed_head (c :: r)) as (c0 & r0 & E0 & Hc);
    [discriminate|exact Hs|].
  injection E0 as <- <-.
  unfold Split.split1. rewrite (StrFacts.lstrip_fixed c r Hc).
  pose proof (SplitFacts.span_word_spec (c :: r)) as (Eapp & Hword & Hrest).
  assert (Hw : exists w, fst (Split.span_word (c :: r)) = c :: w).
  { cbn [Split.span_word]. rewrite Hc. destruct (Split.span_word r). now eexists. }
  destruct (Split.span_word (c :: r)) as [word rest]. cbn [fst snd] in *.
  destruct Hw as [w ->].
  destruct (SplitFacts.lstrip_decomp rest) as (gap & Egap & Hgap).
  pose proof (StrFacts.lstrip_head rest) as Hhead.
  destruct (Str.lstrip rest) as [|c' r'] eqn:El; [discriminate|].
  intros [= <- <- _].
  split; [apply SplitFacts.word_cons; split; [exact Hc|];
          cbn [existsb] in Hword; now apply orb_false_iff in Hword|].
  split; [discriminate|].
  assert (Hgne : gap <> []).
  { intros ->. cbn [app] in Egap. subst rest. congruence. }
  assert (Et : Str.strip (c' :: r') = c' :: r').
  { unfold Str.strip. rewrite (StrFacts.lstrip_fixed c' r' Hhead).
    apply (clean_tail ((c :: w) ++ gap)); [discriminate|].
    rewrite <- app_assoc, <- Egap, <- Eapp. now apply Text.strip_rstrip. }
  split; [exact Et|].
  exists gap. split; [exact Hgne|]. split; [exact Hgap|].
  rewrite Eapp at 1. now rewrite Egap at 1.
Qed.

(** A mention that parses starts with the prefix, and what follows the
    prefix, trimmed, has two parts at least. *)
Lemma parsed_split (message bot n t : pystr) :
  Bot._parse_mention message bot = (Some n, Some t) ->
  Str.startswith (u "@" ++ bot) message = true
  /\ exists more,
       Split.split1 (Str.strip (skipn (List.length (u "@" ++ bot)) message))
       = n :: t :: more.
Proof.
  unfold Bot._parse_mention.
  destruct (Str.startswith (u "@" ++ bot) message); [|discriminate]. cbn [negb].
  destruct (negb (Str.truthy _)); [discriminate|].
  destruct (Split.split1 _) as [|n' [|t' more]]; try discriminate.
  intros [= <- <-]. split; [reflexivity|now exists more].
Qed.

End Mention.

(** X20.  A list whose name holds a space gets no item through the add
    and remove commands or a mention.  Those take the list name to be one
    word, so, with a lowering that turns no character into a space or a
    space into something else, they leave every list alone whose stored
    name holds a space (as "my list", made by the command create my
    list). *)
Theorem spaced_names_take_no_items (rt : PyRuntime) (cfg : BotConfig)
    (format_1f : Number -> pystr) (st : State) (k : pystr) :
  (forall s, existsb Str.isspace (lower rt s) = existsb Str.isspace s) ->
  existsb Str.isspace k = true ->
  (forall command args,
      command = Commands.ADD \/ command = Commands.REMOVE ->
      Forall (fun w => Split.is_word w = true) args ->
      Dict.get k (lists (snd (Bot._handle_command rt cfg format_1f command args st)))
      = Dict.get k (lists st))
  /\ (forall message bot n t,
        Bot._parse_mention message bot = (Some n, Some t) ->
        Dict.get k (lists (snd (add_multiple_items rt cfg n t st)))
        = Dict.get k (lists st)).
Proof.
  intros Hlow Hk.
  assert (Hword : forall w, Split.is_word w = true -> existsb Str.isspace w = false).
  { intros w Hw. unfold Split.is_word in Hw. apply andb_true_iff in Hw as [_ Hw].
    now apply negb_true_iff in Hw. }
  split.
  - intros command args Hc Hargs.
    destruct Hc as [->| ->];
      [rewrite Dispatch.bot_add|rewrite Dispatch.bot_remove];
      (destruct args as [|n [|x rest]]; [reflexivity|reflexivity|]);
      rewrite Dispatch.fmap_state; inversion Hargs as [|? ? Hn _]; subst.
    + eapply (Spaced.after rt cfg Hlow (AddItem n _) n); eauto using Steps.add_item_state.
    + eapply (Spaced.after rt cfg Hlow (RemoveItem n _) n);
        eauto using Steps.remove_item_state.
  - intros message bot n t Hp. apply Mention.parsed_split in Hp as (_ & more & Hp).
    apply Mention.split1_two in Hp as (Hn & _); [|apply StrFacts.strip_idem].
    eapply (Spaced.after rt cfg Hlow (AddMultipleItems n _) n);
      eauto using Steps.add_multiple_items_state.
Qed.

Lemma spaced_names_take_no_items_witness :
  existsb Str.isspace (u "my list") = true
  /\ Dict.get (u "my list")
       (lists (snd (Bot._handle_command ascii_runtime default_config no_average
                      Commands.ADD [u "my"; u "list"; u "milk"] my_list)))
     = Dict.get (u "my list") (lists my_list).
Proof.
  split; [reflexivity|].
  refine (proj1 (spaced_names_take_no_items ascii_runtime default_config no_average
                   my_list (u "my list") SplitFacts.ascii_lower_spaces eq_refl)
            Commands.ADD [u "my"; u "list"; u "milk"] (or_introl eq_refl) _).
  repeat constructor.
Defined.

(** X21.  Reading a mention undoes writing one.  For a name that is one
    word and a text that is trimmed and not empty: the message made of
    "@", the bot's name, the name, at least one space and the text, with
    any spaces around the name and after the text, parses to that name and
    that text. *)
Theorem parse_mention_of_parts (bot n t before gap after : pystr) :
  Split.is_word n = true ->
  t <> [] -> Str.strip t = t ->
  gap <> [] -> forallb Str.isspace gap = true ->
  forallb Str.isspace before = true ->
  forallb Str.isspace after = true ->
  Bot._parse_mention (u "@" ++ bot ++ before ++ n ++ gap ++ t ++ after) bot
  = (Some n, Some t).
Proof.
  intros Hn Ht Hs Hg Hgap Hb Ha. unfold Bot._parse_mention.
  replace (u "@" ++ bot ++ before ++ n ++ gap ++ t ++ after)
    with ((u "@" ++ bot) ++ before ++ n ++ gap ++ t ++ after)
    by now rewrite <- app_assoc.
  rewrite Mention.startswith_app, Mention.skipn_prefix. cbn [negb].
  destruct n as [|a n']; [discriminate|].
  pose proof (proj1 (SplitFacts.word_cons a n') Hn) as [Hhead Hbody].
  destruct (SplitFacts.trimmed_head t Ht Hs) as (c & r & -> & Hc).
  destruct gap as [|g gap']; [contradiction|].
  assert (Hg1 : Str.isspace g = true).
  { cbn [forallb] in Hgap. now apply andb_true_iff in Hgap as [? _]. }
  assert (E : Str.strip (before ++ (a :: n') ++ (g :: gap') ++ (c :: r) ++ after)
              = (a :: n') ++ (g :: gap') ++ c :: r).
  { unfold Str.strip. rewrite SplitFacts.lstrip_spaces_app by exact Hb.
    cbn [app]. rewrite (StrFacts.lstrip_fixed a _ Hhead).
    change (a :: n' ++ g :: gap' ++ c :: r ++ after)
      with ((a :: n') ++ (g :: gap') ++ (c :: r) ++ after).
    rewrite !app_assoc. rewrite SplitFacts.rstrip_app_spaces by exact Ha.
    rewrite <- !app_assoc.
    apply Text.clean_app, Text.clean_app, Text.clean_trimmed; [discriminate|exact Hs]. }
  rewrite E. cbn [app Str.truthy negb]. unfold Split.split1.
  rewrite (StrFacts.lstrip_fixed a _ Hhead).
  change (a :: n' ++ g :: gap' ++ c :: r) with ((a :: n') ++ g :: gap' ++ c :: r).
  rewrite SplitFacts.span_word_app; [|cbn [existsb]; now rewrite Hhead, Hbody|exact Hg1].
  change (g :: gap' ++ c :: r) with ((g :: gap') ++ c :: r).
  rewrite SplitFacts.lstrip_spaces_app by exact Hgap.
  now rewrite (StrFacts.lstrip_fixed c r Hc).
Qed.

Lemma parse_mention_of_parts_witness :
  Split.is_word (u "groceries") = true
  /\ Bot._parse_mention
       (u "@" ++ u "meowlister_bot" ++ u " " ++ u "groceries" ++ u "  "
        ++ u "milk, bread" ++ u " ")
       (u "meowlister_bot")
     = (Some (u "groceries"), Some (u "milk, bread")).
Proof.
  split; [reflexivity|].
  refine (parse_mention_of_parts (u "meowlister_bot") (u "groceries") (u "milk, bread")
            (u " ") (u "  ") (u " ") eq_refl _ eq_refl _ eq_refl eq_refl eq_refl);
    discriminate.
Defined.

(** X22.  What a parsed mention is.  When the parser of mentions gives a
    name and a text, the message starts with "@" and the bot's name, and
    what follows, trimmed, is the name, then one space or more, then the
    text; the name is one word, and the text is not empty and has no space
    at either end. *)
Theorem parse_mention_parts (message bot n t : pystr) :
  Bot._parse_mention message bot = (Some n, Some t) ->
  Str.startswith (u "@" ++ bot) message = true
  /\ Split.is_word n = true
  /\ t <> [] /\ Str.strip t = t
  /\ exists gap,
       gap <> [] /\ forallb Str.isspace gap = true
       /\ Str.strip (skipn (List.length (u "@" ++ bot)) message) = n ++ gap ++ t.
Proof.
  intros Hp. apply Mention.parsed_split in Hp as (Hstart & more & Hp).
  split; [exact Hstart|].
  exact (Mention.split1_two _ n t more (StrFacts.strip_idem _) Hp).
Qed.

Lemma parse_mention_parts_witness :
  Bot._parse_mention (u "@meowlister_bot groceries milk, bread") (u "meowlister_bot")
  = (Some (u "groceries"), Some (u "milk, bread"))
  /\ Split.is_word (u "groceries") = true.
Proof.
  split; [reflexivity|].
  exact (proj1 (proj2 (parse_mention_parts
                         (u "@meowlister_bot groceries milk, bread")
                         (u "meowlister_bot") (u "groceries") (u "milk, bread")
                         eq_refl))).
Defined.

(** ** The command line and the bot *)

Module Answers.

Section WithManager.
Variable rt : PyRuntime.
Variable cfg : BotConfig.

Lemma some_returns (m : M pystr) (st : State) :
  (exists s, fst (m st) = Ret s) -> exists s, fst (fmap Some m st) = Ret (Some s).
Proof. intros [s H]. exists s. now apply Dispatch.fmap_ret. Qed.

Lemma writes_return (g : pystr) (o : option (Dict.t PyVal)) (st : State)
    (r : Outcome pystr * State) :
  writes_then_saves cfg g o st r -> exists s, fst r = Ret s.
Proof. now intros [H _]. Qed.

End WithManager.

End Answers.

(** X23.  The command line of test_cli.py does what the bot does.  For
    each of the eight command names of Commands, handle_command prints
    exactly one string, the response of the bot's _handle_command for the
    same arguments, and leaves the list manager in the same state; when
    one raises, so does the other, with the same exception. *)
Theorem cli_matches_bot (rt : PyRuntime) (cfg : BotConfig)
    (format_1f : Number -> pystr) (action : pystr) (args : list pystr) (st : State) :
  In action Commands.ALL_COMMANDS ->
  Cli.handle_command rt cfg format_1f action args st
  = fmap (fun response => match response with Some s => [s] | None => [] end)
      (Bot._handle_command rt cfg format_1f action args) st.
Proof.
  intros H. unfold Commands.ALL_COMMANDS in H. cbn [In] in H.
  repeat destruct H as [<-|H]; try contradiction;
    unfold Cli.handle_command, Bot._handle_command; command_eqb;
    destruct args as [|a [|b rest]]; unfold fmap, bind, ret;
    repeat match goal with
           | |- context [let (_, _) := ?x in _] => destruct x as [[?|?] ?]
           end;
    reflexivity.
Qed.

Lemma cli_matches_bot_witness :
  In Commands.ADD Commands.ALL_COMMANDS
  /\ Cli.handle_command ascii_runtime default_config no_average Commands.ADD
       [u "groceries"; u "milk"] groceries_only
     = fmap (fun response => match response with Some s => [s] | None => [] end)
         (Bot._handle_command ascii_runtime default_config no_average Commands.ADD
            [u "groceries"; u "milk"])
         groceries_only.
Proof.
  assert (H : In Commands.ADD Commands.ALL_COMMANDS) by (cbn; tauto).
  split; [exact H|].
  exact (cli_matches_bot ascii_runtime default_config no_average Commands.ADD
           [u "groceries"; u "milk"] groceries_only H).
Defined.

(** X24.  The bot answers its commands and nothing else.  In a reachable
    state, _handle_command returns a response for each of the eight
    command names and for the hidden stats, whatever the arguments; for
    every other word it returns None and leaves the state as it is,
    the log included. *)
Theorem bot_answers_commands_only (rt : PyRuntime) (cfg : BotConfig)
    (format_1f : Number -> pystr) (evs : list Event) (env : State)
    (command : pystr) (args : list pystr) :
  let st := run rt cfg evs (with_lists [] env) in
  let r := Bot._handle_command rt cfg format_1f command args st in
  if existsb (Str.eqb command) (Commands.ALL_COMMANDS ++ [u "stats"])
  then exists s, fst r = Ret (Some s)
  else r = (Ret None, st).
Proof.
  intros st r.
  destruct (Tidy.reachable_sound rt cfg evs (with_lists [] env) eq_refl) as [_ Ht].
  fold st in Ht. apply (Tidy.tidy_well_typed cfg) in Ht.
  subst r. unfold Bot._handle_command, Commands.ALL_COMMANDS. cbn [app existsb].
  destruct (Str.eqb command Commands.HELP); [now eexists|].
  destruct (Str.eqb command Commands.CREATE).
  { destruct args; [now eexists|]. apply Answers.some_returns.
    eapply Answers.writes_return, Effect.create_list_effect. }
  destruct (Str.eqb command Commands.LISTS).
  { apply Answers.some_returns. now apply Reads.show_all_lists_returns. }
  destruct (Str.eqb command Commands.ADD).
  { destruct args as [|a [|b rest]]; [now eexists|now eexists|].
    apply Answers.some_returns. eapply Answers.writes_return, Effect.add_item_effect. }
  destruct (Str.eqb command Commands.REMOVE).
  { destruct args as [|a [|b rest]]; [now eexists|now eexists|].
    apply Answers.some_returns.
    eapply Answers.writes_return, Effect.remove_item_effect. }
  destruct (Str.eqb command Commands.SHOW).
  { destruct args; [now eexists|]. apply Answers.some_returns.
    apply Reads.show_list_reads. }
  destruct (Str.eqb command Commands.DELETE).
  { destruct args; [now eexists|]. apply Answers.some_returns.
    eapply Answers.writes_return, Effect.delete_list_effect. }
  destruct (Str.eqb command Commands.SEARCH).
  { destruct args; [now eexists|]. apply Answers.some_returns.
    apply Reads.search_item_reads. }
  destruct (Str.eqb command (u "stats")); [|reflexivity].
  destruct (Reads.get_stats_returns st Ht) as [s Hs]. cbn [orb].
  unfold bind. destruct (get_stats st) as [[s'|e] st']; [now eexists|discriminate].
Qed.
